(** * Two statistics notebooks, their cells as a shallow embedding

    The repository holds two Jupyter notebooks: a survival analysis
    (notable people, then NHANES III) and a multilevel regression of BMI
    (RLMS).  Each code cell is rendered here as a Rocq definition.

    Conventions of the embedding.
    - A pandas frame is a list of rows, a row is a record with one field
      per column.  Vectorised column arithmetic is elementwise, so a cell
      that assigns a column maps a function over the rows.
    - A numeric cell of an integer-valued column is [option Z]: [None] is
      pandas' missing value (NaN).  Every comparison with a missing value
      is false, every arithmetic result on a missing value is missing.
      The integer fields are two to six characters wide in the source
      files, far from the 64-bit range, so no wrap-around is written.
    - float64 quantities (survival probabilities, fitted parameters, BMI)
      are real numbers: rounding is left out of the model.
    - statsmodels, pandas' readers and numpy's random generator are the
      environment: a record of functions the cells call.
    - Top-level names that cells rebind and then read in order ([df],
      [dx], [fml]) are bound with [let] or the monad's bind in cell
      order.  Names that are read late, by a function body at call time or
      by a later cell of the multilevel kernel, live in the kernel state.
    - Legends, axis labels and grid calls draw decoration only and are
      left out, and so are the prints of a frame's shape, types and first
      rows; calls that present numbers computed from the data are logged
      as events. *)

From Stdlib Require Import List ZArith QArith Reals String Ascii Bool Lia Lra.
From Stdlib Require DecimalString.
Import ListNotations.

Close Scope Q_scope.
Close Scope R_scope.

Set Implicit Arguments.

(** ** Exceptions, outcomes and the cell monad *)

Inductive exn : Type :=
| FileNotFoundError (path : string)
| NameError (name : string)
| KeyError (key : string)
| IndexError (msg : string)
| TypeError (msg : string)
| ValueError (msg : string).

Inductive outcome (A : Type) : Type :=
| Ok (a : A)
| Raise (e : exn).

Arguments Ok {A} a.
Arguments Raise {A} e.

(** A cell runs on the kernel state and either returns or raises; the
    kernel keeps whatever was bound before the exception. *)
Definition M (St A : Type) : Type := St -> outcome A * St.

Definition ret {St A} (a : A) : M St A := fun st => (Ok a, st).

Definition bind {St A B} (c : M St A) (k : A -> M St B) : M St B :=
  fun st =>
    match c st with
    | (Ok a, st') => k a st'
    | (Raise e, st') => (Raise e, st')
    end.

Definition raise {St A} (e : exn) : M St A := fun st => (Raise e, st).

Definition lift {St A} (o : outcome A) : M St A := fun st => (o, st).

Definition get {St} : M St St := fun st => (Ok st, st).

Definition modify {St} (f : St -> St) : M St unit := fun st => (Ok tt, f st).

Declare Scope cell_scope.
Delimit Scope cell_scope with cell.
Notation "x <- c ;; k" := (bind c (fun x => k))
  (at level 61, c at next level, right associativity) : cell_scope.
Notation "' pat <- c ;; k" := (bind c (fun x => match x with pat => k end))
  (at level 61, pat pattern, c at next level, right associativity) : cell_scope.
Notation "c ;; k" := (bind c (fun _ => k))
  (at level 61, right associativity) : cell_scope.

(** [for x in xs: body]. *)
Fixpoint for_each {St A} (xs : list A) (body : A -> M St unit) : M St unit :=
  match xs with
  | [] => ret tt
  | x :: rest => bind (body x) (fun _ => for_each rest body)
  end.

(** ** numpy and pandas helpers shared by both notebooks *)

(** Integer-valued numeric cell; [None] is NaN. *)
Definition cell : Type := option Z.

Definition cell_sub (a b : cell) : cell :=
  match a, b with
  | Some x, Some y => Some (x - y)%Z
  | _, _ => None
  end.

Definition cell_add (a b : cell) : cell :=
  match a, b with
  | Some x, Some y => Some (x + y)%Z
  | _, _ => None
  end.

Definition cell_scale (k : Z) (a : cell) : cell :=
  match a with
  | Some x => Some (k * x)%Z
  | None => None
  end.

(** [a > b], [a >= b], [a < b], [a == b] on cells: false on NaN. *)
Definition cell_gt (a b : cell) : bool :=
  match a, b with
  | Some x, Some y => (y <? x)%Z
  | _, _ => false
  end.

Definition cell_ge (a b : cell) : bool :=
  match a, b with
  | Some x, Some y => (y <=? x)%Z
  | _, _ => false
  end.

Definition cell_lt (a b : cell) : bool := cell_gt b a.

Definition cell_eq (a b : cell) : bool :=
  match a, b with
  | Some x, Some y => (x =? y)%Z
  | _, _ => false
  end.

(** [.astype(np.int)] of a boolean column. *)
Definition astype_int (b : bool) : cell := Some (if b then 1 else 0)%Z.

Definition notna {A} (a : option A) : bool :=
  match a with
  | Some _ => true
  | None => false
  end.

(** [a[ii]] with a boolean array [ii] of the length of [a]. *)
Definition mask {A} (a : list A) (ii : list bool) : list A :=
  map fst (filter snd (combine a ii)).

(** [np.diff(a)]: [a[i+1] - a[i]]. *)
Fixpoint np_diff (a : list R) : list R :=
  match a with
  | x :: (y :: _) as rest => (y - x)%R :: np_diff rest
  | _ => []
  end.

(** Elementwise binary operation on arrays of equal length. *)
Fixpoint map2 {A B C} (f : A -> B -> C) (xs : list A) (ys : list B) : list C :=
  match xs, ys with
  | x :: xs', y :: ys' => f x y :: map2 f xs' ys'
  | _, _ => []
  end.

(** [pr > 0] on reals. *)
Definition Rgtb (x y : R) : bool := if Rlt_dec y x then true else false.

(** [compression=] argument of the pandas readers: a codec, none, or the
    default, which infers the codec from the file name. *)
Inductive compression : Type := infer | gzip | bz2 | zip | xz | uncompressed.

Fixpoint ends_with (suffix s : string) : bool :=
  if (String.length s <? String.length suffix)%nat then false
  else if String.eqb s suffix then true
  else match s with
       | EmptyString => false
       | String _ rest => ends_with suffix rest
       end.

(** The codec a reader uses. *)
Definition effective_compression (path : string) (c : compression) : compression :=
  match c with
  | infer =>
      if ends_with ".gz" path then gzip
      else if ends_with ".bz2" path then bz2
      else if ends_with ".zip" path then zip
      else if ends_with ".xz" path then xz
      else uncompressed
  | _ => c
  end.

(** [np.linspace(a, b, n)]. *)
Definition linspace (a b : R) (n : nat) : list R :=
  map (fun i => (a + INR i * (b - a) / INR (n - 1))%R) (seq 0 n).

Fixpoint contains (needle s : string) : bool :=
  if String.prefix needle s then true
  else match s with
       | EmptyString => false
       | String _ rest => contains needle rest
       end.

(** A path without a URL scheme names a file of the local file system. *)
Definition is_local_path (path : string) : bool := negb (contains "://" path).

(** [os.path.join(a, b)] on POSIX. *)
Definition os_path_join (a b : string) : string :=
  if String.prefix "/" b then b
  else if (String.eqb a "" || ends_with "/" a)%bool then (a ++ b)%string
  else (a ++ "/" ++ b)%string.

(** * The survival-analysis notebook *)

Module Survival.

Local Open Scope cell_scope.
Local Open Scope string_scope.

(** ** Frames *)

(** [schich.csv.gz], as written by the conversion cell: four columns. *)
Record schich_row : Type := {
  PrsLabel : option string;
  BYear : cell;
  DYear : cell;
  Gender : option string
}.

(** The notable-people frame once [status] and [lifespan] are assigned. *)
Record notable : Type := {
  row : schich_row;
  status : cell;
  lifespan : cell
}.

(** [NHANES_III_MORT_2011_PUBLIC.dat.gz] read with
    [names = ["seqn", "eligstat", "mortstat", "permth_int", "permth_exam"]]. *)
Record mort_rec : Type := {
  seqn : cell;
  eligstat : cell;
  mortstat : cell;
  permth_int : cell;
  permth_exam : cell
}.

(** [adult.dat.gz] read with [names = ["seqn", "sex", "age", "county",
    "urbanrural", "state", "region", "poverty"]]; [poverty] is a decimal
    field. *)
Record adult_rec : Type := {
  adult_seqn : cell;
  sex : cell;
  age : cell;
  county : cell;
  urbanrural : cell;
  state : cell;
  region : cell;
  poverty : option Q
}.

(** The merged NHANES frame after the derived-variable cell. *)
Record subject : Type := {
  mort : mort_rec;
  adult : adult_rec;
  female : cell;
  rural : cell;
  age_int : cell;
  end_ : cell
}.

(** ** What statsmodels returns *)

(** [sm.SurvfuncRight]: the product-limit estimate, one probability per
    distinct time. *)
Record SurvfuncRight : Type := {
  surv_times : list R;
  surv_prob : list R;
  surv_paired : List.length surv_times = List.length surv_prob
}.

(** [PHReg.fit()]: only what the notebook reads back. *)
Record PHRegResults : Type := {
  summary : string;
  baseline_cumulative_hazard : list (list R * list R)
}.

(** ** Events: what a run does to the outside and what it presents *)

Inductive event : Type :=
| read_excel (path : string)
| to_csv (path : string) (c : compression)
| read_csv (path : string) (c : compression)
| read_fwf (path : string) (colspecs : list (nat * nat)) (names : list string)
    (c : compression)
| distplot (x : list cell)
| call_SurvfuncRight (time status : list cell) (entry : option (list cell))
    (title : option string)
| surv_plot (sf : SurvfuncRight)
| call_lowess (endog exog : list R)
| plot (x y : list R) (label : string)
| call_PHReg_notable (fml : string) (data : list notable)
| call_predict (result : PHRegResults) (exog : list notable) (BYear : list R)
    (Gender : string)
| call_PHReg (fml status : string) (entry : list cell)
    (strata : option (list cell)) (data : list subject)
| show_summary (r : PHRegResults).

(** ** The environment: files and library routines *)

Record Env : Type := {
  pd_read_csv : string -> outcome (list schich_row);
  pd_read_fwf_mort : string -> outcome (list mort_rec);
  pd_read_fwf_adult : string -> outcome (list adult_rec);
  sm_SurvfuncRight : list cell -> list cell -> option (list cell) -> outcome SurvfuncRight;
  sm_PHReg_notable : string -> list notable -> outcome PHRegResults;
  (** [result.predict(exog=dx).predicted_values], [dx] with its [BYear]
      and [Gender] columns overwritten *)
  sm_predict : PHRegResults -> list notable -> list R -> string -> outcome (list R);
  sm_PHReg : string -> string -> list cell -> option (list cell) -> list subject ->
             outcome PHRegResults;
  sm_lowess : list R -> list R -> list (R * R)
}.

(** ** Kernel state *)

(** [s] is the one global a function body reads at call time. *)
Record kernel : Type := {
  s : option SurvfuncRight;
  log : list event
}.

Definition fresh : kernel := {| s := None; log := [] |}.

Definition emit (e : event) : M kernel unit :=
  modify (fun k => {| s := s k; log := (log k ++ [e])%list |}).

Definition assign_s (sf : SurvfuncRight) : M kernel unit :=
  modify (fun k => {| s := Some sf; log := log k |}).

(** ** The function the notebook defines *)

(** [def hazard(sf)], lines 539-546 and again, identically, 843-850:
<<
    tm = s.surv_times
    pr = s.surv_prob
    ii = (pr > 0)
    tm = tm[ii]
    pr = pr[ii]
    lpr = np.log(pr)
    return tm[0:-1], -np.diff(lpr) / np.diff(tm)
>>
    The body never mentions its parameter [sf]; [s] is looked up in the
    global namespace when the function runs. *)
Definition hazard (k : kernel) (sf : SurvfuncRight) : outcome (list R * list R) :=
  match s k with
  | None => Raise (NameError "s")
  | Some s =>
      let tm := surv_times s in
      let pr := surv_prob s in
      let ii := map (fun p => Rgtb p 0) pr in
      let tm := mask tm ii in
      let pr := mask pr ii in
      let lpr := map ln pr in
      Ok (removelast tm, map2 Rdiv (map Ropp (np_diff lpr)) (np_diff tm))
  end.

Definition call_hazard (sf : SurvfuncRight) : M kernel (list R * list R) :=
  fun k => (hazard k sf, k).

(** ** Notable people *)

(** Lines 389-393: the Excel conversion, switched off. *)
Definition cell_convert_excel : M kernel unit :=
  if false then
    emit (read_excel "/nfs/kshedden/Schich/SchichDataS1_FB.xlsx") ;;
    emit (to_csv "schich.csv.gz" gzip)
  else ret tt.

(** Line 411: [df = pd.read_csv("schich.csv.gz")]. *)
Definition cell_read_schich (env : Env) : M kernel (list schich_row) :=
  emit (read_csv "schich.csv.gz" infer) ;;
  lift (pd_read_csv env "schich.csv.gz").

(** Line 439: [df["status"] = 1]. *)
Definition cell_status (df : list schich_row) : list (schich_row * cell) :=
  map (fun r => (r, Some 1%Z)) df.

(** Lines 469-472: [lifespan = DYear - BYear], keep [lifespan > 0]. *)
Definition add_lifespan (r : schich_row * cell) : notable :=
  {| row := fst r; status := snd r; lifespan := cell_sub (DYear (fst r)) (BYear (fst r)) |}.

Definition positive_lifespan (r : notable) : bool := cell_gt (lifespan r) (Some 0%Z).

Definition cell_lifespan (df : list (schich_row * cell)) : M kernel (list notable) :=
  let df := map add_lifespan df in
  let df := filter positive_lifespan df in
  emit (distplot (map lifespan df)) ;;
  ret df.

Definition Gender_is (sex : string) (r : notable) : bool :=
  match Gender (row r) with
  | Some g => String.eqb g sex
  | None => false
  end.

(** Lines 499-502: one survival curve per sex. *)
Definition cell_surv_by_sex (env : Env) (df : list notable) : M kernel unit :=
  for_each ["Female"; "Male"] (fun sex =>
    let dx := filter (Gender_is sex) df in
    emit (call_SurvfuncRight (map lifespan dx) (map status dx) None (Some sex)) ;;
    sf <- lift (sm_SurvfuncRight env (map lifespan dx) (map status dx) None) ;;
    assign_s sf ;;
    emit (surv_plot sf)).

(** Lines 549-553: one hazard curve per sex. *)
Definition cell_hazard_by_sex (env : Env) (df : list notable) : M kernel unit :=
  for_each ["Female"; "Male"] (fun sex =>
    let dx := filter (Gender_is sex) df in
    emit (call_SurvfuncRight (map lifespan dx) (map status dx) None (Some sex)) ;;
    sf <- lift (sm_SurvfuncRight env (map lifespan dx) (map status dx) None) ;;
    assign_s sf ;;
    '(tm, hz) <- call_hazard sf ;;
    emit (plot tm (map ln hz) sex)).

(** [(df.BYear >= byear) & (df.BYear < byear + 500)]. *)
Definition born_in (byear : Z) (r : notable) : bool :=
  (cell_ge (BYear (row r)) (Some byear) && cell_lt (BYear (row r)) (Some (byear + 500)%Z))%bool.

Definition show_Z (z : Z) : string := DecimalString.NilZero.string_of_int (Z.to_int z).

(** ["%d-%d" % (byear, byear+500)]. *)
Definition era_label (byear : Z) : string :=
  show_Z byear ++ "-" ++ show_Z (byear + 500).

(** [np.arange(0, 2000, 500)]. *)
Definition eras : list Z := [0; 500; 1000; 1500]%Z.

(** Lines 580-585. *)
Definition cell_surv_by_era (env : Env) (df : list notable) : M kernel unit :=
  for_each eras (fun byear =>
    let dx := filter (born_in byear) df in
    emit (call_SurvfuncRight (map lifespan dx) (map status dx) None
            (Some (era_label byear))) ;;
    sf <- lift (sm_SurvfuncRight env (map lifespan dx) (map status dx) None) ;;
    assign_s sf ;;
    emit (surv_plot sf)).

(** Lines 610-615. *)
Definition cell_hazard_by_era (env : Env) (df : list notable) : M kernel unit :=
  for_each eras (fun byear =>
    let dx := filter (born_in byear) df in
    emit (call_SurvfuncRight (map lifespan dx) (map status dx) None None) ;;
    sf <- lift (sm_SurvfuncRight env (map lifespan dx) (map status dx) None) ;;
    assign_s sf ;;
    '(tm, hz) <- call_hazard sf ;;
    emit (plot tm (map ln hz) (era_label byear))).

(** [df.Gender.isin(["Female", "Male"])]. *)
Definition Gender_isin (names : list string) (r : notable) : bool :=
  match Gender (row r) with
  | Some g => existsb (String.eqb g) names
  | None => false
  end.

(** Lines 638-643. *)
Definition cell_phreg_notable (env : Env) (df : list notable) :
    M kernel (list notable * PHRegResults) :=
  let df := filter (Gender_isin ["Female"; "Male"]) df in
  let fml := "lifespan ~ BYear + Gender + BYear*Gender" in
  emit (call_PHReg_notable fml df) ;;
  result3 <- lift (sm_PHReg_notable env fml df) ;;
  emit (show_summary result3) ;;
  ret (df, result3).

(** A row whose columns are all missing. *)
Definition missing_notable : notable :=
  {| row := {| PrsLabel := None; BYear := None; DYear := None; Gender := None |};
     status := None;
     lifespan := None |}.

(** [dx[column] = values] with an array of [n] values: a frame with no
    row takes its index from the values and gets [n] rows, missing in the
    columns it had; a frame of [n] rows takes the values; a frame of
    another length raises. *)
Definition setitem_array (dx : list notable) (n : nat) : outcome (list notable) :=
  match dx with
  | [] => Ok (repeat missing_notable n)
  | _ =>
      if (List.length dx =? n)%nat then Ok dx
      else Raise (ValueError "Length of values does not match length of index")
  end.

(** Lines 662-667: predicted log hazard ratios over a grid of birth
    years, for women and for men. *)
Definition cell_predict (env : Env) (df : list notable) (result3 : PHRegResults) :
    M kernel unit :=
  for_each ["Female"; "Male"] (fun gender =>
    let dx := firstn 100 df in
    let BYear := linspace 0 2019 100 in
    dx <- lift (setitem_array dx (List.length BYear)) ;;
    emit (call_predict result3 dx BYear gender) ;;
    y <- lift (sm_predict env result3 dx BYear gender) ;;
    emit (plot BYear y gender)).

(** Lines 692-698: the baseline hazard from the fitted cumulative hazard. *)
Definition cell_baseline_hazard (result3 : PHRegResults) : M kernel unit :=
  match baseline_cumulative_hazard result3 with
  | [] => raise (IndexError "list index out of range")
  | bhaz :: _ =>
      let x := fst bhaz in
      let y := snd bhaz in
      let haz := map2 Rdiv (np_diff y) (np_diff x) in
      emit (plot (removelast x) haz "")
  end.

(** ** NHANES III *)

(** Line 735. *)
Definition dpath : string := "/nfs/kshedden/NHANES/".

(** Lines 751-755: the mortality file. *)
Definition cell_read_mort (env : Env) : M kernel (list mort_rec) :=
  let fname := "NHANES_III_MORT_2011_PUBLIC.dat.gz" in
  let colspecs := [(0, 5); (14, 15); (15, 16); (43, 46); (46, 49)]%nat in
  let names := ["seqn"; "eligstat"; "mortstat"; "permth_int"; "permth_exam"] in
  let f := os_path_join dpath fname in
  emit (read_fwf f colspecs names gzip) ;;
  lift (pd_read_fwf_mort env f).

(** Keys of a merge match when equal; pandas also pairs missing keys
    with each other. *)
Definition key_match (a b : cell) : bool :=
  match a, b with
  | Some x, Some y => (x =? y)%Z
  | None, None => true
  | _, _ => false
  end.

(** [pd.merge(surv, df, left_on="seqn", right_on="seqn")]: inner join,
    in the order of the left keys. *)
Definition pd_merge (surv : list mort_rec) (df : list adult_rec) :
    list (mort_rec * adult_rec) :=
  flat_map (fun l => map (pair l) (filter (fun r => key_match (seqn l) (adult_seqn r)) df))
           surv.

(** Lines 771-776: the interview file, merged with the mortality file. *)
Definition cell_read_adult (env : Env) (surv : list mort_rec) :
    M kernel (list (mort_rec * adult_rec)) :=
  let fname := "adult.dat.gz" in
  let colspecs :=
    [(0, 5); (14, 15); (17, 19); (28, 31); (33, 34); (32, 33); (34, 35); (35, 41)]%nat in
  let names :=
    ["seqn"; "sex"; "age"; "county"; "urbanrural"; "state"; "region"; "poverty"] in
  let f := os_path_join dpath fname in
  emit (read_fwf f colspecs names gzip) ;;
  df <- lift (pd_read_fwf_adult env f) ;;
  ret (pd_merge surv df).

(** [.replace({888888: np.nan})]. *)
Definition replace_888888 (p : option Q) : option Q :=
  match p with
  | Some q => if Qeq_bool q 888888 then None else Some q
  | None => None
  end.

(** Lines 792-796, on one row. *)
Definition derive (r : mort_rec * adult_rec) : subject :=
  let m := fst r in
  let a := snd r in
  let a := {| adult_seqn := adult_seqn a; sex := sex a; age := age a;
              county := county a; urbanrural := urbanrural a; state := state a;
              region := region a; poverty := replace_888888 (poverty a) |} in
  let age_int := cell_scale 12 (age a) in
  {| mort := m;
     adult := a;
     female := astype_int (cell_eq (sex a) (Some 2%Z));
     rural := astype_int (cell_eq (urbanrural a) (Some 2%Z));
     age_int := age_int;
     end_ := cell_add age_int (permth_int m) |}.

(** A row [df.dropna()] keeps: no column is missing. *)
Definition complete (r : subject) : bool :=
  (notna (seqn (mort r)) && notna (eligstat (mort r)) && notna (mortstat (mort r))
   && notna (permth_int (mort r)) && notna (permth_exam (mort r))
   && notna (sex (adult r)) && notna (age (adult r)) && notna (county (adult r))
   && notna (urbanrural (adult r)) && notna (state (adult r)) && notna (region (adult r))
   && notna (poverty (adult r))
   && notna (female r) && notna (rural r) && notna (age_int r) && notna (end_ r))%bool.

(** Lines 792-798. *)
Definition cell_derive (df : list (mort_rec * adult_rec)) : list subject :=
  let df := map derive df in
  filter complete df.

(** Line 825: [df = df.loc[df.end > df.age_int]]. *)
Definition cell_positive (df : list subject) : list subject :=
  filter (fun r => cell_gt (end_ r) (age_int r)) df.

(** [sex = {0: "Male", 1: "Female"}]. *)
Definition sex_label (female : Z) : string :=
  if (female =? 0)%Z then "Male" else "Female".

Definition Rdiv12 (t : R) : R := (t / 12)%R.

(** Lines 855-862: smoothed log hazard for men and for women. *)
Definition cell_hazard_nhanes (env : Env) (df : list subject) : M kernel unit :=
  for_each [0; 1]%Z (fun f =>
    let dx := filter (fun r => cell_eq (female r) (Some f)) df in
    emit (call_SurvfuncRight (map end_ dx) (map (fun r => mortstat (mort r)) dx)
            (Some (map age_int dx)) None) ;;
    sf <- lift (sm_SurvfuncRight env (map end_ dx) (map (fun r => mortstat (mort r)) dx)
                  (Some (map age_int dx))) ;;
    assign_s sf ;;
    '(tm, hz) <- call_hazard sf ;;
    emit (call_lowess (map ln hz) (map Rdiv12 tm)) ;;
    let ha := sm_lowess env (map ln hz) (map Rdiv12 tm) in
    emit (plot (map fst ha) (map snd ha) (sex_label f))).

Definition fml_nhanes : string := "end ~ female + rural + C(region) + poverty".

(** Lines 887-891. *)
Definition cell_model1 (env : Env) (df : list subject) : M kernel unit :=
  let fml := fml_nhanes in
  emit (call_PHReg fml "mortstat" (map age_int df) None df) ;;
  result1 <- lift (sm_PHReg env fml "mortstat" (map age_int df) None df) ;;
  emit (show_summary result1).

(** Lines 907-911. *)
Definition cell_model2 (env : Env) (df : list subject) : M kernel unit :=
  let fml := fml_nhanes in
  let strata := map (fun r => state (adult r)) df in
  emit (call_PHReg fml "mortstat" (map age_int df) (Some strata) df) ;;
  result2 <- lift (sm_PHReg env fml "mortstat" (map age_int df) (Some strata) df) ;;
  emit (show_summary result2).

(** Lines 928-932. *)
Definition cell_model3 (env : Env) (df : list subject) : M kernel unit :=
  let fml := fml_nhanes in
  let strata := map (fun r => county (adult r)) df in
  emit (call_PHReg fml "mortstat" (map age_int df) (Some strata) df) ;;
  result3 <- lift (sm_PHReg env fml "mortstat" (map age_int df) (Some strata) df) ;;
  emit (show_summary result3).

(** ** The notebook, cell after cell *)

Definition nhanes_cells (env : Env) : M kernel unit :=
  surv <- cell_read_mort env ;;
  df <- cell_read_adult env surv ;;
  let df := cell_derive df in
  let df := cell_positive df in
  cell_hazard_nhanes env df ;;
  cell_model1 env df ;;
  cell_model2 env df ;;
  cell_model3 env df.

Definition notables_cells (env : Env) : M kernel unit :=
  cell_convert_excel ;;
  df <- cell_read_schich env ;;
  let df := cell_status df in
  df <- cell_lifespan df ;;
  cell_surv_by_sex env df ;;
  cell_hazard_by_sex env df ;;
  cell_surv_by_era env df ;;
  cell_hazard_by_era env df ;;
  '(df, result3) <- cell_phreg_notable env df ;;
  cell_predict env df result3 ;;
  cell_baseline_hazard result3.

Definition notebook (env : Env) : M kernel unit :=
  notables_cells env ;;
  nhanes_cells env.

(** The frames the two analyses work on, as functions of the files. *)
Definition notables_frame (csv : list schich_row) : list notable :=
  filter positive_lifespan (map add_lifespan (cell_status csv)).

Definition nhanes_frame (surv : list mort_rec) (adult : list adult_rec) : list subject :=
  cell_positive (cell_derive (pd_merge surv adult)).

End Survival.

(** * The multilevel-regression notebook *)

Module Multilevel.

Local Open Scope cell_scope.
Local Open Scope string_scope.

(** ** float64 columns: [None] is NaN *)

Definition float : Type := option R.

Definition fsub (a b : float) : float :=
  match a, b with
  | Some x, Some y => Some (x - y)%R
  | _, _ => None
  end.

Definition fadd (a b : float) : float :=
  match a, b with
  | Some x, Some y => Some (x + y)%R
  | _, _ => None
  end.

Definition fmul (a b : float) : float :=
  match a, b with
  | Some x, Some y => Some (x * y)%R
  | _, _ => None
  end.

(** ** float64 values with the infinities

    A quotient need not be a number: [x / 0] is an infinity, or NaN when
    [x] is zero too.  [dropna] removes NaN and keeps the infinities.
    Rounding, overflow and the sign of zero are left out; the zero
    divisors of the notebook are squares and sums, which are [+0.0]. *)
Inductive xfloat : Type :=
| xnan
| xinf (negative : bool)
| xnum (x : R).

Definition of_float (a : float) : xfloat :=
  match a with
  | Some x => xnum x
  | None => xnan
  end.

(** [Series.notna()] on such a column. *)
Definition xnotna (a : xfloat) : bool :=
  match a with
  | xnan => false
  | _ => true
  end.

(** The value when it is a number; a plot draws nothing for NaN or an
    infinity. *)
Definition finite (a : xfloat) : float :=
  match a with
  | xnum x => Some x
  | _ => None
  end.

Definition fdiv (a b : xfloat) : xfloat :=
  match a, b with
  | xnum x, xnum y =>
      if Req_dec_T y 0 then
        if Req_dec_T x 0 then xnan else xinf (Rgtb 0 x)
      else xnum (x / y)%R
  | xnum _, xinf _ => xnum 0%R
  | xinf n, xnum y => xinf (xorb n (Rgtb 0 y))
  | _, _ => xnan
  end.

(** [a ** 2]. *)
Definition fsquare (a : xfloat) : xfloat :=
  match a with
  | xnum x => xnum (x * x)%R
  | xinf _ => xinf false
  | xnan => xnan
  end.

(** [np.exp]. *)
Definition fexp (a : xfloat) : xfloat :=
  match a with
  | xnum x => xnum (exp x)
  | xinf true => xnum 0%R
  | xinf false => xinf false
  | xnan => xnan
  end.

(** The values of a column that are not missing. *)
Definition present (xs : list float) : list R :=
  flat_map (fun x => match x with Some v => [v] | None => [] end) xs.

(** [Series.mean()]: missing values are skipped; NaN when nothing is left. *)
Definition mean (xs : list float) : float :=
  match present xs with
  | [] => None
  | v => Some (fold_right Rplus 0%R v / INR (List.length v))%R
  end.

Definition Reqb (x y : R) : bool := if Req_dec_T x y then true else false.

(** [Series.unique()]: first occurrences, in order. *)
Fixpoint unique (xs : list R) : list R :=
  match xs with
  | [] => []
  | x :: rest => x :: filter (fun y => negb (Reqb y x)) (unique rest)
  end.

(** ** Frames *)

(** A cell of a csv column before conversion. *)
Inductive raw : Type :=
| nan
| num (x : R)
| str (t : string).

Definition raw_notna (c : raw) : bool :=
  match c with
  | nan => false
  | _ => true
  end.

Definition raw_is (c : raw) (t : string) : bool :=
  match c with
  | str u => String.eqb u t
  | _ => false
  end.

(** [rlms.csv.gz]: the twelve columns [cols] of the conversion cell. *)
Module Csv.
Record row : Type := {
  idind : raw; year : raw; psu : raw; marst : raw; h5 : raw; h6 : raw;
  h7_2 : raw; m1 : raw; m2 : raw; o38a : raw; j57 : raw; j59 : raw
}.
End Csv.

(** The same frame once the columns of [qv] are numeric. *)
Module Num.
Record row : Type := {
  idind : float; year : float; psu : raw; marst : raw; h5 : raw; h6 : float;
  h7_2 : raw; m1 : float; m2 : float; o38a : float; j57 : float; j59 : float
}.
End Num.

(** ... and once the derived variables are assigned. *)
Module Df.
Record row : Type := {
  base : Num.row;
  female : cell;
  age : float;
  bmi : xfloat;
  year_cen : float;
  age_cen : float;
  birth_year_cen : float
}.
End Df.

(** The analysis frame [dx]: seven columns. *)
Module Dx.
Record row : Type := {
  idind : float;
  bmi : xfloat;
  age_cen : float;
  female : cell;
  birth_year_cen : float;
  year_cen : float;
  psu : raw
}.
End Dx.

(** ** What statsmodels returns *)

Record OLSResults : Type := {
  ols_summary : string
}.

Record MixedLMResults : Type := {
  params : string -> option R;
  scale : R;
  summary : string
}.

(** ** Events *)

Inductive errors_mode : Type := errors_raise | errors_coerce.

Definition vc_formula : Type := list (string * string).

Inductive event : Type :=
| read_stata (path : string) (columns : list string)
| to_csv (path : string) (c : compression)
| read_csv (path : string) (c : compression)
| call_to_numeric (column : string) (errors : errors_mode)
| call_OLS (fml : string) (data : list Dx.row)
| call_MixedLM (fml groups : string) (vcf : option vc_formula) (data : list Dx.row)
| print_summary (text : string)
| print_counts (counts : list (nat * nat))
| print_float (x : xfloat)
| lineplot (x : list R) (y : list float) (color : string).

(** ** The environment *)

Record Env : Type := {
  pd_read_csv : string -> outcome (list Csv.row);
  (** pandas' reading of one text cell as a number *)
  parse_number : string -> option R;
  (** [groupby(...).size().value_counts()] of a column: for each number of
      rows per group, the number of groups *)
  pd_group_sizes : list raw -> list (nat * nat);
  sm_OLS : string -> list Dx.row -> outcome OLSResults;
  sm_MixedLM : string -> string -> option vc_formula -> list Dx.row ->
               outcome MixedLMResults;
  (** numpy's global generator, as functions of its state *)
  np_random_choice : nat -> list R -> nat -> list R;
  np_random_normal : nat -> R
}.

(** ** Kernel state *)

(** Values of the names other than the two frames. *)
Inductive pyval : Type :=
| py_float (x : float)
| py_params (p : string -> option R)
| py_result (r : MixedLMResults).

(** The frames [df] and [dx] (the dataset), the rest of the global
    namespace, the state of numpy's random generator and the log.  [df]
    enters the state in its final shape, when the derived variables are
    assigned; before that the cells hand it on directly. *)
Record kernel : Type := {
  df : option (list Df.row);
  dx : option (list Dx.row);
  globals : string -> option pyval;
  rng : nat;
  log : list event
}.

Definition fresh (seed : nat) : kernel :=
  {| df := None; dx := None; globals := fun _ => None; rng := seed; log := [] |}.

Definition emit (e : event) : M kernel unit :=
  modify (fun k => {| df := df k; dx := dx k; globals := globals k; rng := rng k;
                      log := (log k ++ [e])%list |}).

Definition assign_df (v : list Df.row) : M kernel unit :=
  modify (fun k => {| df := Some v; dx := dx k; globals := globals k; rng := rng k;
                      log := log k |}).

Definition assign_dx (v : list Dx.row) : M kernel unit :=
  modify (fun k => {| df := df k; dx := Some v; globals := globals k; rng := rng k;
                      log := log k |}).

Definition assign (name : string) (v : pyval) : M kernel unit :=
  modify (fun k => {| df := df k; dx := dx k;
                      globals := fun n => if String.eqb n name then Some v else globals k n;
                      rng := rng k; log := log k |}).

Definition next_draw : M kernel nat :=
  fun k => (Ok (rng k),
            {| df := df k; dx := dx k; globals := globals k; rng := S (rng k);
               log := log k |}).

Definition read_df : M kernel (list Df.row) :=
  fun k => match df k with
           | Some v => (Ok v, k)
           | None => (Raise (NameError "df"), k)
           end.

Definition read_dx : M kernel (list Dx.row) :=
  fun k => match dx k with
           | Some v => (Ok v, k)
           | None => (Raise (NameError "dx"), k)
           end.

Definition read_float (name : string) : M kernel float :=
  fun k => match globals k name with
           | Some (py_float x) => (Ok x, k)
           | Some _ => (Raise (TypeError name), k)
           | None => (Raise (NameError name), k)
           end.

Definition read_params (name : string) : M kernel (string -> option R) :=
  fun k => match globals k name with
           | Some (py_params p) => (Ok p, k)
           | Some _ => (Raise (TypeError name), k)
           | None => (Raise (NameError name), k)
           end.

Definition read_result (name : string) : M kernel MixedLMResults :=
  fun k => match globals k name with
           | Some (py_result r) => (Ok r, k)
           | Some _ => (Raise (TypeError name), k)
           | None => (Raise (NameError name), k)
           end.

(** [pa[key]]. *)
Definition item (pa : string -> option R) (key : string) : M kernel R :=
  match pa key with
  | Some x => ret x
  | None => raise (KeyError key)
  end.

(** ** Cells *)

(** Lines 64-77: the Stata conversion, switched off. *)
Definition cell_convert_stata : M kernel unit :=
  if false then
    let cols := ["idind"; "year"; "psu"; "marst"; "h5"; "h6"; "h7_2"; "m1";
                 "m2"; "o38a"; "j57"; "j59"] in
    emit (read_stata "RLMS_IND_1994_2015_v2_STATA.dta" cols) ;;
    emit (to_csv "rlms.csv.gz" gzip)
  else ret tt.

(** Line 157. *)
Definition cell_read_csv (env : Env) : M kernel (list Csv.row) :=
  emit (read_csv "/nfs/kshedden/RLMS/rlms.csv.gz" infer) ;;
  lift (pd_read_csv env "/nfs/kshedden/RLMS/rlms.csv.gz").

(** [pd.to_numeric(c, errors=...)] on one cell: a number stays, a text
    cell is parsed, and a text that is no number raises or becomes NaN
    as [errors] says. *)
Definition pd_to_numeric (env : Env) (errors : errors_mode) (c : raw) : outcome float :=
  match c with
  | nan => Ok None
  | num x => Ok (Some x)
  | str t =>
      match parse_number env t with
      | Some x => Ok (Some x)
      | None =>
          match errors with
          | errors_coerce => Ok None
          | errors_raise => Raise (ValueError "Unable to parse string")
          end
      end
  end.

Definition obind {A B} (o : outcome A) (k : A -> outcome B) : outcome B :=
  match o with
  | Ok a => k a
  | Raise e => Raise e
  end.

Fixpoint map_outcome {A B} (f : A -> outcome B) (xs : list A) : outcome (list B) :=
  match xs with
  | [] => Ok []
  | x :: rest =>
      obind (f x) (fun y => obind (map_outcome f rest) (fun ys => Ok (y :: ys)))
  end.

(** Lines 187-188: the number of weighings per subject, tabulated. *)
Definition cell_count_responses (env : Env) (df : list Csv.row) : M kernel unit :=
  let sub := filter (fun r => (raw_notna (Csv.idind r) && raw_notna (Csv.m1 r))%bool) df in
  emit (print_counts (pd_group_sizes env (map Csv.idind sub))).

(** Line 207. *)
Definition qv : list string :=
  ["idind"; "year"; "h6"; "m1"; "m2"; "o38a"; "j57"; "j59"].

(** The eight assignments [df[c] = pd.to_numeric(df[c], errors)] seen
    from one row. *)
Definition to_numeric_row (env : Env) (errors : errors_mode) (r : Csv.row) :
    outcome Num.row :=
  obind (pd_to_numeric env errors (Csv.idind r)) (fun idind =>
  obind (pd_to_numeric env errors (Csv.year r)) (fun year =>
  obind (pd_to_numeric env errors (Csv.h6 r)) (fun h6 =>
  obind (pd_to_numeric env errors (Csv.m1 r)) (fun m1 =>
  obind (pd_to_numeric env errors (Csv.m2 r)) (fun m2 =>
  obind (pd_to_numeric env errors (Csv.o38a r)) (fun o38a =>
  obind (pd_to_numeric env errors (Csv.j57 r)) (fun j57 =>
  obind (pd_to_numeric env errors (Csv.j59 r)) (fun j59 =>
  Ok {| Num.idind := idind; Num.year := year; Num.psu := Csv.psu r;
        Num.marst := Csv.marst r; Num.h5 := Csv.h5 r; Num.h6 := h6;
        Num.h7_2 := Csv.h7_2 r; Num.m1 := m1; Num.m2 := m2; Num.o38a := o38a;
        Num.j57 := j57; Num.j59 := j59 |})))))))).

(** Lines 207-209. *)
Definition cell_to_numeric (env : Env) (df : list Csv.row) : M kernel (list Num.row) :=
  for_each qv (fun c => emit (call_to_numeric c errors_coerce)) ;;
  lift (map_outcome (to_numeric_row env errors_coerce) df).

Definition age_of (r : Num.row) : float := fsub (Num.year r) (Num.h6 r).

Definition bmi_of (r : Num.row) : xfloat :=
  fdiv (of_float (Num.m1 r)) (fsquare (fdiv (of_float (Num.m2 r)) (xnum 100%R))).

(** Lines 226-233. *)
Definition cell_derive (df : list Num.row) : M kernel unit :=
  let year_mean := mean (map Num.year df) in
  let age_mean := mean (map age_of df) in
  let h6_mean := mean (map Num.h6 df) in
  assign "year_mean" (py_float year_mean) ;;
  assign "age_mean" (py_float age_mean) ;;
  assign_df (map (fun r =>
    {| Df.base := r;
       Df.female := astype_int (raw_is (Num.h5 r) "female");
       Df.age := age_of r;
       Df.bmi := bmi_of r;
       Df.year_cen := fsub (Num.year r) year_mean;
       Df.age_cen := fsub (age_of r) age_mean;
       Df.birth_year_cen := fsub (Num.h6 r) h6_mean |}) df).

(** [df[["idind", "bmi", "age_cen", "female", "birth_year_cen",
    "year_cen", "psu"]]], one row. *)
Definition select (r : Df.row) : Dx.row :=
  {| Dx.idind := Num.idind (Df.base r);
     Dx.bmi := Df.bmi r;
     Dx.age_cen := Df.age_cen r;
     Dx.female := Df.female r;
     Dx.birth_year_cen := Df.birth_year_cen r;
     Dx.year_cen := Df.year_cen r;
     Dx.psu := Num.psu (Df.base r) |}.

Definition complete (r : Dx.row) : bool :=
  (notna (Dx.idind r) && xnotna (Dx.bmi r) && notna (Dx.age_cen r)
   && notna (Dx.female r) && notna (Dx.birth_year_cen r) && notna (Dx.year_cen r)
   && raw_notna (Dx.psu r))%bool.

Definition raw_of_float (x : float) : raw :=
  match x with
  | Some v => num v
  | None => nan
  end.

(** Lines 251-253. *)
Definition cell_dx (env : Env) : M kernel unit :=
  df <- read_df ;;
  assign_dx (filter complete (map select df)) ;;
  dx <- read_dx ;;
  emit (print_counts (pd_group_sizes env (map (fun r => raw_of_float (Dx.idind r)) dx))).

(** Lines 277-280. *)
Definition cell_ols (env : Env) : M kernel unit :=
  dx <- read_dx ;;
  emit (call_OLS "bmi ~ age_cen*female + year_cen" dx) ;;
  result0 <- lift (sm_OLS env "bmi ~ age_cen*female + year_cen" dx) ;;
  emit (print_summary (ols_summary result0)).

Definition idind_isin (idx_use : list R) (r : Dx.row) : bool :=
  match Dx.idind r with
  | Some i => existsb (Reqb i) idx_use
  | None => false
  end.

(** Lines 298-300: keep the rows of 2000 randomly chosen subjects. *)
Definition cell_subsample (env : Env) : M kernel unit :=
  dx <- read_dx ;;
  let idx := unique (present (map Dx.idind dx)) in
  if (List.length idx <? 2000)%nat then
    raise (ValueError "Cannot take a larger sample than population when 'replace=False'")
  else
    g <- next_draw ;;
    let idx_use := np_random_choice env g idx 2000 in
    assign_dx (filter (idind_isin idx_use) dx).

(** [sm.MixedLM.from_formula(fml, groups=..., vc_formula=..., data=dx)],
    [fit()], [print(result.summary())], the result bound to [name]. *)
Definition fit_mixedlm (env : Env) (name fml groups : string) (vcf : option vc_formula) :
    M kernel unit :=
  dx <- read_dx ;;
  emit (call_MixedLM fml groups vcf dx) ;;
  result <- lift (sm_MixedLM env fml groups vcf dx) ;;
  assign name (py_result result) ;;
  emit (print_summary (summary result)).

(** Lines 323-326. *)
Definition cell_model1 (env : Env) : M kernel unit :=
  fit_mixedlm env "result1" "bmi ~ age_cen*female + year_cen" "idind" None.

(** Lines 376-379: the intraclass correlation. *)
Definition cell_icc : M kernel unit :=
  result1 <- read_result "result1" ;;
  let pa := params result1 in
  assign "pa" (py_params pa) ;;
  v <- item pa "idind Var" ;;
  emit (print_float (fdiv (xnum v) (xnum (v + scale result1)%R))).

(** [range(n)]. *)
Definition range (n : nat) : list nat := seq 0 n.

(** Lines 399-406: ten simulated trajectories under the random
    intercepts model.  [pa] and [age_mean] are whatever earlier cells
    left in the namespace. *)
Definition cell_simulate1 (env : Env) : M kernel unit :=
  pa <- read_params "pa" ;;
  a <- item pa "Intercept" ;;
  b <- item pa "age_cen" ;;
  v <- item pa "idind Var" ;;
  let s := sqrt v in
  for_each (range 10) (fun _ =>
    let x := [20; 60]%R in
    age_mean <- read_float "age_mean" ;;
    g <- next_draw ;;
    let z := np_random_normal env g in
    let y := map (fun xi =>
               fadd (fadd (Some a) (fmul (Some b) (fsub (Some xi) age_mean)))
                    (Some (s * z)%R)) x in
    emit (lineplot x y "purple")).

(** Lines 434-438. *)
Definition cell_model2 (env : Env) : M kernel unit :=
  let vcf := [("i", "1"); ("s", "0 + age_cen")] in
  fit_mixedlm env "result2" "bmi ~ age_cen*female + year_cen" "idind" (Some vcf).

(** Lines 455-467. *)
Definition cell_simulate2 (env : Env) : M kernel unit :=
  result2 <- read_result "result2" ;;
  let pa := params result2 in
  assign "pa" (py_params pa) ;;
  a <- item pa "Intercept" ;;
  b <- item pa "age_cen" ;;
  vi <- item pa "i Var" ;;
  let si := sqrt vi in
  vs <- item pa "s Var" ;;
  let ss := sqrt vs in
  for_each (range 10) (fun _ =>
    let x := [20; 60]%R in
    g1 <- next_draw ;;
    let a1 := (a + si * np_random_normal env g1)%R in
    g2 <- next_draw ;;
    let b1 := (b + ss * np_random_normal env g2)%R in
    age_mean <- read_float "age_mean" ;;
    let y := map (fun xi => fadd (Some a1) (fmul (Some b1) (fsub (Some xi) age_mean))) x in
    emit (lineplot x y "orange")).

(** [np.exp(-d**2 / (2 * s**2)) / np.sqrt(2 * np.pi * s**2)], [d] being
    [x - m], [x - s2] or [x + s2] in the cells below. *)
Definition normal_density (d s : R) : float :=
  let e := fdiv (xnum (- d ^ 2)%R) (xnum (2 * s ^ 2)%R) in
  finite (fdiv (fexp e) (xnum (sqrt (2 * PI * s ^ 2)))).

(** Lines 493-501: the estimated distribution of the age slopes. *)
Definition cell_slope_density : M kernel unit :=
  result2 <- read_result "result2" ;;
  let pa := params result2 in
  assign "pa" (py_params pa) ;;
  m <- item pa "age_cen" ;;
  v <- item pa "s Var" ;;
  let s := sqrt v in
  let x := linspace (m - 3 * s) (m + 3 * s) 100 in
  let y := map (fun xi => normal_density (xi - m) s) x in
  emit (lineplot x y "").

(** Lines 525-530. *)
Definition cell_model3 (env : Env) : M kernel unit :=
  let vcf := [("i", "0 + C(idind)"); ("s", "0 + C(idind):age_cen"); ("ipsu", "1")] in
  fit_mixedlm env "result3" "bmi ~ age_cen*female + year_cen" "psu" (Some vcf).

(** Lines 552-566: BMI at the mean age in a PSU one standard deviation
    above and one below the population mean. *)
Definition cell_psu_density : M kernel unit :=
  result3 <- read_result "result3" ;;
  let pa := params result3 in
  assign "pa" (py_params pa) ;;
  v1 <- item pa "i Var" ;;
  v2 <- item pa "ipsu Var" ;;
  let s1 := sqrt v1 in
  let s2 := sqrt v2 in
  let x := linspace (-3 * s1) (3 * s1) 100 in
  let y := map (fun xi => normal_density (xi - s2) s1) x in
  emit (lineplot x y "") ;;
  let y := map (fun xi => normal_density (xi + s2) s1) x in
  emit (lineplot x y "").

(** Lines 587-592. *)
Definition cell_model4 (env : Env) : M kernel unit :=
  let vcf := [("i", "0 + C(idind)"); ("s", "0 + C(idind):age_cen");
              ("ipsu", "1"); ("spsu", "0 + age_cen")] in
  fit_mixedlm env "result4" "bmi ~ age_cen*female + year_cen" "psu" (Some vcf).

(** ** The notebook, cell after cell *)

Definition notebook (env : Env) : M kernel unit :=
  cell_convert_stata ;;
  df <- cell_read_csv env ;;
  cell_count_responses env df ;;
  df <- cell_to_numeric env df ;;
  cell_derive df ;;
  cell_dx env ;;
  cell_ols env ;;
  cell_subsample env ;;
  cell_model1 env ;;
  cell_icc ;;
  cell_simulate1 env ;;
  cell_model2 env ;;
  cell_simulate2 env ;;
  cell_slope_density ;;
  cell_model3 env ;;
  cell_psu_density ;;
  cell_model4 env.

End Multilevel.

(** * Vocabulary of the statements *)

Unset Implicit Arguments.

(** A cell keeps [Inv] when, started in a state where [Inv] holds, it
    leaves such a state, whether it returns or raises. *)
Definition keeps {St : Type} (Inv : St -> Prop) {A} (c : M St A) : Prop :=
  forall st, Inv st -> Inv (snd (c st)).

(** What a cell returns, when it returns, from a state where [Inv] holds. *)
Definition returns {St : Type} (Inv : St -> Prop) {A} (c : M St A) (Q : A -> Prop) : Prop :=
  forall st a, Inv st -> fst (c st) = Ok a -> Q a.

(** Invariants of the survival kernel speak of its log. *)
Definition logged (P : Survival.event -> Prop) (k : Survival.kernel) : Prop :=
  Forall P (Survival.log k).

(** Invariants of the multilevel kernel speak of its log and of the
    analysis frame [dx]. *)
Definition logged_dx (P : Multilevel.event -> Prop) (D : list Multilevel.Dx.row -> Prop)
    (k : Multilevel.kernel) : Prop :=
  Forall P (Multilevel.log k) /\ (forall d, Multilevel.dx k = Some d -> D d).

Definition survival_read_ok (ev : Survival.event) : Prop :=
  match ev with
  | Survival.read_excel _ => False
  | Survival.read_csv path c | Survival.read_fwf path _ _ c =>
      effective_compression path c = gzip /\ is_local_path path = true
  | _ => True
  end.

Definition multilevel_read_ok (ev : Multilevel.event) : Prop :=
  match ev with
  | Multilevel.read_stata _ _ => False
  | Multilevel.read_csv path c =>
      effective_compression path c = gzip /\ is_local_path path = true
  | _ => True
  end.

(** ** The hazard function *)

(** The entries of a survival-function estimate whose probability is
    positive, as (time, probability) pairs. *)
Definition retained (sf : Survival.SurvfuncRight) : list (R * R) :=
  filter (fun tp => Rgtb (snd tp) 0) (combine (Survival.surv_times sf) (Survival.surv_prob sf)).

Definition increasing (ts : list R) : Prop :=
  forall i, (S i < List.length ts)%nat -> (nth i ts 0 < nth (S i) ts 0)%R.

(** An estimate with three times, the last probability being zero. *)
Definition sf_three : Survival.SurvfuncRight :=
  {| Survival.surv_times := [1; 2; 3]%R;
     Survival.surv_prob := [1; / 2; 0]%R;
     Survival.surv_paired := eq_refl |}.

(** An estimate with no entry. *)
Definition sf_empty : Survival.SurvfuncRight :=
  {| Survival.surv_times := []; Survival.surv_prob := []; Survival.surv_paired := eq_refl |}.

(** ** Rows of the survival frames *)

(** A row of the NHANES frame as the derived-variable cell builds it. *)
Definition derived_columns (r : Survival.subject) : Prop :=
  Survival.age_int r = cell_scale 12 (Survival.age (Survival.adult r)) /\
  Survival.end_ r = cell_add (Survival.age_int r) (Survival.permth_int (Survival.mort r)).

(** The same in numbers, for a row without missing values. *)
Definition derived_months (r : Survival.subject) : Prop :=
  exists y p,
    Survival.age (Survival.adult r) = Some y /\
    Survival.permth_int (Survival.mort r) = Some p /\
    Survival.age_int r = Some (12 * y)%Z /\
    Survival.end_ r = Some (12 * y + p)%Z.

(** Observed duration [end - entry], equal to [permth_int], positive. *)
Definition positive_duration (r : Survival.subject) : Prop :=
  exists e a p,
    Survival.end_ r = Some e /\ Survival.age_int r = Some a /\
    Survival.permth_int (Survival.mort r) = Some p /\
    (e - a = p)%Z /\ (0 < p)%Z.

Definition positive_cell (c : cell) : Prop := exists l, c = Some l /\ (0 < l)%Z.

(** A row of the notable-people frame after the lifespan filter. *)
Definition notable_ok (r : Survival.notable) : Prop :=
  positive_cell (Survival.lifespan r) /\
  Survival.status r = Some 1%Z /\
  notna (Survival.BYear (Survival.row r)) = true /\
  notna (Survival.DYear (Survival.row r)) = true.

(** ** The NHANES calls *)

Definition nhanes_call_positive (ev : Survival.event) : Prop :=
  match ev with
  | Survival.call_SurvfuncRight time _ (Some entry) _ =>
      exists dx, time = map Survival.end_ dx /\ entry = map Survival.age_int dx /\
                 Forall positive_duration dx
  | Survival.call_PHReg _ _ entry _ data =>
      entry = map Survival.age_int data /\ Forall positive_duration data
  | _ => True
  end.

(** ** Durations reaching the library *)

Definition call_durations_positive (ev : Survival.event) : Prop :=
  match ev with
  | Survival.call_SurvfuncRight time _ None _ => Forall positive_cell time
  | Survival.call_SurvfuncRight time _ (Some entry) _ =>
      Forall2 (fun t e => exists tz ez, t = Some tz /\ e = Some ez /\ (ez < tz)%Z) time entry
  | Survival.call_PHReg_notable _ data =>
      Forall (fun r => positive_cell (Survival.lifespan r)) data
  | Survival.call_PHReg _ _ entry _ data =>
      entry = map Survival.age_int data /\
      Forall (fun r => exists e a, Survival.end_ r = Some e /\ Survival.age_int r = Some a /\
                                   (a < e)%Z) data
  | _ => True
  end.

(** A person born and dead in the same year, and an NHANES subject
    followed for zero months. *)
Definition same_year : Survival.schich_row :=
  {| Survival.PrsLabel := Some "x"%string; Survival.BYear := Some 1900%Z;
     Survival.DYear := Some 1900%Z; Survival.Gender := Some "Female"%string |}.

Definition zero_months_mort : Survival.mort_rec :=
  {| Survival.seqn := Some 7%Z; Survival.eligstat := Some 1%Z; Survival.mortstat := Some 0%Z;
     Survival.permth_int := Some 0%Z; Survival.permth_exam := Some 0%Z |}.

Definition zero_months_adult : Survival.adult_rec :=
  {| Survival.adult_seqn := Some 7%Z; Survival.sex := Some 2%Z; Survival.age := Some 40%Z;
     Survival.county := Some 31%Z; Survival.urbanrural := Some 2%Z; Survival.state := Some 26%Z;
     Survival.region := Some 1%Z; Survival.poverty := Some (3 # 2)%Q |}.

(** A world whose csv file holds that one person, and whose library
    refuses every call. *)
Definition same_year_only : Survival.Env :=
  {| Survival.pd_read_csv := fun _ => Ok [same_year];
     Survival.pd_read_fwf_mort := fun _ => Ok [zero_months_mort];
     Survival.pd_read_fwf_adult := fun _ => Ok [zero_months_adult];
     Survival.sm_SurvfuncRight := fun _ _ _ => Raise (ValueError "refused");
     Survival.sm_PHReg_notable := fun _ _ => Raise (ValueError "refused");
     Survival.sm_predict := fun _ _ _ _ => Raise (ValueError "refused");
     Survival.sm_PHReg := fun _ _ _ _ _ => Raise (ValueError "refused");
     Survival.sm_lowess := fun _ _ => [] |}.

(** ** The proportional-hazards fits on NHANES *)

(** The file reads among the events of a log. *)
Definition reads_of (evs : list Survival.event) : list Survival.event :=
  filter (fun ev => match ev with
                    | Survival.read_excel _ | Survival.read_csv _ _
                    | Survival.read_fwf _ _ _ _ => true
                    | _ => false
                    end) evs.

Definition is_phreg (ev : Survival.event) : bool :=
  match ev with
  | Survival.call_PHReg _ _ _ _ _ => true
  | _ => false
  end.

Definition phreg_calls (evs : list Survival.event) : list Survival.event :=
  filter is_phreg evs.

(** The age in months at the interview. *)
Definition months_at_interview (r : Survival.subject) : Prop :=
  exists a, Survival.age (Survival.adult r) = Some a /\ Survival.age_int r = Some (12 * a)%Z.

Definition phreg_entry_ok (ev : Survival.event) : Prop :=
  match ev with
  | Survival.call_PHReg fml status entry strata data =>
      fml = "end ~ female + rural + C(region) + poverty"%string /\
      status = "mortstat"%string /\
      entry = map Survival.age_int data /\
      Forall months_at_interview data /\
      (strata = None \/
       strata = Some (map (fun r => Survival.state (Survival.adult r)) data) \/
       strata = Some (map (fun r => Survival.county (Survival.adult r)) data))
  | _ => True
  end.

(** ** The hazard curves the survival notebook presents *)









(** ** Coercion and missing values *)





(** ** The mixed-effects fits *)

Definition is_mixedlm (ev : Multilevel.event) : bool :=
  match ev with
  | Multilevel.call_MixedLM _ _ _ _ => true
  | _ => false
  end.

Definition mixedlm_calls (evs : list Multilevel.event) : list Multilevel.event :=
  filter is_mixedlm evs.

Definition intercept_formula (f : string) : Prop :=
  f = "1"%string \/ f = "0 + C(idind)"%string.

Definition age_slope_formula (f : string) : Prop :=
  f = "0 + age_cen"%string \/ f = "0 + C(idind):age_cen"%string.

(** A [vc_formula] dictionary has a component whose formula is of the
    given kind. *)
Definition declares (vcf : Multilevel.vc_formula) (kind : string -> Prop) : Prop :=
  exists name f, In (name, f) vcf /\ kind f.

Definition mixedlm_call_ok (ev : Multilevel.event) : Prop :=
  match ev with
  | Multilevel.call_MixedLM fml groups vcf _ =>
      fml = "bmi ~ age_cen*female + year_cen"%string /\
      (groups = "idind"%string \/ groups = "psu"%string) /\
      match vcf with
      | None => True
      | Some v => declares v intercept_formula /\ declares v age_slope_formula
      end
  | _ => True
  end.

(** ** What a cell's result depends on *)

(** The dataset of the multilevel kernel: its two frames. *)
Definition same_dataset (k1 k2 : Multilevel.kernel) : Prop :=
  Multilevel.df k1 = Multilevel.df k2 /\ Multilevel.dx k1 = Multilevel.dx k2.

(** Two states agree on the names [names], on the generator and on the
    log. *)
Definition agree (names : list string) (k1 k2 : Multilevel.kernel) : Prop :=
  (forall n, In n names -> Multilevel.globals k1 n = Multilevel.globals k2 n) /\
  Multilevel.rng k1 = Multilevel.rng k2 /\
  Multilevel.log k1 = Multilevel.log k2.

(** A cell reads nothing but [names], the generator and the log. *)
Definition respects (names : list string) {A} (c : M Multilevel.kernel A) : Prop :=
  forall k1 k2, agree names k1 k2 ->
    fst (c k1) = fst (c k2) /\ agree names (snd (c k1)) (snd (c k2)).

(** Fitted parameters: intercept 0, age slope 1, no variance between
    subjects. *)
Definition flat_params (key : string) : option R :=
  if String.eqb key "Intercept" then Some 0%R
  else if String.eqb key "age_cen" then Some 1%R
  else if String.eqb key "idind Var" then Some 0%R
  else None.

(** A kernel after the fits, with the mean age [m] in [age_mean]. *)
Definition kernel_with_age_mean (m : R) : Multilevel.kernel :=
  {| Multilevel.df := Some [];
     Multilevel.dx := Some [];
     Multilevel.globals := fun n =>
       if String.eqb n "pa" then Some (Multilevel.py_params flat_params)
       else if String.eqb n "age_mean" then Some (Multilevel.py_float (Some m))
       else None;
     Multilevel.rng := 0;
     Multilevel.log := [] |}.

(** A world whose generator always draws 0. *)
Definition quiet_world : Multilevel.Env :=
  {| Multilevel.pd_read_csv := fun _ => Ok [];
     Multilevel.parse_number := fun _ => None;
     Multilevel.pd_group_sizes := fun _ => [];
     Multilevel.sm_OLS := fun _ _ => Raise (ValueError "refused");
     Multilevel.sm_MixedLM := fun _ _ _ _ => Raise (ValueError "refused");
     Multilevel.np_random_choice := fun _ _ _ => [];
     Multilevel.np_random_normal := fun _ => 0%R |}.

(** ** A small world in which the survival notebook runs to its end *)

Definition a_woman : Survival.schich_row :=
  {| Survival.PrsLabel := Some "y"%string; Survival.BYear := Some 1900%Z;
     Survival.DYear := Some 1950%Z; Survival.Gender := Some "Female"%string |}.

Definition ten_months_mort : Survival.mort_rec :=
  {| Survival.seqn := Some 7%Z; Survival.eligstat := Some 1%Z; Survival.mortstat := Some 1%Z;
     Survival.permth_int := Some 10%Z; Survival.permth_exam := Some 9%Z |}.

Definition fitted : Survival.PHRegResults :=
  {| Survival.summary := "coef"%string;
     Survival.baseline_cumulative_hazard := [([1; 2]%R, [0; 1]%R)] |}.

Definition small_world : Survival.Env :=
  {| Survival.pd_read_csv := fun _ => Ok (repeat a_woman 100);
     Survival.pd_read_fwf_mort := fun _ => Ok [ten_months_mort; zero_months_mort];
     Survival.pd_read_fwf_adult := fun _ => Ok [zero_months_adult];
     Survival.sm_SurvfuncRight := fun _ _ _ => Ok sf_empty;
     Survival.sm_PHReg_notable := fun _ _ => Ok fitted;
     Survival.sm_predict := fun _ _ _ _ => Ok [];
     Survival.sm_PHReg := fun _ _ _ _ _ => Ok fitted;
     Survival.sm_lowess := fun _ _ => [] |}.

(** The names the cells after the fits read from the namespace. *)
Definition names_read : list string :=
  ["pa"; "age_mean"; "result1"; "result2"; "result3"]%string.

(** The same namespace over another dataset. *)
Definition kernel_without_frames : Multilevel.kernel :=
  {| Multilevel.df := None;
     Multilevel.dx := None;
     Multilevel.globals := fun n =>
       if String.eqb n "year_mean" then Some (Multilevel.py_float (Some 2005%R))
       else Multilevel.globals (kernel_with_age_mean 0) n;
     Multilevel.rng := 0;
     Multilevel.log := [] |}.

(** * Further properties of the code *)

(** ** The hazard function, continued *)

Definition nonincreasing (ps : list R) : Prop :=
  forall i, (S i < List.length ps)%nat -> (nth (S i) ps 0 <= nth i ps 0)%R.

(** [np.sum]. *)
Definition Rsum (xs : list R) : R := fold_right Rplus 0%R xs.

(** ** Groups and filters of the survival frames *)

(** Born in the years the era loop covers. *)
Definition born_0_2000 (r : Survival.notable) : bool :=
  (cell_ge (Survival.BYear (Survival.row r)) (Some 0%Z)
   && cell_lt (Survival.BYear (Survival.row r)) (Some 2000%Z))%bool.

Definition female_is (f : Z) (r : Survival.subject) : bool :=
  cell_eq (Survival.female r) (Some f).

(** ** Runs that stop early *)

Definition no_mixedlm (ev : Multilevel.event) : Prop :=
  match ev with
  | Multilevel.call_MixedLM _ _ _ _ => False
  | _ => True
  end.



(** ** Centring, simulated trajectories and plotted densities *)

(** A line from (20, y0) to (60, y1) of slope [b]. *)
Definition line_of_slope (b : R) (ev : Multilevel.event) : Prop :=
  exists y0 y1 colour,
    ev = Multilevel.lineplot [20; 60]%R [Some y0; Some y1] colour /\
    (y1 - y0 = 40 * b)%R.

(** A fitted mixed model with the parameters [flat_params] and residual
    variance one, and a kernel that holds it under [name]. *)
Definition fitted_mixed (pa : string -> option R) : Multilevel.MixedLMResults :=
  {| Multilevel.params := pa; Multilevel.scale := 1%R; Multilevel.summary := ""%string |}.

Definition kernel_with_result (name : string) (r : Multilevel.MixedLMResults) :
    Multilevel.kernel :=
  {| Multilevel.df := Some [];
     Multilevel.dx := Some [];
     Multilevel.globals := fun n =>
       if String.eqb n name then Some (Multilevel.py_result r) else None;
     Multilevel.rng := 0;
     Multilevel.log := [] |}.

(** Fitted parameters that are all one. *)
Definition all_ones (key : string) : option R := Some 1%R.

Definition unit_variances (key : string) : option R :=
  if String.eqb key "i Var" then Some 1%R
  else if String.eqb key "ipsu Var" then Some 1%R
  else None.

Definition slope_params (key : string) : option R :=
  if String.eqb key "age_cen" then Some 0%R
  else if String.eqb key "s Var" then Some 1%R
  else None.

(** ** Predictions, the baseline hazard and failed reads *)


(** A world in which no file can be opened. *)
Definition no_files_survival : Survival.Env :=
  {| Survival.pd_read_csv := fun path => Raise (FileNotFoundError path);
     Survival.pd_read_fwf_mort := fun path => Raise (FileNotFoundError path);
     Survival.pd_read_fwf_adult := fun path => Raise (FileNotFoundError path);
     Survival.sm_SurvfuncRight := Survival.sm_SurvfuncRight small_world;
     Survival.sm_PHReg_notable := Survival.sm_PHReg_notable small_world;
     Survival.sm_predict := Survival.sm_predict small_world;
     Survival.sm_PHReg := Survival.sm_PHReg small_world;
     Survival.sm_lowess := Survival.sm_lowess small_world |}.

Definition no_files_multilevel : Multilevel.Env :=
  {| Multilevel.pd_read_csv := fun path => Raise (FileNotFoundError path);
     Multilevel.parse_number := Multilevel.parse_number quiet_world;
     Multilevel.pd_group_sizes := Multilevel.pd_group_sizes quiet_world;
     Multilevel.sm_OLS := Multilevel.sm_OLS quiet_world;
     Multilevel.sm_MixedLM := Multilevel.sm_MixedLM quiet_world;
     Multilevel.np_random_choice := Multilevel.np_random_choice quiet_world;
     Multilevel.np_random_normal := Multilevel.np_random_normal quiet_world |}.

(** * Runs and what the library is handed *)

(** A cell run from a state where [P] holds: [Q] holds of what it
    returns and of the state it leaves, [E] of the exception it raises
    and of the state it leaves then. *)
Definition hoare {St : Type} {A} (P : St -> Prop) (c : M St A)
    (Q : A -> St -> Prop) (E : exn -> St -> Prop) : Prop :=
  forall st, P st ->
    match c st with
    | (Ok a, st') => Q a st'
    | (Raise e, st') => E e st'
    end.

(** ** The NHANES fits *)

(** The cell [c] hands [PHReg] exactly this request: how it ends and
    what it logs is the library's answer to it, whatever the library
    is. *)
Definition hands_phreg (env : Survival.Env) (c : M Survival.kernel unit)
    (fml status : string) (entry : list cell) (strata : option (list cell))
    (data : list Survival.subject) : Prop :=
  forall k,
    fst (c k)
    = match Survival.sm_PHReg env fml status entry strata data with
      | Ok _ => Ok tt
      | Raise e => Raise e
      end /\
    Survival.log (snd (c k))
    = (Survival.log k
       ++ Survival.call_PHReg fml status entry strata data
          :: match Survival.sm_PHReg env fml status entry strata data with
             | Ok r => [Survival.show_summary r]
             | Raise _ => []
             end)%list.

(** The NHANES frame a run works on: made from the two files it reads. *)
Definition frame_read (env : Survival.Env) : list Survival.subject :=
  match Survival.pd_read_fwf_mort env
          (os_path_join Survival.dpath "NHANES_III_MORT_2011_PUBLIC.dat.gz"),
        Survival.pd_read_fwf_adult env (os_path_join Survival.dpath "adult.dat.gz") with
  | Ok surv, Ok adult => Survival.nhanes_frame surv adult
  | _, _ => []
  end.

(** The three fits on a frame, in the order of the notebook. *)
Definition nhanes_fits (df : list Survival.subject) : list Survival.event :=
  let fml := "end ~ female + rural + C(region) + poverty"%string in
  let entry := map Survival.age_int df in
  [Survival.call_PHReg fml "mortstat" entry None df;
   Survival.call_PHReg fml "mortstat" entry
     (Some (map (fun r => Survival.state (Survival.adult r)) df)) df;
   Survival.call_PHReg fml "mortstat" entry
     (Some (map (fun r => Survival.county (Survival.adult r)) df)) df].

Definition no_phreg (ev : Survival.event) : Prop := is_phreg ev = false.

(** ** Worlds for the multilevel notebook *)

(** One weighing of subject [i]: a woman born in 1960, seen in 2000,
    70 kg and 100 cm. *)
Definition subject_row (i : nat) : Multilevel.Csv.row :=
  {| Multilevel.Csv.idind := Multilevel.num (INR i);
     Multilevel.Csv.year := Multilevel.num 2000;
     Multilevel.Csv.psu := Multilevel.num 1;
     Multilevel.Csv.marst := Multilevel.nan;
     Multilevel.Csv.h5 := Multilevel.str "female";
     Multilevel.Csv.h6 := Multilevel.num 1960;
     Multilevel.Csv.h7_2 := Multilevel.nan;
     Multilevel.Csv.m1 := Multilevel.num 70;
     Multilevel.Csv.m2 := Multilevel.num 100;
     Multilevel.Csv.o38a := Multilevel.nan;
     Multilevel.Csv.j57 := Multilevel.nan;
     Multilevel.Csv.j59 := Multilevel.nan |}.

(** A world with [n] subjects, one weighing each, whose library answers
    every request: every fitted parameter is one, a sample of as many
    subjects as there are is all of them, and the [g]-th normal draw is
    [g]. *)
Definition world_of (n : nat) : Multilevel.Env :=
  {| Multilevel.pd_read_csv := fun _ => Ok (map subject_row (seq 0 n));
     Multilevel.parse_number := fun _ => None;
     Multilevel.pd_group_sizes := fun _ => [];
     Multilevel.sm_OLS := fun _ _ => Ok {| Multilevel.ols_summary := "coef" |};
     Multilevel.sm_MixedLM := fun _ _ _ _ => Ok (fitted_mixed all_ones);
     Multilevel.np_random_choice := fun _ idx _ => idx;
     Multilevel.np_random_normal := fun g => INR g |}.

(** ** The curves the survival notebook plots *)




(** ** The mixed-model fits and the library *)

(** The cell [c] hands [MixedLM] exactly this request on the analysis
    frame: how it ends, what it logs and what it binds to [name] is the
    library's answer to it, whatever the library is. *)
Definition hands_mixedlm (env : Multilevel.Env) (c : M Multilevel.kernel unit)
    (name fml groups : string) (vcf : option Multilevel.vc_formula) : Prop :=
  forall k d,
    Multilevel.dx k = Some d ->
    fst (c k)
    = match Multilevel.sm_MixedLM env fml groups vcf d with
      | Ok _ => Ok tt
      | Raise e => Raise e
      end /\
    Multilevel.log (snd (c k))
    = (Multilevel.log k
       ++ Multilevel.call_MixedLM fml groups vcf d
          :: match Multilevel.sm_MixedLM env fml groups vcf d with
             | Ok r => [Multilevel.print_summary (Multilevel.summary r)]
             | Raise _ => []
             end)%list /\
    Multilevel.globals (snd (c k)) name
    = match Multilevel.sm_MixedLM env fml groups vcf d with
      | Ok r => Some (Multilevel.py_result r)
      | Raise _ => Multilevel.globals k name
      end /\
    Multilevel.dx (snd (c k)) = Some d.

(** The four fits on a frame, in the order of the notebook. *)
Definition four_fits (d : list Multilevel.Dx.row) : list Multilevel.event :=
  let fml := "bmi ~ age_cen*female + year_cen"%string in
  [Multilevel.call_MixedLM fml "idind" None d;
   Multilevel.call_MixedLM fml "idind" (Some [("i", "1"); ("s", "0 + age_cen")]%string) d;
   Multilevel.call_MixedLM fml "psu"
     (Some [("i", "0 + C(idind)"); ("s", "0 + C(idind):age_cen"); ("ipsu", "1")]%string) d;
   Multilevel.call_MixedLM fml "psu"
     (Some [("i", "0 + C(idind)"); ("s", "0 + C(idind):age_cen");
            ("ipsu", "1"); ("spsu", "0 + age_cen")]%string) d].

(** The frame [dx] is [d], and the fits made so far are the first [n]. *)
Definition fitted_so_far (d : list Multilevel.Dx.row) (n : nat)
    (k : Multilevel.kernel) : Prop :=
  Multilevel.dx k = Some d /\
  mixedlm_calls (Multilevel.log k) = firstn n (four_fits d).

(** How a run of the notebook can end, as to its fits. *)
Definition all_four (k : Multilevel.kernel) : Prop :=
  exists d, Multilevel.dx k = Some d /\ mixedlm_calls (Multilevel.log k) = four_fits d.

Definition some_first (k : Multilevel.kernel) : Prop :=
  exists d n, mixedlm_calls (Multilevel.log k) = firstn n (four_fits d).

(** The rows of [subject_row] once the columns of [qv] are numeric. *)
Definition numeric_row (i : nat) : Multilevel.Num.row :=
  {| Multilevel.Num.idind := Some (INR i);
     Multilevel.Num.year := Some 2000%R;
     Multilevel.Num.psu := Multilevel.num 1;
     Multilevel.Num.marst := Multilevel.nan;
     Multilevel.Num.h5 := Multilevel.str "female";
     Multilevel.Num.h6 := Some 1960%R;
     Multilevel.Num.h7_2 := Multilevel.nan;
     Multilevel.Num.m1 := Some 70%R;
     Multilevel.Num.m2 := Some 100%R;
     Multilevel.Num.o38a := None;
     Multilevel.Num.j57 := None;
     Multilevel.Num.j59 := None |}.

(** The frame the derivation cell binds to [df], and the rows of it the
    analysis keeps. *)
Definition derived (nums : list Multilevel.Num.row) : list Multilevel.Df.row :=
  match Multilevel.df (snd (Multilevel.cell_derive nums (Multilevel.fresh 0))) with
  | Some v => v
  | None => []
  end.

Definition complete_rows (nums : list Multilevel.Num.row) : list Multilevel.Dx.row :=
  filter Multilevel.complete (map Multilevel.select (derived nums)).

(** ** What a run's results depend on *)

(** The trajectories of the first simulation among the events of a log. *)
Definition purple_lines (evs : list Multilevel.event) : list Multilevel.event :=
  filter (fun ev => match ev with
                    | Multilevel.lineplot _ _ color => String.eqb color "purple"
                    | _ => false
                    end) evs.

(** The trajectory the first simulation draws from the [g]-th normal
    draw. *)
Definition simulated_line (env : Multilevel.Env) (a b s : R) (age_mean : Multilevel.float)
    (g : nat) : Multilevel.event :=
  Multilevel.lineplot [20; 60]%R
    (map (fun xi =>
            Multilevel.fadd
              (Multilevel.fadd (Some a)
                 (Multilevel.fmul (Some b) (Multilevel.fsub (Some xi) age_mean)))
              (Some (s * Multilevel.np_random_normal env g)%R))
         [20; 60]%R)
    "purple".

(** C9 as the specification has it, for whole runs: two runs of the
    notebook in one world that end with the same dataset have presented
    the same results. *)
Definition decided_by_dataset (env : Multilevel.Env) : Prop :=
  forall seed1 seed2,
    same_dataset (snd (Multilevel.notebook env (Multilevel.fresh seed1)))
                 (snd (Multilevel.notebook env (Multilevel.fresh seed2))) ->
    Multilevel.log (snd (Multilevel.notebook env (Multilevel.fresh seed1)))
    = Multilevel.log (snd (Multilevel.notebook env (Multilevel.fresh seed2))).

(** * Reasoning about runs *)

Section Invariant.

Context {St : Type} (Inv : St -> Prop).

Lemma keeps_ret {A} (a : A) : keeps Inv (ret a).
Proof. intros st H. exact H. Qed.

Lemma keeps_raise {A} (e : exn) : keeps Inv (@raise St A e).
Proof. intros st H. exact H. Qed.

Lemma keeps_lift {A} (o : outcome A) : keeps Inv (lift o).
Proof. intros st H. exact H. Qed.

Lemma keeps_bind_post {A B} (Q : A -> Prop) (c : M St A) (k : A -> M St B) :
  keeps Inv c -> returns Inv c Q -> (forall a, Q a -> keeps Inv (k a)) -> keeps Inv (bind c k).
Proof.
  intros Hc Hq Hk st H. unfold bind.
  specialize (Hc st H). specialize (Hq st).
  destruct (c st) as [[a | e] st']; simpl in *.
  - apply Hk; [apply Hq; [exact H | reflexivity] | exact Hc].
  - exact Hc.
Qed.

Lemma keeps_bind {A B} (c : M St A) (k : A -> M St B) :
  keeps Inv c -> (forall a, keeps Inv (k a)) -> keeps Inv (bind c k).
Proof.
  intros Hc Hk. apply keeps_bind_post with (Q := fun _ => True); auto.
  intros st a _ _. exact I.
Qed.

Lemma keeps_for_each {A} (xs : list A) (body : A -> M St unit) :
  (forall x, keeps Inv (body x)) -> keeps Inv (for_each xs body).
Proof.
  intros Hb. induction xs as [| x rest IH]; simpl.
  - apply keeps_ret.
  - apply keeps_bind; [apply Hb | intros _; exact IH].
Qed.

End Invariant.

Lemma survival_keeps_emit (P : Survival.event -> Prop) (e : Survival.event) :
  P e -> keeps (logged P) (Survival.emit e).
Proof.
  intros He st H. unfold logged in *. simpl. apply Forall_app.
  split; [exact H | constructor; [exact He | constructor]].
Qed.

Lemma survival_keeps_assign_s (P : Survival.event -> Prop) (sf : Survival.SurvfuncRight) :
  keeps (logged P) (Survival.assign_s sf).
Proof. intros st H. exact H. Qed.

Lemma survival_keeps_call_hazard (P : Survival.event -> Prop) (sf : Survival.SurvfuncRight) :
  keeps (logged P) (Survival.call_hazard sf).
Proof. intros st H. exact H. Qed.

Lemma multilevel_keeps_emit P D (e : Multilevel.event) :
  P e -> keeps (logged_dx P D) (Multilevel.emit e).
Proof.
  intros He st [H1 H2]. split; simpl.
  - apply Forall_app. split; [exact H1 | constructor; [exact He | constructor]].
  - exact H2.
Qed.

Lemma multilevel_keeps_assign P D name v :
  keeps (logged_dx P D) (Multilevel.assign name v).
Proof. intros st H. exact H. Qed.

Lemma multilevel_keeps_assign_df P D v :
  keeps (logged_dx P D) (Multilevel.assign_df v).
Proof. intros st H. exact H. Qed.

Lemma multilevel_keeps_assign_dx P (D : list Multilevel.Dx.row -> Prop) v :
  D v -> keeps (logged_dx P D) (Multilevel.assign_dx v).
Proof.
  intros Hv st [H1 H2]. split; simpl; [exact H1 |].
  intros d Hd. injection Hd as <-. exact Hv.
Qed.

Lemma multilevel_keeps_next_draw P D : keeps (logged_dx P D) Multilevel.next_draw.
Proof. intros st H. exact H. Qed.

Lemma multilevel_keeps_read P D {A} (c : M Multilevel.kernel A) :
  (forall k, snd (c k) = k) -> keeps (logged_dx P D) c.
Proof. intros Hc st H. rewrite Hc. exact H. Qed.

Lemma multilevel_returns_read_dx P D :
  returns (logged_dx P D) Multilevel.read_dx D.
Proof.
  intros st d [_ H2] Hd. unfold Multilevel.read_dx in Hd.
  destruct (Multilevel.dx st) as [v |] eqn:E; simpl in Hd; [| discriminate].
  injection Hd as <-. apply H2. reflexivity.
Qed.

Lemma survival_returns_cell_lifespan (P : Survival.event -> Prop) df0 :
  returns (logged P) (Survival.cell_lifespan df0)
    (fun df => df = filter Survival.positive_lifespan (map Survival.add_lifespan df0)).
Proof.
  intros st a _ H. unfold Survival.cell_lifespan in H. simpl in H.
  injection H as <-. reflexivity.
Qed.

(** One step of a proof that a cell keeps an invariant: the shape of the
    cell decides the rule. *)
Ltac keeps_step :=
  lazymatch goal with
  | |- keeps _ (bind (Survival.cell_lifespan _) _) =>
      eapply keeps_bind_post;
      [ unfold Survival.cell_lifespan; cbv zeta
      | apply survival_returns_cell_lifespan
      | intros ? -> ]
  | |- keeps _ (bind Multilevel.read_dx _) =>
      eapply keeps_bind_post;
      [ apply multilevel_keeps_read; intros k; unfold Multilevel.read_dx;
        destruct (Multilevel.dx k); reflexivity
      | apply multilevel_returns_read_dx
      | intros ? ? ]
  | |- keeps _ (bind _ _) => apply keeps_bind; [ | intros ? ]
  | |- keeps _ (ret _) => apply keeps_ret
  | |- keeps _ (raise _) => apply keeps_raise
  | |- keeps _ (lift _) => apply keeps_lift
  | |- keeps _ (for_each _ _) => apply keeps_for_each; intros ?
  | |- keeps _ (Survival.emit _) => apply survival_keeps_emit
  | |- keeps _ (Survival.assign_s _) => apply survival_keeps_assign_s
  | |- keeps _ (Survival.call_hazard _) => apply survival_keeps_call_hazard
  | |- keeps _ (Multilevel.emit _) => apply multilevel_keeps_emit
  | |- keeps _ (Multilevel.assign _ _) => apply multilevel_keeps_assign
  | |- keeps _ (Multilevel.assign_df _) => apply multilevel_keeps_assign_df
  | |- keeps _ (Multilevel.assign_dx _) => apply multilevel_keeps_assign_dx
  | |- keeps _ Multilevel.next_draw => apply multilevel_keeps_next_draw
  | |- keeps _ Multilevel.read_df =>
      apply multilevel_keeps_read; intros k; unfold Multilevel.read_df;
      destruct (Multilevel.df k); reflexivity
  | |- keeps _ (Multilevel.read_float _) =>
      apply multilevel_keeps_read; intros k; unfold Multilevel.read_float;
      destruct (Multilevel.globals k _) as [[] |]; reflexivity
  | |- keeps _ (Multilevel.read_params _) =>
      apply multilevel_keeps_read; intros k; unfold Multilevel.read_params;
      destruct (Multilevel.globals k _) as [[] |]; reflexivity
  | |- keeps _ (Multilevel.read_result _) =>
      apply multilevel_keeps_read; intros k; unfold Multilevel.read_result;
      destruct (Multilevel.globals k _) as [[] |]; reflexivity
  | |- keeps _ (Multilevel.item ?pa ?key) =>
      unfold Multilevel.item; destruct (pa key)
  | |- keeps _ (match ?x with _ => _ end) => destruct x
  | |- keeps _ (if ?x then _ else _) => destruct x
  end.

Ltac unfold_survival :=
  unfold Survival.notebook, Survival.notables_cells, Survival.nhanes_cells,
    Survival.cell_convert_excel, Survival.cell_read_schich,
    Survival.cell_surv_by_sex, Survival.cell_hazard_by_sex, Survival.cell_surv_by_era,
    Survival.cell_hazard_by_era, Survival.cell_phreg_notable, Survival.cell_predict,
    Survival.cell_baseline_hazard,
    Survival.cell_read_mort, Survival.cell_read_adult, Survival.cell_hazard_nhanes,
    Survival.cell_model1, Survival.cell_model2, Survival.cell_model3;
  cbv zeta.

Ltac unfold_multilevel :=
  unfold Multilevel.notebook, Multilevel.cell_convert_stata, Multilevel.cell_read_csv,
    Multilevel.cell_count_responses, Multilevel.cell_to_numeric, Multilevel.cell_derive, Multilevel.cell_dx,
    Multilevel.cell_ols, Multilevel.cell_subsample, Multilevel.cell_model1,
    Multilevel.cell_icc, Multilevel.cell_simulate1, Multilevel.cell_model2,
    Multilevel.cell_simulate2, Multilevel.cell_slope_density, Multilevel.cell_model3,
    Multilevel.cell_psu_density, Multilevel.cell_model4, Multilevel.fit_mixedlm;
  cbv zeta.

Lemma survival_reads env : keeps (logged survival_read_ok) (Survival.notebook env).
Proof.
  unfold_survival.
  repeat keeps_step; try exact I; split; reflexivity.
Qed.

Lemma multilevel_reads env :
  keeps (logged_dx multilevel_read_ok (fun _ => True)) (Multilevel.notebook env).
Proof.
  unfold_multilevel.
  repeat keeps_step; try exact I; split; reflexivity.
Qed.

(** ** The hazard function *)

Lemma mask_times (tm pr : list R) (f : R -> bool) :
  List.length tm = List.length pr ->
  mask tm (map f pr) = map fst (filter (fun tp => f (snd tp)) (combine tm pr)).
Proof.
  revert pr. induction tm as [| t tm IH]; intros [| p pr] Hlen; simpl in *;
    try reflexivity; try discriminate.
  injection Hlen as Hlen. unfold mask in *. simpl.
  destruct (f p); simpl; rewrite IH by exact Hlen; reflexivity.
Qed.

Lemma mask_probs (tm pr : list R) (f : R -> bool) :
  List.length tm = List.length pr ->
  mask pr (map f pr) = map snd (filter (fun tp => f (snd tp)) (combine tm pr)).
Proof.
  revert pr. induction tm as [| t tm IH]; intros [| p pr] Hlen; simpl in *;
    try reflexivity; try discriminate.
  injection Hlen as Hlen. unfold mask in *. simpl.
  destruct (f p); simpl; rewrite IH by exact Hlen; reflexivity.
Qed.

Lemma np_diff_length (a : list R) : List.length (np_diff a) = (List.length a - 1)%nat.
Proof.
  induction a as [| x [| y rest] IH]; simpl in *; try reflexivity.
  rewrite IH. lia.
Qed.

Lemma map2_length {A B C} (f : A -> B -> C) xs ys :
  List.length xs = List.length ys -> List.length (map2 f xs ys) = List.length xs.
Proof.
  revert ys. induction xs as [| x xs IH]; intros [| y ys] H; simpl in *;
    try reflexivity; try discriminate.
  injection H as H. rewrite IH by exact H. reflexivity.
Qed.

(** The quotients [hazard] returns, entry by entry. *)
Lemma quotient_nth (tp : list (R * R)) (i : nat) :
  (S i < List.length tp)%nat ->
  nth i (map2 Rdiv (map Ropp (np_diff (map ln (map snd tp)))) (np_diff (map fst tp))) 0%R
  = ((ln (nth i (map snd tp) 0) - ln (nth (S i) (map snd tp) 0))
     / (nth (S i) (map fst tp) 0 - nth i (map fst tp) 0))%R.
Proof.
  revert i. induction tp as [| [t p] [| [t' p'] rest] IH]; intros i Hi; simpl in Hi; try lia.
  destruct i as [| i].
  - simpl. unfold Rdiv. ring.
  - change (nth (S i) (map2 Rdiv (map Ropp (np_diff (map ln (map snd ((t, p) :: (t', p') :: rest)))))
                   (np_diff (map fst ((t, p) :: (t', p') :: rest)))) 0%R)
      with (nth i (map2 Rdiv (map Ropp (np_diff (map ln (map snd ((t', p') :: rest)))))
                   (np_diff (map fst ((t', p') :: rest)))) 0%R).
    rewrite IH by (simpl; lia). reflexivity.
Qed.

Lemma hazard_unfold (k : Survival.kernel) (sf arg : Survival.SurvfuncRight) :
  Survival.s k = Some sf ->
  Survival.hazard k arg =
  Ok (removelast (map fst (retained sf)),
      map2 Rdiv (map Ropp (np_diff (map ln (map snd (retained sf)))))
           (np_diff (map fst (retained sf)))).
Proof.
  intros Hs. unfold Survival.hazard. rewrite Hs. unfold retained.
  rewrite (mask_times _ _ (fun p => Rgtb p 0) (Survival.surv_paired sf)).
  rewrite (mask_probs _ _ (fun p => Rgtb p 0) (Survival.surv_paired sf)).
  reflexivity.
Qed.

(** C3: for a survival-function estimate with at least two entries of
    positive probability, at strictly increasing times, [hazard] returns
    those times without the last one, and one quotient per pair of
    consecutive retained entries,
    [(log pr[i] - log pr[i+1]) / (t[i+1] - t[i])], which is the slope of
    the cumulative hazard [-log S] between the two times; so the returned
    array is one shorter than the retained times. *)
Theorem hazard_slopes (k : Survival.kernel) (sf arg : Survival.SurvfuncRight) :
  Survival.s k = Some sf ->
  (2 <= List.length (retained sf))%nat ->
  increasing (map fst (retained sf)) ->
  exists h,
    Survival.hazard k arg = Ok (removelast (map fst (retained sf)), h) /\
    List.length h = (List.length (map fst (retained sf)) - 1)%nat /\
    forall i, (i < List.length h)%nat ->
      nth i h 0%R
      = ((ln (nth i (map snd (retained sf)) 0) - ln (nth (S i) (map snd (retained sf)) 0))
         / (nth (S i) (map fst (retained sf)) 0 - nth i (map fst (retained sf)) 0))%R
      /\ nth i h 0%R
      = ((- ln (nth (S i) (map snd (retained sf)) 0) - - ln (nth i (map snd (retained sf)) 0))
         / (nth (S i) (map fst (retained sf)) 0 - nth i (map fst (retained sf)) 0))%R
      /\ (0 < nth (S i) (map fst (retained sf)) 0 - nth i (map fst (retained sf)) 0)%R.
Proof.
  intros Hs Hlen Hinc.
  eexists. split; [apply hazard_unfold; exact Hs |].
  assert (Hl : List.length
                 (map2 Rdiv (map Ropp (np_diff (map ln (map snd (retained sf)))))
                    (np_diff (map fst (retained sf))))
               = (List.length (map fst (retained sf)) - 1)%nat).
  { rewrite map2_length; rewrite length_map, !np_diff_length, !length_map; reflexivity. }
  split; [exact Hl |].
  intros i Hi. rewrite Hl, length_map in Hi.
  rewrite quotient_nth by lia.
  split; [reflexivity |]. split; [unfold Rdiv; ring |].
  specialize (Hinc i). rewrite length_map in Hinc.
  specialize (Hinc ltac:(lia)). lra.
Qed.

Lemma Rgtb_true (x : R) : (0 < x)%R -> Rgtb x 0 = true.
Proof. intros H. unfold Rgtb. destruct (Rlt_dec 0 x); [reflexivity | contradiction]. Qed.

Lemma Rgtb_false (x : R) : (x <= 0)%R -> Rgtb x 0 = false.
Proof. intros H. unfold Rgtb. destruct (Rlt_dec 0 x); [lra | reflexivity]. Qed.

Lemma retained_three : retained sf_three = [(1, 1); (2, / 2)]%R.
Proof.
  unfold retained, sf_three. simpl.
  rewrite (Rgtb_true 1%R) by lra. rewrite (Rgtb_true (/ 2)%R) by lra.
  rewrite (Rgtb_false 0%R) by lra. reflexivity.
Qed.

Lemma hazard_slopes_witness :
  exists h,
    Survival.hazard {| Survival.s := Some sf_three; Survival.log := [] |} sf_empty
    = Ok ([1%R], h) /\
    List.length h = 1%nat /\
    nth 0 h 0%R = ((ln 1 - ln (/ 2)) / (2 - 1))%R.
Proof.
  assert (Hlen : (2 <= List.length (retained sf_three))%nat)
    by (rewrite retained_three; simpl; lia).
  assert (Hinc : increasing (map fst (retained sf_three))).
  { rewrite retained_three. intros [| [| i]] Hi; simpl in *; try lia; lra. }
  destruct (hazard_slopes {| Survival.s := Some sf_three; Survival.log := [] |}
              sf_three sf_empty eq_refl Hlen Hinc) as (h & Hh & Hl & Hq).
  exists h. rewrite retained_three in Hh, Hl, Hq. simpl in Hh, Hl, Hq.
  split; [exact Hh |]. split; [exact Hl |].
  apply (Hq 0%nat). rewrite Hl. lia.
Defined.

(** C4: what [hazard] returns does not depend on its argument; it
    depends on the kernel only through the global [s]. *)
Theorem hazard_ignores_argument (k1 k2 : Survival.kernel) (sf1 sf2 : Survival.SurvfuncRight) :
  Survival.s k1 = Survival.s k2 ->
  Survival.hazard k1 sf1 = Survival.hazard k2 sf2.
Proof.
  intros Hs. unfold Survival.hazard. rewrite Hs. reflexivity.
Qed.

Lemma hazard_ignores_argument_witness :
  Survival.hazard {| Survival.s := Some sf_three; Survival.log := [] |} sf_three
  = Survival.hazard
      {| Survival.s := Some sf_three; Survival.log := [Survival.surv_plot sf_empty] |}
      sf_empty.
Proof.
  apply (hazard_ignores_argument
           {| Survival.s := Some sf_three; Survival.log := [] |}
           {| Survival.s := Some sf_three; Survival.log := [Survival.surv_plot sf_empty] |}
           sf_three sf_empty).
  reflexivity.
Defined.

(** ** Rows of the survival frames *)

Lemma cell_gt_spec (a b : cell) :
  cell_gt a b = true <-> exists x y, a = Some x /\ b = Some y /\ (y < x)%Z.
Proof.
  unfold cell_gt. split.
  - destruct a as [x |], b as [y |]; try discriminate.
    intros H. exists x, y. repeat split. apply Z.ltb_lt. exact H.
  - intros (x & y & -> & -> & H). apply Z.ltb_lt. exact H.
Qed.

Lemma derive_columns (m : Survival.mort_rec * Survival.adult_rec) :
  derived_columns (Survival.derive m).
Proof. split; reflexivity. Qed.

Lemma derived_rows (m : list (Survival.mort_rec * Survival.adult_rec)) (r : Survival.subject) :
  In r (Survival.cell_derive m) -> derived_months r.
Proof.
  unfold Survival.cell_derive. cbv zeta. intros H.
  apply filter_In in H as [H Hc]. apply in_map_iff in H as (x & <- & _).
  unfold Survival.complete in Hc. rewrite !andb_true_iff in Hc.
  destruct Hc as (((((((((((((((_ & _) & _) & Hp) & _) & _) & Ha) & _) & _) & _) & _) & _) & _)
                    & _) & _) & _).
  simpl in Hp, Ha. unfold derived_months. simpl.
  destruct (Survival.age (snd x)) as [y |]; [| discriminate].
  destruct (Survival.permth_int (fst x)) as [p |]; [| discriminate].
  exists y, p. repeat split.
Qed.

Lemma nhanes_rows (m : list (Survival.mort_rec * Survival.adult_rec)) (r : Survival.subject) :
  In r (Survival.cell_positive (Survival.cell_derive m)) ->
  derived_columns r /\ Survival.complete r = true /\ positive_duration r.
Proof.
  unfold Survival.cell_positive, Survival.cell_derive. cbv zeta.
  intros H. apply filter_In in H as [H Hgt]. apply filter_In in H as [H Hc].
  apply in_map_iff in H as (x & <- & _).
  split; [apply derive_columns |]. split; [exact Hc |].
  apply cell_gt_spec in Hgt as (e & a & He & Ha & Hlt).
  destruct (derive_columns x) as [_ Hend]. rewrite Ha, He in Hend.
  destruct (Survival.permth_int (Survival.mort (Survival.derive x))) as [p |] eqn:Hp;
    simpl in Hend; [| discriminate].
  injection Hend as Hend.
  exists e, a, p. repeat split; try assumption; lia.
Qed.

Lemma notables_rows (df0 : list (Survival.schich_row * cell)) (r : Survival.notable) :
  Forall (fun x => snd x = Some 1%Z) df0 ->
  In r (filter Survival.positive_lifespan (map Survival.add_lifespan df0)) ->
  notable_ok r.
Proof.
  intros Hst H. apply filter_In in H as [H Hpos].
  apply in_map_iff in H as (x & <- & Hx).
  rewrite Forall_forall in Hst. specialize (Hst x Hx).
  unfold Survival.positive_lifespan in Hpos.
  apply cell_gt_spec in Hpos as (l & z & Hl & Hz & Hlt). injection Hz as <-.
  unfold notable_ok. simpl in *.
  split; [exists l; split; [exact Hl | exact Hlt] |].
  split; [exact Hst |].
  destruct (Survival.DYear (fst x)), (Survival.BYear (fst x)); try discriminate.
  split; reflexivity.
Qed.

Lemma cell_status_ones (df : list Survival.schich_row) :
  Forall (fun x => snd x = Some 1%Z) (Survival.cell_status df).
Proof.
  unfold Survival.cell_status. apply Forall_forall. intros x H.
  apply in_map_iff in H as (r & <- & _). reflexivity.
Qed.

Lemma Forall_map_filter {A B} (Q : B -> Prop) (f : A -> B) (g : A -> bool) (P : A -> Prop)
    (xs : list A) :
  (forall x, In x xs -> P x) -> (forall x, P x -> Q (f x)) ->
  Forall Q (map f (filter g xs)).
Proof.
  intros HP HQ. apply Forall_forall. intros y Hy.
  apply in_map_iff in Hy as (x & <- & Hx). apply filter_In in Hx as [Hx _].
  apply HQ, HP, Hx.
Qed.

Lemma Forall_filter {A} (P : A -> Prop) (g : A -> bool) (xs : list A) :
  (forall x, In x xs -> P x) -> Forall P (filter g xs).
Proof.
  intros HP. apply Forall_forall. intros x Hx. apply filter_In in Hx as [Hx _]. apply HP, Hx.
Qed.

(** ** The NHANES calls *)

Lemma nhanes_frame_positive (m : list (Survival.mort_rec * Survival.adult_rec)) :
  Forall positive_duration (Survival.cell_positive (Survival.cell_derive m)).
Proof. apply Forall_forall. intros r Hr. apply (nhanes_rows m r Hr). Qed.

Lemma nhanes_calls_positive env :
  keeps (logged nhanes_call_positive) (Survival.notebook env).
Proof.
  unfold_survival.
  repeat keeps_step; try exact I.
  - eexists. split; [reflexivity |]. split; [reflexivity |].
    apply Forall_filter. intros r Hr. apply (nhanes_rows _ r Hr).
  - split; [reflexivity | apply nhanes_frame_positive].
  - split; [reflexivity | apply nhanes_frame_positive].
  - split; [reflexivity | apply nhanes_frame_positive].
Qed.

(** C10: every row of the merged NHANES frame has [age_int = 12 * age]
    and [end = age_int + permth_int], as columns when they are assigned
    and in numbers once the rows with missing values are dropped; after
    the filter [end > age_int] every record handed to [SurvfuncRight] or
    [PHReg] has [end - entry = permth_int > 0]. *)
Theorem nhanes_durations (env : Survival.Env) (surv : list Survival.mort_rec)
    (adult : list Survival.adult_rec) :
  Forall derived_columns (map Survival.derive (Survival.pd_merge surv adult)) /\
  Forall derived_months (Survival.cell_derive (Survival.pd_merge surv adult)) /\
  Forall (fun r => derived_columns r /\ positive_duration r)
         (Survival.nhanes_frame surv adult) /\
  Forall nhanes_call_positive
         (Survival.log (snd (Survival.notebook env Survival.fresh))).
Proof.
  split; [| split; [| split]].
  - apply Forall_forall. intros r Hr. apply in_map_iff in Hr as (m & <- & _).
    apply derive_columns.
  - apply Forall_forall. intros r Hr. apply (derived_rows _ r Hr).
  - apply Forall_forall. intros r Hr. unfold Survival.nhanes_frame in Hr.
    destruct (nhanes_rows _ r Hr) as (H1 & _ & H3). split; assumption.
  - apply (nhanes_calls_positive env Survival.fresh). constructor.
Qed.

(** ** Durations reaching the library *)

Lemma positive_duration_lt (r : Survival.subject) :
  positive_duration r ->
  exists e a, Survival.end_ r = Some e /\ Survival.age_int r = Some a /\ (a < e)%Z.
Proof.
  intros (e & a & p & He & Ha & _ & Hd & Hp). exists e, a. repeat split; try assumption. lia.
Qed.

Lemma Forall2_columns {A B C} (R : B -> C -> Prop) (f : A -> B) (g : A -> C) (xs : list A) :
  Forall (fun x => R (f x) (g x)) xs -> Forall2 R (map f xs) (map g xs).
Proof. induction 1; simpl; constructor; assumption. Qed.

Lemma notables_lifespans (g : Survival.notable -> bool)
    (df0 : list (Survival.schich_row * cell)) :
  Forall (fun x => snd x = Some 1%Z) df0 ->
  Forall positive_cell
    (map Survival.lifespan
       (filter g (filter Survival.positive_lifespan (map Survival.add_lifespan df0)))).
Proof.
  intros H. apply Forall_map_filter with (P := notable_ok).
  - intros r Hr. apply (notables_rows df0 r H Hr).
  - intros r Hr. apply Hr.
Qed.

Lemma durations_positive env :
  keeps (logged call_durations_positive) (Survival.notebook env).
Proof.
  unfold_survival.
  repeat keeps_step; try exact I;
    try (apply notables_lifespans, cell_status_ones).
  - apply Forall_filter. intros r Hr.
    apply (notables_rows _ r (cell_status_ones _) Hr).
  - apply Forall2_columns. apply Forall_filter. intros r Hr.
    destruct (positive_duration_lt r (proj2 (proj2 (nhanes_rows _ r Hr)))) as (e & z & H).
    exists e, z. exact H.
  - split; [reflexivity |]. apply Forall_forall. intros r Hr.
    apply positive_duration_lt, (nhanes_rows _ r Hr).
  - split; [reflexivity |]. apply Forall_forall. intros r Hr.
    apply positive_duration_lt, (nhanes_rows _ r Hr).
  - split; [reflexivity |]. apply Forall_forall. intros r Hr.
    apply positive_duration_lt, (nhanes_rows _ r Hr).
Qed.

(** C1, as the code has it: besides the missing-value filtering, the
    notebook's own row filters remove every record whose duration is not
    positive ([lifespan > 0] for the notable people, [end > age_int] for
    NHANES) before a survival routine of the library is called. *)
Theorem durations_filtered_by_notebook (env : Survival.Env)
    (csv : list Survival.schich_row) (surv : list Survival.mort_rec)
    (adult : list Survival.adult_rec) :
  Forall (fun r => positive_cell (Survival.lifespan r)) (Survival.notables_frame csv) /\
  Forall (fun r => exists e a, Survival.end_ r = Some e /\ Survival.age_int r = Some a /\
                               (a < e)%Z) (Survival.nhanes_frame surv adult) /\
  Forall call_durations_positive
         (Survival.log (snd (Survival.notebook env Survival.fresh))).
Proof.
  split; [| split].
  - apply Forall_forall. intros r Hr.
    apply (notables_rows _ r (cell_status_ones csv) Hr).
  - apply Forall_forall. intros r Hr. apply positive_duration_lt, (nhanes_rows _ r Hr).
  - apply (durations_positive env Survival.fresh). constructor.
Qed.

(** C1 as the specification has it fails: a record of duration zero is
    complete (no value is missing), yet the notebook's own filter takes it
    out, in both analyses; the array the library is called with is
    empty. *)
Lemma zero_duration_removed_by_notebook :
  (map Survival.lifespan (map Survival.add_lifespan (Survival.cell_status [same_year]))
     = [Some 0%Z] /\
   Survival.notables_frame [same_year] = []) /\
  (map Survival.complete (Survival.cell_derive (Survival.pd_merge [zero_months_mort]
                                                 [zero_months_adult])) = [true] /\
   map (fun r => cell_sub (Survival.end_ r) (Survival.age_int r))
       (Survival.cell_derive (Survival.pd_merge [zero_months_mort] [zero_months_adult]))
     = [Some 0%Z] /\
   Survival.nhanes_frame [zero_months_mort] [zero_months_adult] = []) /\
  Survival.log (snd (Survival.notebook same_year_only Survival.fresh))
  = [Survival.read_csv "schich.csv.gz" infer;
     Survival.distplot [];
     Survival.call_SurvfuncRight [] [] None (Some "Female"%string)].
Proof. repeat split; vm_compute; reflexivity. Qed.

(** ** The proportional-hazards fits on NHANES *)

Lemma nhanes_months (m : list (Survival.mort_rec * Survival.adult_rec)) :
  Forall months_at_interview (Survival.cell_positive (Survival.cell_derive m)).
Proof.
  apply Forall_forall. intros r Hr.
  destruct (nhanes_rows m r Hr) as ([Hage _] & _ & (e & a & p & _ & Ha & _)).
  rewrite Ha in Hage.
  destruct (Survival.age (Survival.adult r)) as [y |] eqn:Hy; [| discriminate].
  exists y. split; [exact Hy |]. rewrite Ha. exact Hage.
Qed.

Lemma phreg_entries env : keeps (logged phreg_entry_ok) (Survival.notebook env).
Proof.
  unfold_survival.
  repeat keeps_step; try exact I.
  all: repeat split; try reflexivity; try apply nhanes_months; auto.
Qed.

Lemma phreg_calls_app (xs ys : list Survival.event) :
  phreg_calls (xs ++ ys) = phreg_calls xs ++ phreg_calls ys.
Proof. apply filter_app. Qed.

(** ** File inputs *)

(** C7: whatever the files hold and the library answers, a run of either
    notebook reads csv or fixed-width files only, gzip-compressed, at
    local paths; the Excel and Stata conversion cells do nothing. *)
Theorem file_inputs_are_local_gzip_text (env_s : Survival.Env) (env_m : Multilevel.Env)
    (seed : nat) :
  Forall survival_read_ok (Survival.log (snd (Survival.notebook env_s Survival.fresh))) /\
  Forall multilevel_read_ok
         (Multilevel.log (snd (Multilevel.notebook env_m (Multilevel.fresh seed)))) /\
  Survival.cell_convert_excel = ret tt /\
  Multilevel.cell_convert_stata = ret tt.
Proof.
  split; [| split; [| split]].
  - apply (survival_reads env_s Survival.fresh). constructor.
  - apply (multilevel_reads env_m (Multilevel.fresh seed)). split; [constructor | trivial].
  - reflexivity.
  - reflexivity.
Qed.

(** ** The hazard curves the survival notebook presents *)

Section HazardLoop.

Context (env : Survival.Env) {A : Type}.
Context (time status : A -> list cell) (entry : A -> option (list cell)).
Context (title : A -> option string).
Context (shown : A -> list R -> list R -> list Survival.event).
Context (present : A -> list R -> list R -> M Survival.kernel unit).

Hypothesis present_shown : forall x tm hz k,
  present x tm hz k
  = (Ok tt, {| Survival.s := Survival.s k;
               Survival.log := Survival.log k ++ shown x tm hz |}).



End HazardLoop.






(** ** Coercion and missing values *)














(** ** The mixed-effects fits *)

Lemma mixedlm_fits env :
  keeps (logged_dx mixedlm_call_ok (fun _ => True)) (Multilevel.notebook env).
Proof.
  unfold_multilevel.
  repeat keeps_step; try exact I.
  all: split; [reflexivity |]; split; [auto |]; try exact I.
  all: split; unfold declares, intercept_formula, age_slope_formula; simpl; eauto 9.
Qed.

(** ** What a cell's result depends on *)

Section Respects.

Context (names : list string).

Lemma respects_ret {A} (a : A) : respects names (ret a).
Proof. intros k1 k2 H. split; [reflexivity | exact H]. Qed.

Lemma respects_raise {A} (e : exn) : respects names (@raise Multilevel.kernel A e).
Proof. intros k1 k2 H. split; [reflexivity | exact H]. Qed.

Lemma respects_bind {A B} (c : M Multilevel.kernel A) (k : A -> M Multilevel.kernel B) :
  respects names c -> (forall a, respects names (k a)) -> respects names (bind c k).
Proof.
  intros Hc Hk k1 k2 H. unfold bind.
  destruct (Hc k1 k2 H) as [Hfst Hsnd].
  destruct (c k1) as [o1 s1], (c k2) as [o2 s2]. simpl in *. subst o2.
  destruct o1 as [a | e].
  - apply Hk, Hsnd.
  - split; [reflexivity | exact Hsnd].
Qed.

Lemma respects_for_each {A} (xs : list A) (body : A -> M Multilevel.kernel unit) :
  (forall x, respects names (body x)) -> respects names (for_each xs body).
Proof.
  intros Hb. induction xs as [| x rest IH]; simpl.
  - apply respects_ret.
  - apply respects_bind; [apply Hb | intros _; exact IH].
Qed.

Lemma respects_emit (e : Multilevel.event) : respects names (Multilevel.emit e).
Proof.
  intros k1 k2 (Hg & Hr & Hl). split; [reflexivity |].
  split; [exact Hg |]. split; [exact Hr |]. simpl. rewrite Hl. reflexivity.
Qed.

Lemma respects_next_draw : respects names Multilevel.next_draw.
Proof.
  intros k1 k2 (Hg & Hr & Hl). unfold Multilevel.next_draw. simpl.
  split; [rewrite Hr; reflexivity |].
  split; [exact Hg |]. split; [simpl; rewrite Hr; reflexivity | exact Hl].
Qed.

Lemma respects_assign (name : string) (v : Multilevel.pyval) :
  respects names (Multilevel.assign name v).
Proof.
  intros k1 k2 (Hg & Hr & Hl). split; [reflexivity |].
  split; [| split; assumption].
  intros n Hn. simpl. destruct (String.eqb n name); [reflexivity | apply Hg, Hn].
Qed.

Lemma respects_read_float (name : string) :
  In name names -> respects names (Multilevel.read_float name).
Proof.
  intros Hn k1 k2 H. unfold Multilevel.read_float.
  rewrite (proj1 H name Hn).
  destruct (Multilevel.globals k2 name) as [[] |]; split; try reflexivity; exact H.
Qed.

Lemma respects_read_params (name : string) :
  In name names -> respects names (Multilevel.read_params name).
Proof.
  intros Hn k1 k2 H. unfold Multilevel.read_params.
  rewrite (proj1 H name Hn).
  destruct (Multilevel.globals k2 name) as [[] |]; split; try reflexivity; exact H.
Qed.

Lemma respects_read_result (name : string) :
  In name names -> respects names (Multilevel.read_result name).
Proof.
  intros Hn k1 k2 H. unfold Multilevel.read_result.
  rewrite (proj1 H name Hn).
  destruct (Multilevel.globals k2 name) as [[] |]; split; try reflexivity; exact H.
Qed.

Lemma respects_item (pa : string -> option R) (key : string) :
  respects names (Multilevel.item pa key).
Proof.
  unfold Multilevel.item. destruct (pa key); [apply respects_ret | apply respects_raise].
Qed.

End Respects.

Ltac respects_step :=
  lazymatch goal with
  | |- respects _ (bind _ _) => apply respects_bind; [ | intros ? ]
  | |- respects _ (ret _) => apply respects_ret
  | |- respects _ (raise _) => apply respects_raise
  | |- respects _ (for_each _ _) => apply respects_for_each; intros ?
  | |- respects _ (Multilevel.emit _) => apply respects_emit
  | |- respects _ Multilevel.next_draw => apply respects_next_draw
  | |- respects _ (Multilevel.assign _ _) => apply respects_assign
  | |- respects _ (Multilevel.read_float _) => apply respects_read_float; simpl; tauto
  | |- respects _ (Multilevel.read_params _) => apply respects_read_params; simpl; tauto
  | |- respects _ (Multilevel.read_result _) => apply respects_read_result; simpl; tauto
  | |- respects _ (Multilevel.item _ _) => apply respects_item
  end.

Lemma post_fit_cells_respect env :
  respects names_read Multilevel.cell_icc /\
  respects names_read (Multilevel.cell_simulate1 env) /\
  respects names_read (Multilevel.cell_simulate2 env) /\
  respects names_read Multilevel.cell_slope_density /\
  respects names_read Multilevel.cell_psu_density.
Proof.
  unfold Multilevel.cell_icc, Multilevel.cell_simulate1, Multilevel.cell_simulate2,
    Multilevel.cell_slope_density, Multilevel.cell_psu_density.
  cbv zeta.
  split; [| split; [| split; [| split]]]; repeat respects_step.
Qed.

(** C9, as the code has it: the cells share one namespace.  What the
    cells after the fits compute (the intraclass correlation, the two
    simulations, the two densities) is decided by the names earlier cells
    left bound, [pa], [age_mean], [result1], [result2] and [result3], and
    by the state of numpy's random generator: two kernels that agree on
    these end each of those cells the same way and log the same events,
    whatever else they hold. *)
Theorem cells_read_shared_namespace (env : Multilevel.Env) (k1 k2 : Multilevel.kernel) :
  agree names_read k1 k2 ->
  let same (c : M Multilevel.kernel unit) :=
    fst (c k1) = fst (c k2) /\
    Multilevel.log (snd (c k1)) = Multilevel.log (snd (c k2)) in
  same Multilevel.cell_icc /\
  same (Multilevel.cell_simulate1 env) /\
  same (Multilevel.cell_simulate2 env) /\
  same Multilevel.cell_slope_density /\
  same Multilevel.cell_psu_density.
Proof.
  intros H same.
  destruct (post_fit_cells_respect env) as (H1 & H2 & H3 & H4 & H5).
  unfold same.
  repeat split;
    first [ apply (H1 k1 k2 H) | apply (H2 k1 k2 H) | apply (H3 k1 k2 H)
          | apply (H4 k1 k2 H) | apply (H5 k1 k2 H) ].
Qed.

Lemma cells_read_shared_namespace_witness :
  fst (Multilevel.cell_simulate1 quiet_world (kernel_with_age_mean 0))
  = fst (Multilevel.cell_simulate1 quiet_world kernel_without_frames) /\
  Multilevel.log (snd (Multilevel.cell_simulate1 quiet_world (kernel_with_age_mean 0)))
  = Multilevel.log (snd (Multilevel.cell_simulate1 quiet_world kernel_without_frames)).
Proof.
  assert (H : agree names_read (kernel_with_age_mean 0) kernel_without_frames).
  { split; [| split; reflexivity].
    intros n Hn. simpl in Hn.
    repeat (destruct Hn as [<- | Hn]; [reflexivity |]). contradiction. }
  apply (cells_read_shared_namespace quiet_world (kernel_with_age_mean 0)
           kernel_without_frames H).
Defined.

(** ** A run that completes *)

(** In the small world every cell of the survival notebook runs: three
    files are read, and the three NHANES fits are called in order with the
    entry column [12 * 40] and no strata, the state, the county. *)
Example survival_run_completes :
  let run := Survival.notebook small_world Survival.fresh in
  let df := Survival.nhanes_frame [ten_months_mort; zero_months_mort] [zero_months_adult] in
  let fml := "end ~ female + rural + C(region) + poverty"%string in
  fst run = Ok tt /\
  reads_of (Survival.log (snd run))
  = [Survival.read_csv "schich.csv.gz" infer;
     Survival.read_fwf "/nfs/kshedden/NHANES/NHANES_III_MORT_2011_PUBLIC.dat.gz"
       [(0, 5); (14, 15); (15, 16); (43, 46); (46, 49)]%nat
       ["seqn"; "eligstat"; "mortstat"; "permth_int"; "permth_exam"]%string gzip;
     Survival.read_fwf "/nfs/kshedden/NHANES/adult.dat.gz"
       [(0, 5); (14, 15); (17, 19); (28, 31); (33, 34); (32, 33); (34, 35); (35, 41)]%nat
       ["seqn"; "sex"; "age"; "county"; "urbanrural"; "state"; "region"; "poverty"]%string
       gzip] /\
  map Survival.age_int df = [Some 480%Z] /\
  map Survival.end_ df = [Some 490%Z] /\
  phreg_calls (Survival.log (snd run))
  = [Survival.call_PHReg fml "mortstat" [Some 480%Z] None df;
     Survival.call_PHReg fml "mortstat" [Some 480%Z] (Some [Some 26%Z]) df;
     Survival.call_PHReg fml "mortstat" [Some 480%Z] (Some [Some 31%Z]) df].
Proof. repeat split; vm_compute; reflexivity. Qed.

(** * Further properties of the code *)

(** ** The hazard function, continued *)

Lemma removelast_len {A} (l : list A) :
  List.length (removelast l) = (List.length l - 1)%nat.
Proof.
  induction l as [| x [| y rest] IH]; simpl in *; try reflexivity.
  rewrite IH. lia.
Qed.

Lemma retained_positive (sf : Survival.SurvfuncRight) (i : nat) :
  (i < List.length (retained sf))%nat ->
  (0 < nth i (map snd (retained sf)) 0)%R.
Proof.
  intros Hi.
  change 0%R with (snd (0%R, 0%R)) at 2. rewrite map_nth.
  assert (Hin : In (nth i (retained sf) (0%R, 0%R)) (retained sf)) by (apply nth_In; exact Hi).
  unfold retained in Hin at 2. apply filter_In in Hin as [_ Hp].
  unfold Rgtb in Hp. destruct (Rlt_dec 0 (snd (nth i (retained sf) (0%R, 0%R))));
    [assumption | discriminate].
Qed.

Lemma increasing_head (t t' : R) (ts : list R) : increasing (t :: t' :: ts) -> (t < t')%R.
Proof. intros H. apply (H 0%nat). simpl. lia. Qed.

Lemma increasing_tail (t : R) (ts : list R) : increasing (t :: ts) -> increasing ts.
Proof. intros H i Hi. apply (H (S i)). simpl. lia. Qed.

Lemma quotients_telescope (tp : list (R * R)) :
  increasing (map fst tp) ->
  Rsum (map2 Rmult
          (map2 Rdiv (map Ropp (np_diff (map ln (map snd tp)))) (np_diff (map fst tp)))
          (np_diff (map fst tp)))
  = (ln (hd 1 (map snd tp)) - ln (last (map snd tp) 1))%R.
Proof.
  induction tp as [| [t p] [| [t' p'] rest] IH]; intros Hinc.
  - simpl. ring.
  - simpl. ring.
  - assert (Ht : (t < t')%R) by (apply (increasing_head _ _ (map fst rest)); exact Hinc).
    specialize (IH (increasing_tail _ _ Hinc)).
    change (Rsum (map2 Rmult
              (map2 Rdiv (map Ropp (np_diff (map ln (map snd ((t, p) :: (t', p') :: rest)))))
                 (np_diff (map fst ((t, p) :: (t', p') :: rest))))
              (np_diff (map fst ((t, p) :: (t', p') :: rest)))))
      with (- (ln p' - ln p) / (t' - t) * (t' - t)
            + Rsum (map2 Rmult
                (map2 Rdiv (map Ropp (np_diff (map ln (map snd ((t', p') :: rest)))))
                   (np_diff (map fst ((t', p') :: rest))))
                (np_diff (map fst ((t', p') :: rest)))))%R.
    rewrite IH.
    change (last (map snd ((t, p) :: (t', p') :: rest)) 1%R)
      with (last (map snd ((t', p') :: rest)) 1%R).
    simpl hd. field. lra.
Qed.

(** X1: whatever estimate is bound to [s], [hazard] returns two arrays of
    the same length, one less than the number of entries with positive
    probability (none when there are fewer than two). *)
Theorem hazard_shapes (k : Survival.kernel) (arg sf : Survival.SurvfuncRight) :
  Survival.s k = Some sf ->
  exists tm hz,
    Survival.hazard k arg = Ok (tm, hz) /\
    List.length tm = (List.length (retained sf) - 1)%nat /\
    List.length hz = List.length tm.
Proof.
  intros Hs. rewrite (hazard_unfold k sf arg Hs).
  eexists. eexists. split; [reflexivity |].
  rewrite removelast_len, length_map. split; [reflexivity |].
  rewrite map2_length; rewrite length_map, !np_diff_length, !length_map; reflexivity.
Qed.

Lemma hazard_shapes_witness :
  exists tm hz,
    Survival.hazard {| Survival.s := Some sf_three; Survival.log := [] |} sf_empty
    = Ok (tm, hz) /\
    List.length tm = (List.length (retained sf_three) - 1)%nat /\
    List.length hz = List.length tm.
Proof.
  apply (hazard_shapes {| Survival.s := Some sf_three; Survival.log := [] |}
           sf_empty sf_three).
  reflexivity.
Defined.

(** X2: when the retained times increase and the retained probabilities
    do not increase, as for a product-limit estimate, no hazard value is
    negative, and a value is zero exactly where the survival curve is flat
    between two consecutive times (there [np.log(hz)] has no finite
    value). *)
Theorem hazard_sign (k : Survival.kernel) (arg sf : Survival.SurvfuncRight) :
  Survival.s k = Some sf ->
  increasing (map fst (retained sf)) ->
  nonincreasing (map snd (retained sf)) ->
  exists tm hz,
    Survival.hazard k arg = Ok (tm, hz) /\
    forall i, (i < List.length hz)%nat ->
      (0 <= nth i hz 0)%R /\
      (nth i hz 0%R = 0%R <->
       nth i (map snd (retained sf)) 0%R = nth (S i) (map snd (retained sf)) 0%R).
Proof.
  intros Hs Hinc Hnon. rewrite (hazard_unfold k sf arg Hs).
  eexists. eexists. split; [reflexivity |].
  intros i Hi.
  rewrite map2_length in Hi
    by (rewrite length_map, !np_diff_length, !length_map; reflexivity).
  rewrite length_map, np_diff_length, !length_map in Hi.
  rewrite quotient_nth by lia.
  assert (Ht := Hinc i). rewrite length_map in Ht. specialize (Ht ltac:(lia)).
  assert (Hp := Hnon i). rewrite length_map in Hp. specialize (Hp ltac:(lia)).
  assert (H0 := retained_positive sf i ltac:(lia)).
  assert (H1 := retained_positive sf (S i) ltac:(lia)).
  set (t0 := nth i (map fst (retained sf)) 0%R) in *.
  set (t1 := nth (S i) (map fst (retained sf)) 0%R) in *.
  set (p0 := nth i (map snd (retained sf)) 0%R) in *.
  set (p1 := nth (S i) (map snd (retained sf)) 0%R) in *.
  assert (Hln : (ln p1 <= ln p0)%R).
  { destruct Hp as [Hlt | Heq]; [left; apply ln_increasing; assumption | rewrite Heq; right; reflexivity]. }
  assert (Hinv : (0 < / (t1 - t0))%R) by (apply Rinv_0_lt_compat; lra).
  split.
  - unfold Rdiv. apply Rmult_le_pos; lra.
  - split.
    + intros Hz. apply ln_inv; try assumption.
      unfold Rdiv in Hz. apply Rmult_integral in Hz. destruct Hz as [Hz | Hz]; lra.
    + intros Heq. rewrite Heq. unfold Rdiv. ring.
Qed.

Lemma hazard_sign_witness :
  exists tm hz,
    Survival.hazard {| Survival.s := Some sf_three; Survival.log := [] |} sf_empty
    = Ok (tm, hz) /\
    forall i, (i < List.length hz)%nat ->
      (0 <= nth i hz 0)%R /\
      (nth i hz 0%R = 0%R <->
       nth i (map snd (retained sf_three)) 0%R = nth (S i) (map snd (retained sf_three)) 0%R).
Proof.
  apply (hazard_sign {| Survival.s := Some sf_three; Survival.log := [] |} sf_empty sf_three).
  - reflexivity.
  - rewrite retained_three. intros [| [| i]] Hi; simpl in *; try lia; lra.
  - rewrite retained_three. intros [| [| i]] Hi; simpl in *; try lia; lra.
Defined.

(** X3: the hazard is the derivative of the cumulative hazard: when the
    retained times increase, summing [hz[i] * (t[i+1] - t[i])] gives back
    [log pr[0] - log pr[-1]], the growth of [-log S] from the first to the
    last retained time. *)
Theorem hazard_integrates (k : Survival.kernel) (arg sf : Survival.SurvfuncRight) :
  Survival.s k = Some sf ->
  increasing (map fst (retained sf)) ->
  exists tm hz,
    Survival.hazard k arg = Ok (tm, hz) /\
    Rsum (map2 Rmult hz (np_diff (map fst (retained sf))))
    = (ln (hd 1 (map snd (retained sf))) - ln (last (map snd (retained sf)) 1))%R.
Proof.
  intros Hs Hinc. rewrite (hazard_unfold k sf arg Hs).
  eexists. eexists. split; [reflexivity |].
  apply quotients_telescope. exact Hinc.
Qed.

Lemma hazard_integrates_witness :
  exists tm hz,
    Survival.hazard {| Survival.s := Some sf_three; Survival.log := [] |} sf_empty
    = Ok (tm, hz) /\
    Rsum (map2 Rmult hz (np_diff (map fst (retained sf_three))))
    = (ln (hd 1 (map snd (retained sf_three))) - ln (last (map snd (retained sf_three)) 1))%R.
Proof.
  apply (hazard_integrates {| Survival.s := Some sf_three; Survival.log := [] |}
           sf_empty sf_three).
  - reflexivity.
  - rewrite retained_three. intros [| [| i]] Hi; simpl in *; try lia; lra.
Defined.

(** ** Groups and filters of the survival frames *)

Lemma era_count (r : Survival.notable) :
  List.length (filter (fun byear => Survival.born_in byear r) Survival.eras)
  = if born_0_2000 r then 1%nat else 0%nat.
Proof.
  unfold born_0_2000, Survival.eras, Survival.born_in, cell_ge, cell_lt, cell_gt.
  destruct (Survival.BYear (Survival.row r)) as [y |]; [| reflexivity].
  simpl.
  destruct (Z.leb_spec 0 y), (Z.leb_spec 500 y), (Z.leb_spec 1000 y), (Z.leb_spec 1500 y),
    (Z.ltb_spec y 500), (Z.ltb_spec y 1000), (Z.ltb_spec y 1500), (Z.ltb_spec y 2000);
    simpl; try reflexivity; lia.
Qed.

(** X4: the four era groups of the loops over [np.arange(0, 2000, 500)]
    are disjoint and together hold exactly the people born in the years 0
    to 1999: a person is in one group if born in that range and in none
    otherwise (also when the birth year is missing). *)
Theorem era_groups_partition (df : list Survival.notable) :
  (forall r, List.length (filter (fun byear => Survival.born_in byear r) Survival.eras)
             = if born_0_2000 r then 1%nat else 0%nat) /\
  List.length (flat_map (fun byear => filter (Survival.born_in byear) df) Survival.eras)
  = List.length (filter born_0_2000 df).
Proof.
  split; [apply era_count |].
  unfold Survival.eras. simpl. rewrite app_nil_r, !length_app.
  induction df as [| r rest IH]; [reflexivity |].
  assert (H := era_count r). unfold Survival.eras in H. simpl in H. simpl.
  destruct (Survival.born_in 0 r), (Survival.born_in 500 r), (Survival.born_in 1000 r),
    (Survival.born_in 1500 r), (born_0_2000 r); simpl in *; lia.
Qed.

(** X5: the frame the notable-people regression is fit on, filtered by
    [Gender.isin(["Female", "Male"])], has exactly the rows of the two
    groups of the by-sex loops, which are disjoint; a row with another or
    a missing gender is in neither group and not in the regression. *)
Theorem sex_groups_partition (df : list Survival.notable) :
  (forall r, (Survival.Gender_is "Female" r && Survival.Gender_is "Male" r)%bool = false) /\
  (forall r, Survival.Gender_isin ["Female"; "Male"]%string r
             = (Survival.Gender_is "Female" r || Survival.Gender_is "Male" r)%bool) /\
  List.length (filter (Survival.Gender_isin ["Female"; "Male"]%string) df)
  = (List.length (filter (Survival.Gender_is "Female") df)
     + List.length (filter (Survival.Gender_is "Male") df))%nat.
Proof.
  assert (H1 : forall r,
             (Survival.Gender_is "Female" r && Survival.Gender_is "Male" r)%bool = false).
  { intros r. unfold Survival.Gender_is.
    destruct (Survival.Gender (Survival.row r)) as [g |]; [| reflexivity].
    destruct (String.eqb_spec g "Female") as [-> | _]; reflexivity. }
  assert (H2 : forall r, Survival.Gender_isin ["Female"; "Male"]%string r
             = (Survival.Gender_is "Female" r || Survival.Gender_is "Male" r)%bool).
  { intros r. unfold Survival.Gender_isin, Survival.Gender_is.
    destruct (Survival.Gender (Survival.row r)) as [g |]; [| reflexivity].
    simpl. rewrite orb_false_r. reflexivity. }
  split; [exact H1 |]. split; [exact H2 |].
  induction df as [| r rest IH]; [reflexivity |].
  simpl. rewrite H2. specialize (H1 r).
  destruct (Survival.Gender_is "Female" r), (Survival.Gender_is "Male" r);
    simpl in *; try discriminate; lia.
Qed.

Lemma derived_female (m : list (Survival.mort_rec * Survival.adult_rec)) (r : Survival.subject) :
  In r (Survival.cell_derive m) ->
  Survival.female r
  = Some (if cell_eq (Survival.sex (Survival.adult r)) (Some 2%Z) then 1%Z else 0%Z).
Proof.
  unfold Survival.cell_derive. cbv zeta. intros H.
  apply filter_In in H as [H _]. apply in_map_iff in H as (x & <- & _). reflexivity.
Qed.

Lemma female_split (l : list Survival.subject) :
  Forall (fun r => Survival.female r = Some 0%Z \/ Survival.female r = Some 1%Z) l ->
  List.length l
  = (List.length (filter (female_is 0) l) + List.length (filter (female_is 1) l))%nat.
Proof.
  induction 1 as [| r rest Hr _ IH]; [reflexivity |].
  unfold female_is in *. simpl. destruct Hr as [Hr | Hr]; rewrite Hr; simpl; lia.
Qed.

(** X6: in the NHANES frame [female] is 1 for the subjects with [sex]
    equal to 2 and 0 for all others, never missing, so the loop over
    [female in (0, 1)] splits the frame in two groups that miss no
    subject. *)
Theorem female_groups_partition (surv : list Survival.mort_rec)
    (adult : list Survival.adult_rec) :
  let df := Survival.nhanes_frame surv adult in
  Forall (fun r => Survival.female r
                   = Some (if cell_eq (Survival.sex (Survival.adult r)) (Some 2%Z)
                           then 1%Z else 0%Z)) df /\
  List.length df
  = (List.length (filter (female_is 0) df) + List.length (filter (female_is 1) df))%nat.
Proof.
  intros df.
  assert (H : Forall (fun r => Survival.female r
                   = Some (if cell_eq (Survival.sex (Survival.adult r)) (Some 2%Z)
                           then 1%Z else 0%Z)) df).
  { apply Forall_forall. intros r Hr. unfold df, Survival.nhanes_frame, Survival.cell_positive in Hr.
    apply filter_In in Hr as [Hr _]. apply (derived_female _ r Hr). }
  split; [exact H |].
  apply female_split. revert H. apply Forall_impl. intros r ->.
  destruct (cell_eq (Survival.sex (Survival.adult r)) (Some 2%Z)); auto.
Qed.

(** X7: the code 888888 for an unknown poverty ratio never reaches a
    fit: every subject of the NHANES frame has a poverty value, and it is
    not 888888. *)
Theorem poverty_sentinel_removed (surv : list Survival.mort_rec)
    (adult : list Survival.adult_rec) :
  Forall (fun r => exists q, Survival.poverty (Survival.adult r) = Some q /\
                             Qeq_bool q 888888 = false)
         (Survival.nhanes_frame surv adult).
Proof.
  apply Forall_forall. intros r Hr.
  unfold Survival.nhanes_frame, Survival.cell_positive in Hr.
  apply filter_In in Hr as [Hr _].
  unfold Survival.cell_derive in Hr. cbv zeta in Hr.
  apply filter_In in Hr as [Hr Hc]. apply in_map_iff in Hr as (x & <- & _).
  unfold Survival.complete in Hc. rewrite !andb_true_iff in Hc.
  destruct Hc as (((((_ & Hp) & _) & _) & _) & _).
  simpl in *. unfold Survival.replace_888888 in *.
  destruct (Survival.poverty (snd x)) as [q |]; [| discriminate Hp].
  destruct (Qeq_bool q 888888) eqn:E; [discriminate Hp |].
  exists q. split; [reflexivity | exact E].
Qed.

(** X8: the filter [lifespan > 0] keeps exactly the people whose birth
    and death years are both known with the death year later: a row with
    a missing year is dropped by the comparison, though [dropna] is never
    called on this frame. *)
Theorem lifespan_filter_keeps (csv : list Survival.schich_row) (r : Survival.notable) :
  In r (Survival.notables_frame csv) <->
  exists x b d,
    In x csv /\
    Survival.BYear x = Some b /\ Survival.DYear x = Some d /\ (b < d)%Z /\
    r = {| Survival.row := x; Survival.status := Some 1%Z;
           Survival.lifespan := Some (d - b)%Z |}.
Proof.
  unfold Survival.notables_frame, Survival.cell_status. split.
  - intros H. apply filter_In in H as [H Hpos].
    apply in_map_iff in H as (y & <- & Hy). apply in_map_iff in Hy as (x & <- & Hx).
    unfold Survival.positive_lifespan, Survival.add_lifespan in Hpos. simpl in Hpos.
    apply cell_gt_spec in Hpos as (l & z & Hl & Hz & Hlt). injection Hz as <-.
    unfold Survival.add_lifespan. simpl.
    destruct (Survival.DYear x) as [d |] eqn:Hd, (Survival.BYear x) as [b |] eqn:Hb;
      try discriminate.
    simpl in Hl. injection Hl as <-.
    exists x, b, d. repeat split; try assumption; try reflexivity; lia.
  - intros (x & b & d & Hx & Hb & Hd & Hlt & ->).
    apply filter_In. split.
    + apply in_map_iff. exists (x, Some 1%Z). split.
      * unfold Survival.add_lifespan. simpl. rewrite Hd, Hb. reflexivity.
      * apply in_map_iff. exists x. split; [reflexivity | exact Hx].
    + unfold Survival.positive_lifespan. simpl. apply Z.ltb_lt. lia.
Qed.

(** X9: a row of the NHANES frame joins a mortality record that is in
    the mortality file with an interview record of the same [seqn]. *)
Theorem merged_rows_share_seqn (surv : list Survival.mort_rec)
    (adult : list Survival.adult_rec) :
  Forall (fun r => In (Survival.mort r) surv /\
                   exists a, In a adult /\
                             Survival.adult_seqn a = Survival.seqn (Survival.mort r) /\
                             Survival.adult_seqn (Survival.adult r) = Survival.adult_seqn a /\
                             Survival.age (Survival.adult r) = Survival.age a /\
                             Survival.sex (Survival.adult r) = Survival.sex a)
         (Survival.nhanes_frame surv adult).
Proof.
  apply Forall_forall. intros r Hr.
  unfold Survival.nhanes_frame, Survival.cell_positive in Hr.
  apply filter_In in Hr as [Hr _].
  unfold Survival.cell_derive in Hr. cbv zeta in Hr.
  apply filter_In in Hr as [Hr Hc]. apply in_map_iff in Hr as ([m a] & <- & Hx).
  unfold Survival.pd_merge in Hx. apply in_flat_map in Hx as (l & Hl & Hx).
  apply in_map_iff in Hx as (a' & Heq & Ha). injection Heq as <- <-.
  apply filter_In in Ha as [Ha Hk].
  unfold Survival.complete in Hc. rewrite !andb_true_iff in Hc.
  destruct Hc as (((((((((((((((Hs & _) & _) & _) & _) & _) & _) & _) & _) & _) & _) & _) & _)
                    & _) & _) & _).
  simpl in *. split; [exact Hl |].
  exists a'. split; [exact Ha |]. split; [| repeat split].
  unfold Survival.key_match in Hk.
  destruct (Survival.seqn l) as [u |], (Survival.adult_seqn a') as [v |]; try discriminate.
  apply Z.eqb_eq in Hk. subst. reflexivity.
Qed.

(** ** Runs that stop early *)





(** ** Centring, simulated trajectories and plotted densities *)

Lemma sum_shift (l : list R) (m : R) :
  fold_right Rplus 0%R (map (fun v => (v - m)%R) l)
  = (fold_right Rplus 0%R l - INR (List.length l) * m)%R.
Proof.
  induction l as [| x rest IH].
  - simpl. ring.
  - cbn [map fold_right List.length]. rewrite IH, S_INR. ring.
Qed.

Lemma present_centred (xs : list Multilevel.float) (m : R) :
  Multilevel.present (map (fun x => Multilevel.fsub x (Some m)) xs)
  = map (fun v => (v - m)%R) (Multilevel.present xs).
Proof.
  induction xs as [| [x |] rest IH]; simpl; [reflexivity | f_equal; exact IH | exact IH].
Qed.

Lemma present_minus_nan (xs : list Multilevel.float) :
  Multilevel.present (map (fun x => Multilevel.fsub x None) xs) = [].
Proof.
  induction xs as [| [x |] rest IH]; simpl; [reflexivity | exact IH | exact IH].
Qed.

Lemma mean_centred (xs : list Multilevel.float) :
  Multilevel.mean (map (fun x => Multilevel.fsub x (Multilevel.mean xs)) xs)
  = option_map (fun _ => 0%R) (Multilevel.mean xs).
Proof.
  unfold Multilevel.mean. destruct (Multilevel.present xs) as [| v rest] eqn:E.
  - rewrite present_minus_nan. reflexivity.
  - rewrite present_centred, E.
    set (m := (fold_right Rplus 0 (v :: rest) / INR (List.length (v :: rest)))%R).
    cbn [option_map].
    destruct (map (fun v0 => (v0 - m)%R) (v :: rest)) as [| w ws] eqn:E'; [discriminate |].
    rewrite <- E'. rewrite sum_shift, length_map. f_equal. subst m.
    assert (INR (List.length (v :: rest)) <> 0%R) by (apply not_0_INR; discriminate).
    field. assumption.
Qed.

(** X12: the three centred columns made by the derivation cell have
    mean zero (in exact arithmetic) whenever the column they are made
    from has a mean, and are all missing otherwise; the frame keeps its
    number of rows. *)
Theorem derive_centres (df : list Multilevel.Num.row) (k : Multilevel.kernel) :
  exists d,
    Multilevel.df (snd (Multilevel.cell_derive df k)) = Some d /\
    List.length d = List.length df /\
    Multilevel.mean (map Multilevel.Df.year_cen d)
      = option_map (fun _ => 0%R) (Multilevel.mean (map Multilevel.Num.year df)) /\
    Multilevel.mean (map Multilevel.Df.age_cen d)
      = option_map (fun _ => 0%R) (Multilevel.mean (map Multilevel.age_of df)) /\
    Multilevel.mean (map Multilevel.Df.birth_year_cen d)
      = option_map (fun _ => 0%R) (Multilevel.mean (map Multilevel.Num.h6 df)).
Proof.
  eexists. split; [unfold Multilevel.cell_derive; simpl; reflexivity |].
  rewrite length_map, !map_map. cbn [Multilevel.Df.year_cen Multilevel.Df.age_cen
    Multilevel.Df.birth_year_cen].
  split; [reflexivity |]. repeat split.
  - rewrite <- (map_map Multilevel.Num.year
                  (fun x => Multilevel.fsub x (Multilevel.mean (map Multilevel.Num.year df)))).
    apply mean_centred.
  - rewrite <- (map_map Multilevel.age_of
                  (fun x => Multilevel.fsub x (Multilevel.mean (map Multilevel.age_of df)))).
    apply mean_centred.
  - rewrite <- (map_map Multilevel.Num.h6
                  (fun x => Multilevel.fsub x (Multilevel.mean (map Multilevel.Num.h6 df)))).
    apply mean_centred.
Qed.

(** X13: with a nonnegative variance between subjects and a positive
    residual variance, the cell of the intraclass correlation succeeds
    and prints the quotient [v / (v + scale)], a number and not NaN or
    an infinity; in exact arithmetic it lies in [0, 1), and it is 0 only
    when the variance between subjects is 0.  (In float64 the quotient
    can round to 1.0 when [scale] is far smaller than [v].) *)
Theorem icc_in_unit_interval (k : Multilevel.kernel) (r : Multilevel.MixedLMResults) (v : R) :
  Multilevel.globals k "result1"%string = Some (Multilevel.py_result r) ->
  Multilevel.params r "idind Var"%string = Some v ->
  (0 <= v)%R -> (0 < Multilevel.scale r)%R ->
  fst (Multilevel.cell_icc k) = Ok tt /\
  Multilevel.log (snd (Multilevel.cell_icc k))
  = (Multilevel.log k
     ++ [Multilevel.print_float (Multilevel.xnum (v / (v + Multilevel.scale r)))])%list /\
  (0 <= v / (v + Multilevel.scale r) < 1)%R /\
  ((v / (v + Multilevel.scale r))%R = 0%R <-> v = 0%R).
Proof.
  intros Hr Hv Hv0 Hs.
  assert (Hpos : (0 < v + Multilevel.scale r)%R) by lra.
  unfold Multilevel.cell_icc, bind, Multilevel.read_result, Multilevel.item.
  rewrite Hr. simpl. rewrite Hv. simpl. unfold Multilevel.fdiv.
  destruct (Req_dec_T (v + Multilevel.scale r) 0) as [E | _]; [lra |].
  split; [reflexivity |]. split; [reflexivity |]. split; [split |].
  - unfold Rdiv. apply Rmult_le_pos; [exact Hv0 |].
    left. apply Rinv_0_lt_compat. exact Hpos.
  - apply (Rmult_lt_reg_r (v + Multilevel.scale r)); [exact Hpos |].
    unfold Rdiv. rewrite Rmult_assoc, Rinv_l by lra. lra.
  - split; intros H.
    + apply (f_equal (fun x => (x * (v + Multilevel.scale r))%R)) in H.
      unfold Rdiv in H. rewrite Rmult_assoc, Rinv_l in H by lra. lra.
    + rewrite H. unfold Rdiv. ring.
Qed.

Lemma icc_in_unit_interval_witness :
  fst (Multilevel.cell_icc (kernel_with_result "result1" (fitted_mixed all_ones))) = Ok tt /\
  Multilevel.log (snd (Multilevel.cell_icc
                         (kernel_with_result "result1" (fitted_mixed all_ones))))
  = [Multilevel.print_float (Multilevel.xnum (1 / (1 + 1)))] /\
  (0 <= 1 / (1 + 1) < 1)%R /\
  ((1 / (1 + 1))%R = 0%R <-> 1%R = 0%R).
Proof.
  apply (icc_in_unit_interval (kernel_with_result "result1" (fitted_mixed all_ones))
           (fitted_mixed all_ones) 1%R);
    [reflexivity | reflexivity | lra | simpl; lra].
Defined.

Lemma simulate1_loop env (a b s m : R) (l : list nat) :
  forall k,
    Multilevel.globals k "age_mean"%string = Some (Multilevel.py_float (Some m)) ->
    exists lines,
      for_each l (fun _ : nat =>
        (age_mean <- Multilevel.read_float "age_mean" ;;
         g <- Multilevel.next_draw ;;
         Multilevel.emit
           (Multilevel.lineplot [20; 60]%R
              (map (fun xi =>
                      Multilevel.fadd
                        (Multilevel.fadd (Some a)
                           (Multilevel.fmul (Some b) (Multilevel.fsub (Some xi) age_mean)))
                        (Some (s * Multilevel.np_random_normal env g)%R))
                   [20; 60]%R)
              "purple"))%cell) k
      = (Ok tt,
         {| Multilevel.df := Multilevel.df k; Multilevel.dx := Multilevel.dx k;
            Multilevel.globals := Multilevel.globals k;
            Multilevel.rng := Multilevel.rng k + List.length l;
            Multilevel.log := (Multilevel.log k ++ lines)%list |}) /\
      List.length lines = List.length l /\
      Forall (line_of_slope b) lines.
Proof.
  induction l as [| x rest IH]; intros k Hm.
  - exists []. repeat split; [| constructor].
    destruct k; simpl. rewrite Nat.add_0_r, app_nil_r. reflexivity.
  - cbn [for_each]. set (body := fun _ : nat => _) in *.
    unfold bind at 1.
    assert (Hbody : exists line k1,
               body x k = (Ok tt, k1) /\
               Multilevel.df k1 = Multilevel.df k /\ Multilevel.dx k1 = Multilevel.dx k /\
               Multilevel.globals k1 = Multilevel.globals k /\
               Multilevel.rng k1 = S (Multilevel.rng k) /\
               Multilevel.log k1 = (Multilevel.log k ++ [line])%list /\
               line_of_slope b line).
    { subst body. cbv beta.
      unfold bind, Multilevel.read_float, Multilevel.next_draw, Multilevel.emit, modify.
      rewrite Hm. cbn.
      eexists. eexists. split; [reflexivity |]. cbn.
      repeat split.
      eexists. eexists. eexists. split; [reflexivity |]. ring. }
    destruct Hbody as (line & k1 & E & H1 & H2 & H3 & H4 & H5 & H6).
    cbv beta. unfold body at 1 in E. cbv beta in E. rewrite E.
    destruct (IH k1) as (lines & E' & Hlen & Hall).
    { rewrite H3. exact Hm. }
    rewrite E'. exists (line :: lines). repeat split.
    + rewrite H1, H2, H3, H4, H5. simpl. rewrite <- app_assoc. simpl.
      rewrite Nat.add_succ_r. reflexivity.
    + simpl. rewrite Hlen. reflexivity.
    + constructor; assumption.
Qed.

(** X14: under the random-intercepts model, with a nonnegative fitted
    variance and a known mean age, the simulation cell draws ten
    trajectories that are parallel: each is a line from age 20 to age
    60 whose rise is forty times the fitted age slope (in exact
    arithmetic), and the cell takes ten draws from the generator. *)
Theorem simulate1_parallel env (k : Multilevel.kernel) (pa : string -> option R)
    (a b v m : R) :
  Multilevel.globals k "pa"%string = Some (Multilevel.py_params pa) ->
  pa "Intercept"%string = Some a ->
  pa "age_cen"%string = Some b ->
  pa "idind Var"%string = Some v ->
  (0 <= v)%R ->
  Multilevel.globals k "age_mean"%string = Some (Multilevel.py_float (Some m)) ->
  exists lines,
    fst (Multilevel.cell_simulate1 env k) = Ok tt /\
    Multilevel.log (snd (Multilevel.cell_simulate1 env k))
      = (Multilevel.log k ++ lines)%list /\
    Multilevel.rng (snd (Multilevel.cell_simulate1 env k)) = Multilevel.rng k + 10 /\
    List.length lines = 10 /\
    Forall (line_of_slope b) lines.
Proof.
  intros Hpa Ha Hb Hv _ Hm.
  destruct (simulate1_loop env a b (sqrt v) m (Multilevel.range 10) k Hm)
    as (lines & E & Hlen & Hall).
  exists lines.
  assert (Hrun : Multilevel.cell_simulate1 env k
                 = (Ok tt,
                    {| Multilevel.df := Multilevel.df k; Multilevel.dx := Multilevel.dx k;
                       Multilevel.globals := Multilevel.globals k;
                       Multilevel.rng := Multilevel.rng k + 10;
                       Multilevel.log := (Multilevel.log k ++ lines)%list |})).
  { unfold Multilevel.cell_simulate1, bind at 1, Multilevel.read_params.
    rewrite Hpa. cbv beta iota. unfold Multilevel.item.
    rewrite Ha. unfold bind at 1, ret at 1. cbv beta iota.
    rewrite Hb. unfold bind at 1, ret at 1. cbv beta iota.
    rewrite Hv. unfold bind at 1, ret at 1. cbv beta iota zeta.
    exact E. }
  rewrite Hrun. cbn [fst snd Multilevel.log Multilevel.rng].
  repeat split; [exact Hlen | exact Hall].
Qed.

Lemma simulate1_parallel_witness :
  exists lines,
    fst (Multilevel.cell_simulate1 quiet_world (kernel_with_age_mean 45)) = Ok tt /\
    Multilevel.log (snd (Multilevel.cell_simulate1 quiet_world (kernel_with_age_mean 45)))
      = lines /\
    Multilevel.rng (snd (Multilevel.cell_simulate1 quiet_world (kernel_with_age_mean 45)))
      = 10 /\
    List.length lines = 10 /\
    Forall (line_of_slope 1) lines.
Proof.
  apply (simulate1_parallel quiet_world (kernel_with_age_mean 45) flat_params 0 1 0 45);
    [reflexivity | reflexivity | reflexivity | reflexivity | lra | reflexivity].
Defined.

Lemma linspace_length (a b : R) (n : nat) : List.length (linspace a b n) = n.
Proof. unfold linspace. rewrite length_map, length_seq. reflexivity. Qed.

Lemma linspace_nth (a b : R) (n i : nat) :
  (i < n)%nat ->
  nth i (linspace a b n) 0%R = (a + INR i * (b - a) / INR (n - 1))%R.
Proof.
  intros H. unfold linspace.
  set (f := fun j => (a + INR j * (b - a) / INR (n - 1))%R).
  rewrite nth_indep with (d' := f 0%nat) by (rewrite length_map, length_seq; exact H).
  rewrite map_nth, seq_nth by exact H. reflexivity.
Qed.

Lemma linspace_mirror (a b : R) (i : nat) :
  (a + b = 0)%R -> (i < 100)%nat ->
  nth (99 - i) (linspace a b 100) 0%R = (- nth i (linspace a b 100) 0)%R.
Proof.
  intros Hab Hi. rewrite !linspace_nth by lia.
  change (100 - 1)%nat with 99%nat. rewrite minus_INR by lia.
  assert (INR 99 <> 0%R) by (apply not_0_INR; discriminate).
  replace a with (- b)%R by lra. field. assumption.
Qed.

Lemma nth_map_float {A} (f : R -> A) (x : list R) (i : nat) (d : A) :
  (i < List.length x)%nat -> nth i (map f x) d = f (nth i x 0%R).
Proof.
  intros H. rewrite nth_indep with (d' := f 0%R) by (rewrite length_map; exact H).
  apply map_nth.
Qed.

Lemma normal_density_even (d s : R) :
  Multilevel.normal_density (- d) s = Multilevel.normal_density d s.
Proof.
  unfold Multilevel.normal_density. replace (- (- d) ^ 2)%R with (- d ^ 2)%R by ring.
  reflexivity.
Qed.

Lemma normal_density_zero (d : R) : Multilevel.normal_density d 0 = None.
Proof.
  unfold Multilevel.normal_density, Multilevel.fdiv.
  replace (2 * 0 ^ 2)%R with 0%R by ring.
  replace (2 * PI * 0 ^ 2)%R with 0%R by ring. rewrite sqrt_0.
  destruct (Req_dec_T 0 0) as [_ | n]; [| exfalso; apply n; reflexivity].
  destruct (Req_dec_T (- d ^ 2) 0) as [_ | _]; cbn [Multilevel.fexp].
  - reflexivity.
  - destruct (Rgtb 0 (- d ^ 2)); cbn [Multilevel.fexp Multilevel.finite].
    + destruct (Req_dec_T 0 0) as [_ | n]; [reflexivity | exfalso; apply n; reflexivity].
    + reflexivity.
Qed.

Lemma normal_density_pos (d s : R) :
  s <> 0%R -> exists y, Multilevel.normal_density d s = Some y /\ (0 < y)%R.
Proof.
  intros Hs.
  assert (H2 : (0 < 2 * s ^ 2)%R).
  { assert (0 < s ^ 2)%R
      by (simpl; destruct (Rtotal_order s 0) as [? | [? | ?]]; [nra | contradiction | nra]).
    lra. }
  assert (H3 : (0 < sqrt (2 * PI * s ^ 2))%R).
  { apply sqrt_lt_R0. pose proof PI_RGT_0. nra. }
  unfold Multilevel.normal_density, Multilevel.fdiv.
  destruct (Req_dec_T (2 * s ^ 2) 0) as [E | _]; [lra |].
  cbn [Multilevel.fexp].
  destruct (Req_dec_T (sqrt (2 * PI * s ^ 2)) 0) as [E | _]; [lra |].
  eexists. split; [reflexivity |].
  apply Rdiv_lt_0_compat; [apply exp_pos | exact H3].
Qed.

(** X15: the density of the age slopes is drawn on one hundred points
    and, in exact arithmetic, is symmetric about the fitted slope; with
    a positive slope variance every plotted value is a positive number,
    and with a zero variance every plotted value is missing. *)
Theorem slope_density_shape (k : Multilevel.kernel) (r : Multilevel.MixedLMResults)
    (m v : R) :
  Multilevel.globals k "result2"%string = Some (Multilevel.py_result r) ->
  Multilevel.params r "age_cen"%string = Some m ->
  Multilevel.params r "s Var"%string = Some v ->
  (0 <= v)%R ->
  exists x y,
    fst (Multilevel.cell_slope_density k) = Ok tt /\
    Multilevel.log (snd (Multilevel.cell_slope_density k))
      = (Multilevel.log k ++ [Multilevel.lineplot x y ""])%list /\
    List.length x = 100 /\ List.length y = 100 /\
    (forall i, (i < 100)%nat -> nth i y None = nth (99 - i) y None) /\
    (v = 0%R -> forall i, (i < 100)%nat -> nth i y None = None) /\
    ((0 < v)%R -> forall i, (i < 100)%nat -> exists d, nth i y None = Some d /\ (0 < d)%R).
Proof.
  intros Hr Hm Hv Hv0.
  set (s := sqrt v).
  set (x := linspace (m - 3 * s) (m + 3 * s) 100).
  set (y := map (fun xi => Multilevel.normal_density (xi - m) s) x).
  assert (Hx : List.length x = 100) by apply linspace_length.
  assert (Hrun : Multilevel.cell_slope_density k
                 = (Ok tt,
                    {| Multilevel.df := Multilevel.df k; Multilevel.dx := Multilevel.dx k;
                       Multilevel.globals := fun n =>
                         if String.eqb n "pa"
                         then Some (Multilevel.py_params (Multilevel.params r))
                         else Multilevel.globals k n;
                       Multilevel.rng := Multilevel.rng k;
                       Multilevel.log := (Multilevel.log k ++ [Multilevel.lineplot x y ""])%list |})).
  { unfold Multilevel.cell_slope_density, bind at 1, Multilevel.read_result.
    rewrite Hr. cbv beta iota zeta. unfold Multilevel.item.
    rewrite Hm, Hv. reflexivity. }
  exists x, y. rewrite Hrun. cbn [fst snd Multilevel.log].
  assert (Hy : forall i, (i < 100)%nat ->
                 nth i y None = Multilevel.normal_density (nth i x 0%R - m) s).
  { intros i Hi. unfold y. apply nth_map_float. rewrite Hx. exact Hi. }
  split; [reflexivity |]. split; [reflexivity |]. split; [exact Hx |].
  split; [unfold y; rewrite length_map; exact Hx |].
  split; [| split].
  - intros i Hi. rewrite !Hy by lia. rewrite <- normal_density_even. f_equal.
    unfold x. rewrite !linspace_nth by lia.
    change (100 - 1)%nat with 99%nat. rewrite minus_INR by lia.
    assert (INR 99 <> 0%R) by (apply not_0_INR; discriminate).
    field. assumption.
  - intros E i Hi. rewrite Hy by exact Hi. unfold s. rewrite E, sqrt_0.
    apply normal_density_zero.
  - intros Hpos i Hi. rewrite Hy by exact Hi. apply normal_density_pos.
    unfold s. pose proof (sqrt_lt_R0 v Hpos). lra.
Qed.

(** X16: the two PSU densities are drawn over one grid of one hundred
    points and, in exact arithmetic, are mirror images of each other:
    the curve for a PSU one standard deviation below the mean, read
    from the right, is the curve for a PSU one standard deviation above
    it. *)
Theorem psu_densities_mirror (k : Multilevel.kernel) (r : Multilevel.MixedLMResults)
    (v1 v2 : R) :
  Multilevel.globals k "result3"%string = Some (Multilevel.py_result r) ->
  Multilevel.params r "i Var"%string = Some v1 ->
  Multilevel.params r "ipsu Var"%string = Some v2 ->
  (0 <= v1)%R -> (0 <= v2)%R ->
  exists x y1 y2,
    fst (Multilevel.cell_psu_density k) = Ok tt /\
    Multilevel.log (snd (Multilevel.cell_psu_density k))
      = (Multilevel.log k
         ++ [Multilevel.lineplot x y1 ""; Multilevel.lineplot x y2 ""])%list /\
    List.length x = 100 /\ List.length y1 = 100 /\ List.length y2 = 100 /\
    (forall i, (i < 100)%nat -> nth i y2 None = nth (99 - i) y1 None).
Proof.
  intros Hr H1 H2 _ _.
  set (s1 := sqrt v1). set (s2 := sqrt v2).
  set (x := linspace (-3 * s1) (3 * s1) 100).
  set (y1 := map (fun xi => Multilevel.normal_density (xi - s2) s1) x).
  set (y2 := map (fun xi => Multilevel.normal_density (xi + s2) s1) x).
  assert (Hx : List.length x = 100) by apply linspace_length.
  assert (Hrun : Multilevel.cell_psu_density k
                 = (Ok tt,
                    {| Multilevel.df := Multilevel.df k; Multilevel.dx := Multilevel.dx k;
                       Multilevel.globals := fun n =>
                         if String.eqb n "pa"
                         then Some (Multilevel.py_params (Multilevel.params r))
                         else Multilevel.globals k n;
                       Multilevel.rng := Multilevel.rng k;
                       Multilevel.log :=
                         (Multilevel.log k
                          ++ [Multilevel.lineplot x y1 ""; Multilevel.lineplot x y2 ""])%list |})).
  { unfold Multilevel.cell_psu_density, bind at 1, Multilevel.read_result.
    rewrite Hr. cbv beta iota zeta. unfold Multilevel.item.
    rewrite H1, H2. unfold bind, ret, Multilevel.assign, Multilevel.emit, modify.
    cbn [fst snd Multilevel.log Multilevel.df Multilevel.dx Multilevel.globals Multilevel.rng].
    rewrite <- app_assoc. reflexivity. }
  exists x, y1, y2. rewrite Hrun. cbn [fst snd Multilevel.log].
  split; [reflexivity |]. split; [reflexivity |]. split; [exact Hx |].
  split; [unfold y1; rewrite length_map; exact Hx |].
  split; [unfold y2; rewrite length_map; exact Hx |].
  intros i Hi. unfold y1, y2. rewrite !nth_map_float by (rewrite Hx; lia).
  rewrite <- normal_density_even. f_equal.
  unfold x. rewrite linspace_mirror by (lia || lra). ring.
Qed.

Lemma slope_density_shape_witness :
  exists x y,
    fst (Multilevel.cell_slope_density
           (kernel_with_result "result2" (fitted_mixed slope_params))) = Ok tt /\
    Multilevel.log (snd (Multilevel.cell_slope_density
           (kernel_with_result "result2" (fitted_mixed slope_params))))
      = [Multilevel.lineplot x y ""] /\
    List.length x = 100 /\ List.length y = 100 /\
    (forall i, (i < 100)%nat -> nth i y None = nth (99 - i) y None) /\
    (1%R = 0%R -> forall i, (i < 100)%nat -> nth i y None = None) /\
    ((0 < 1)%R -> forall i, (i < 100)%nat -> exists d, nth i y None = Some d /\ (0 < d)%R).
Proof.
  apply (slope_density_shape (kernel_with_result "result2" (fitted_mixed slope_params))
           (fitted_mixed slope_params) 0%R 1%R);
    [reflexivity | reflexivity | reflexivity | lra].
Defined.

Lemma psu_densities_mirror_witness :
  exists x y1 y2,
    fst (Multilevel.cell_psu_density
           (kernel_with_result "result3" (fitted_mixed unit_variances))) = Ok tt /\
    Multilevel.log (snd (Multilevel.cell_psu_density
           (kernel_with_result "result3" (fitted_mixed unit_variances))))
      = [Multilevel.lineplot x y1 ""; Multilevel.lineplot x y2 ""] /\
    List.length x = 100 /\ List.length y1 = 100 /\ List.length y2 = 100 /\
    (forall i, (i < 100)%nat -> nth i y2 None = nth (99 - i) y1 None).
Proof.
  apply (psu_densities_mirror (kernel_with_result "result3" (fitted_mixed unit_variances))
           (fitted_mixed unit_variances) 1%R 1%R);
    [reflexivity | reflexivity | reflexivity | lra | lra].
Defined.

(** ** Predictions, the baseline hazard and failed reads *)




(** X18: the baseline hazard is plotted from the first stratum of the
    fitted cumulative hazard: when its two arrays have the same length,
    the cell plots one quotient for each time but the last, so the two
    plotted arrays have the same length. *)
Theorem baseline_hazard_plot (result3 : Survival.PHRegResults) (k : Survival.kernel)
    (x y : list R) (rest : list (list R * list R)) :
  Survival.baseline_cumulative_hazard result3 = (x, y) :: rest ->
  List.length x = List.length y ->
  exists haz,
    fst (Survival.cell_baseline_hazard result3 k) = Ok tt /\
    Survival.log (snd (Survival.cell_baseline_hazard result3 k))
      = (Survival.log k ++ [Survival.plot (removelast x) haz ""])%list /\
    List.length haz = List.length (removelast x) /\
    List.length haz = (List.length x - 1)%nat.
Proof.
  intros Hb Hlen. unfold Survival.cell_baseline_hazard. rewrite Hb. cbv zeta.
  cbn [fst snd]. eexists. split; [reflexivity |]. split; [reflexivity |].
  rewrite map2_length by (rewrite !np_diff_length, Hlen; reflexivity).
  rewrite np_diff_length, removelast_len, Hlen. split; reflexivity.
Qed.

Lemma baseline_hazard_plot_witness :
  exists haz,
    fst (Survival.cell_baseline_hazard fitted Survival.fresh) = Ok tt /\
    Survival.log (snd (Survival.cell_baseline_hazard fitted Survival.fresh))
      = [Survival.plot (removelast [1; 2]%R) haz ""] /\
    List.length haz = List.length (removelast [1; 2]%R) /\
    List.length haz = 1.
Proof.
  apply (baseline_hazard_plot fitted Survival.fresh [1; 2]%R [0; 1]%R []);
    reflexivity.
Defined.

(** X19: when the table of notable people cannot be read, the survival
    notebook ends with the exception of [read_csv], and the read is the
    only thing it has done. *)
Theorem survival_stops_at_failed_read (env : Survival.Env) (e : exn) :
  Survival.pd_read_csv env "schich.csv.gz" = Raise e ->
  Survival.notebook env Survival.fresh
  = (Raise e, {| Survival.s := None;
                 Survival.log := [Survival.read_csv "schich.csv.gz" infer] |}).
Proof.
  intros H.
  unfold Survival.notebook, Survival.notables_cells, Survival.cell_convert_excel,
    Survival.cell_read_schich, bind at 1 2 3 4, lift.
  cbn. rewrite H. reflexivity.
Qed.

Lemma survival_stops_at_failed_read_witness :
  Survival.notebook no_files_survival Survival.fresh
  = (Raise (FileNotFoundError "schich.csv.gz"),
     {| Survival.s := None;
        Survival.log := [Survival.read_csv "schich.csv.gz" infer] |}).
Proof.
  apply (survival_stops_at_failed_read no_files_survival
           (FileNotFoundError "schich.csv.gz")).
  reflexivity.
Defined.

(** X20: when the survey file cannot be read, the multilevel notebook
    ends with the exception of [read_csv]: no frame and no name is
    bound, no random number is drawn, and the read is the only thing it
    has done. *)
Theorem multilevel_stops_at_failed_read (env : Multilevel.Env) (seed : nat) (e : exn) :
  Multilevel.pd_read_csv env "/nfs/kshedden/RLMS/rlms.csv.gz" = Raise e ->
  fst (Multilevel.notebook env (Multilevel.fresh seed)) = Raise e /\
  Multilevel.df (snd (Multilevel.notebook env (Multilevel.fresh seed))) = None /\
  Multilevel.dx (snd (Multilevel.notebook env (Multilevel.fresh seed))) = None /\
  (forall n, Multilevel.globals (snd (Multilevel.notebook env (Multilevel.fresh seed))) n
             = None) /\
  Multilevel.rng (snd (Multilevel.notebook env (Multilevel.fresh seed))) = seed /\
  Multilevel.log (snd (Multilevel.notebook env (Multilevel.fresh seed)))
  = [Multilevel.read_csv "/nfs/kshedden/RLMS/rlms.csv.gz" infer].
Proof.
  intros H.
  assert (E : Multilevel.notebook env (Multilevel.fresh seed)
              = (Raise e,
                 {| Multilevel.df := None; Multilevel.dx := None;
                    Multilevel.globals := fun _ => None; Multilevel.rng := seed;
                    Multilevel.log :=
                      [Multilevel.read_csv "/nfs/kshedden/RLMS/rlms.csv.gz" infer] |})).
  { unfold Multilevel.notebook, Multilevel.cell_convert_stata, Multilevel.cell_read_csv,
      bind at 1 2 3 4, lift.
    cbn. rewrite H. reflexivity. }
  rewrite E. repeat split.
Qed.

Lemma multilevel_stops_at_failed_read_witness :
  fst (Multilevel.notebook no_files_multilevel (Multilevel.fresh 0))
  = Raise (FileNotFoundError "/nfs/kshedden/RLMS/rlms.csv.gz") /\
  Multilevel.df (snd (Multilevel.notebook no_files_multilevel (Multilevel.fresh 0))) = None /\
  Multilevel.dx (snd (Multilevel.notebook no_files_multilevel (Multilevel.fresh 0))) = None /\
  (forall n,
     Multilevel.globals (snd (Multilevel.notebook no_files_multilevel (Multilevel.fresh 0))) n
     = None) /\
  Multilevel.rng (snd (Multilevel.notebook no_files_multilevel (Multilevel.fresh 0))) = 0 /\
  Multilevel.log (snd (Multilevel.notebook no_files_multilevel (Multilevel.fresh 0)))
  = [Multilevel.read_csv "/nfs/kshedden/RLMS/rlms.csv.gz" infer].
Proof.
  apply (multilevel_stops_at_failed_read no_files_multilevel 0
           (FileNotFoundError "/nfs/kshedden/RLMS/rlms.csv.gz")).
  reflexivity.
Defined.

(** * Runs and what the library is handed *)

Section Hoare.

Context {St : Type}.

Lemma bind_case {A B} (c : M St A) (f : A -> M St B) (st : St) :
  bind c f st
  = match c st with
    | (Ok a, st') => f a st'
    | (Raise e, st') => (Raise e, st')
    end.
Proof. reflexivity. Qed.

Lemma bind_ok {A B} (c : M St A) (f : A -> M St B) (st st' : St) (a : A) :
  c st = (Ok a, st') -> bind c f st = f a st'.
Proof. intros H. unfold bind. rewrite H. reflexivity. Qed.

Lemma bind_raise {A B} (c : M St A) (f : A -> M St B) (st st' : St) (e : exn) :
  c st = (Raise e, st') -> bind c f st = (Raise e, st').
Proof. intros H. unfold bind. rewrite H. reflexivity. Qed.


Lemma hoare_raise {A} (P : St -> Prop) (e : exn) (Q : A -> St -> Prop) (E : exn -> St -> Prop) :
  (forall st, P st -> E e st) -> hoare P (raise e) Q E.
Proof. intros H st Hst. apply H, Hst. Qed.

Lemma hoare_bind {A B} (P : St -> Prop) (c : M St A) (f : A -> M St B)
    (Q : A -> St -> Prop) (R : B -> St -> Prop) (E : exn -> St -> Prop) :
  hoare P c Q E -> (forall a, hoare (Q a) (f a) R E) -> hoare P (bind c f) R E.
Proof.
  intros Hc Hf st Hst. unfold bind. specialize (Hc st Hst).
  destruct (c st) as [[a | e] st'].
  - apply (Hf a st' Hc).
  - exact Hc.
Qed.

Lemma hoare_conseq {A} (P P' : St -> Prop) (c : M St A)
    (Q Q' : A -> St -> Prop) (E E' : exn -> St -> Prop) :
  hoare P c Q E ->
  (forall st, P' st -> P st) ->
  (forall a st, Q a st -> Q' a st) ->
  (forall e st, E e st -> E' e st) ->
  hoare P' c Q' E'.
Proof.
  intros Hc HP HQ HE st Hst. specialize (Hc st (HP st Hst)).
  destruct (c st) as [[a | e] st']; [apply HQ | apply HE]; exact Hc.
Qed.

Lemma hoare_keeps {A} (Inv : St -> Prop) (c : M St A) :
  keeps Inv c -> hoare Inv c (fun _ => Inv) (fun _ => Inv).
Proof.
  intros Hc st Hst. specialize (Hc st Hst).
  destruct (c st) as [[a | e] st']; exact Hc.
Qed.

Lemma hoare_keeps_returns {A} (Inv : St -> Prop) (c : M St A) (Q : A -> Prop) :
  keeps Inv c -> returns Inv c Q ->
  hoare Inv c (fun a st => Q a /\ Inv st) (fun _ => Inv).
Proof.
  intros Hc Hq st Hst. specialize (Hc st Hst). specialize (Hq st).
  destruct (c st) as [[a | e] st']; simpl in *.
  - split; [apply Hq; [exact Hst | reflexivity] | exact Hc].
  - exact Hc.
Qed.


End Hoare.

(** ** The NHANES fits *)

Lemma hands_phreg_run env fml status entry strata data :
  hands_phreg env
    (Survival.emit (Survival.call_PHReg fml status entry strata data) ;;
     r <- lift (Survival.sm_PHReg env fml status entry strata data) ;;
     Survival.emit (Survival.show_summary r))%cell
    fml status entry strata data.
Proof.
  intros k. unfold bind, lift, Survival.emit, modify.
  destruct (Survival.sm_PHReg env fml status entry strata data) as [r | e]; simpl.
  - split; [reflexivity |]. rewrite <- app_assoc. reflexivity.
  - split; reflexivity.
Qed.

Lemma no_phreg_calls (evs : list Survival.event) :
  Forall no_phreg evs -> phreg_calls evs = [].
Proof.
  induction 1 as [| ev rest Hev _ IH]; [reflexivity |].
  unfold phreg_calls in *. simpl. unfold no_phreg in Hev. rewrite Hev. exact IH.
Qed.

Lemma notables_no_phreg env : keeps (logged no_phreg) (Survival.notables_cells env).
Proof.
  unfold_survival. repeat keeps_step; reflexivity.
Qed.

Lemma hazard_nhanes_no_phreg env df :
  keeps (logged no_phreg) (Survival.cell_hazard_nhanes env df).
Proof.
  unfold Survival.cell_hazard_nhanes. cbv zeta. repeat keeps_step; reflexivity.
Qed.

Lemma read_mort_outcome env k :
  fst (Survival.cell_read_mort env k)
  = Survival.pd_read_fwf_mort env
      (os_path_join Survival.dpath "NHANES_III_MORT_2011_PUBLIC.dat.gz").
Proof. reflexivity. Qed.

Lemma read_adult_outcome env surv k :
  fst (Survival.cell_read_adult env surv k)
  = match Survival.pd_read_fwf_adult env (os_path_join Survival.dpath "adult.dat.gz") with
    | Ok adult => Ok (Survival.pd_merge surv adult)
    | Raise e => Raise e
    end.
Proof.
  unfold Survival.cell_read_adult, bind, lift, Survival.emit, modify. cbv zeta.
  cbn [fst snd].
  destruct (Survival.pd_read_fwf_adult env _); reflexivity.
Qed.

Lemma read_mort_no_phreg env : keeps (logged no_phreg) (Survival.cell_read_mort env).
Proof. unfold Survival.cell_read_mort. cbv zeta. repeat keeps_step. reflexivity. Qed.

Lemma read_adult_no_phreg env surv :
  keeps (logged no_phreg) (Survival.cell_read_adult env surv).
Proof. unfold Survival.cell_read_adult. cbv zeta. repeat keeps_step. reflexivity. Qed.

(** The fits of the NHANES cells, from a state whose log holds none. *)
Lemma nhanes_cells_fits env k :
  Forall no_phreg (Survival.log k) ->
  exists n,
    phreg_calls (Survival.log (snd (Survival.nhanes_cells env k)))
    = firstn n (nhanes_fits (frame_read env)) /\
    (fst (Survival.nhanes_cells env k) = Ok tt -> n = 3%nat).
Proof.
  intros Hk. unfold Survival.nhanes_cells, frame_read. cbv zeta.
  rewrite bind_case.
  pose proof (read_mort_outcome env k) as O1.
  pose proof (read_mort_no_phreg env k Hk) as Hk1.
  destruct (Survival.cell_read_mort env k) as [o1 k1]. cbn [fst snd] in O1, Hk1.
  rewrite <- O1. destruct o1 as [surv | e].
  2:{ exists 0%nat. cbn [fst snd]. split; [| discriminate].
      apply no_phreg_calls. exact Hk1. }
  rewrite bind_case.
  pose proof (read_adult_outcome env surv k1) as O2.
  pose proof (read_adult_no_phreg env surv k1 Hk1) as Hk2.
  destruct (Survival.cell_read_adult env surv k1) as [o2 k2]. cbn [fst snd] in O2, Hk2.
  destruct (Survival.pd_read_fwf_adult env _) as [adult | e]; subst o2.
  2:{ exists 0%nat. cbn [fst snd]. split; [| discriminate].
      apply no_phreg_calls. exact Hk2. }
  fold (Survival.nhanes_frame surv adult).
  set (df := Survival.nhanes_frame surv adult).
  rewrite bind_case.
  pose proof (hazard_nhanes_no_phreg env df k2 Hk2) as Hk3.
  destruct (Survival.cell_hazard_nhanes env df k2) as [[[] | e] k3]; cbn [snd] in Hk3.
  2:{ exists 0%nat. cbn [fst snd]. split; [| discriminate].
      apply no_phreg_calls. exact Hk3. }
  destruct (hands_phreg_run env Survival.fml_nhanes "mortstat" (map Survival.age_int df)
              None df k3) as [F1 L1].
  fold (Survival.cell_model1 env df) in F1, L1.
  rewrite bind_case.
  destruct (Survival.cell_model1 env df k3) as [o4 k4]. cbn [fst snd] in F1, L1.
  destruct (Survival.sm_PHReg env Survival.fml_nhanes "mortstat" (map Survival.age_int df)
              None df) as [r1 | e1]; subst o4.
  2:{ exists 1%nat. cbn [fst snd]. split; [| discriminate].
      rewrite L1, phreg_calls_app, (no_phreg_calls _ Hk3). reflexivity. }
  destruct (hands_phreg_run env Survival.fml_nhanes "mortstat" (map Survival.age_int df)
              (Some (map (fun r => Survival.state (Survival.adult r)) df)) df k4)
    as [F2 L2].
  fold (Survival.cell_model2 env df) in F2, L2.
  rewrite bind_case.
  destruct (Survival.cell_model2 env df k4) as [o5 k5]. cbn [fst snd] in F2, L2.
  destruct (Survival.sm_PHReg env Survival.fml_nhanes "mortstat" (map Survival.age_int df)
              (Some (map (fun r => Survival.state (Survival.adult r)) df)) df)
    as [r2 | e2]; subst o5.
  2:{ exists 2%nat. cbn [fst snd]. split; [| discriminate].
      rewrite L2, L1, !phreg_calls_app, (no_phreg_calls _ Hk3). reflexivity. }
  destruct (hands_phreg_run env Survival.fml_nhanes "mortstat" (map Survival.age_int df)
              (Some (map (fun r => Survival.county (Survival.adult r)) df)) df k5)
    as [F3 L3].
  fold (Survival.cell_model3 env df) in F3, L3.
  exists 3%nat. split; [| reflexivity].
  rewrite L3, L2, L1, !phreg_calls_app, (no_phreg_calls _ Hk3).
  destruct (Survival.sm_PHReg env Survival.fml_nhanes "mortstat" (map Survival.age_int df)
              (Some (map (fun r => Survival.county (Survival.adult r)) df)) df);
    reflexivity.
Qed.

Lemma small_world_completes : fst (Survival.notebook small_world Survival.fresh) = Ok tt.
Proof. vm_compute. reflexivity. Qed.

Lemma nhanes_fits_of_a_run (env : Survival.Env) :
  exists n,
    phreg_calls (Survival.log (snd (Survival.notebook env Survival.fresh)))
    = firstn n (nhanes_fits (frame_read env)) /\
    (fst (Survival.notebook env Survival.fresh) = Ok tt -> n = 3%nat).
Proof.
  unfold Survival.notebook. rewrite bind_case.
  pose proof (notables_no_phreg env Survival.fresh (Forall_nil _)) as Hk.
  destruct (Survival.notables_cells env Survival.fresh) as [[[] | e] k]; cbn [snd] in Hk.
  - apply nhanes_cells_fits. exact Hk.
  - exists 0%nat. cbn [fst snd]. split; [| discriminate].
    apply no_phreg_calls. exact Hk.
Qed.

(** C5: the three NHANES fits hand the library [age_int], the age in
    months at the interview, as entry time; the first hands it no strata,
    the second the [state] column, the third the [county] column.  Each
    cell ends and logs as the library answers that very request; the
    fits a run makes are these three, in this order, on the frame made
    from the two files it read, all three when the run completes; and the
    run of the small world completes and makes the three fits on a frame
    of one subject. *)
Theorem phreg_entry_and_strata (env : Survival.Env)
    (surv : list Survival.mort_rec) (adult : list Survival.adult_rec) :
  let df := Survival.nhanes_frame surv adult in
  let fml := "end ~ female + rural + C(region) + poverty"%string in
  let run := Survival.notebook env Survival.fresh in
  let small := Survival.notebook small_world Survival.fresh in
  hands_phreg env (Survival.cell_model1 env df)
    fml "mortstat" (map Survival.age_int df) None df /\
  hands_phreg env (Survival.cell_model2 env df)
    fml "mortstat" (map Survival.age_int df)
    (Some (map (fun r => Survival.state (Survival.adult r)) df)) df /\
  hands_phreg env (Survival.cell_model3 env df)
    fml "mortstat" (map Survival.age_int df)
    (Some (map (fun r => Survival.county (Survival.adult r)) df)) df /\
  Forall months_at_interview df /\
  Forall phreg_entry_ok (Survival.log (snd run)) /\
  (exists n,
     phreg_calls (Survival.log (snd run)) = firstn n (nhanes_fits (frame_read env)) /\
     (fst run = Ok tt -> n = 3%nat)) /\
  (fst small = Ok tt /\
   phreg_calls (Survival.log (snd small)) = nhanes_fits (frame_read small_world) /\
   List.length (frame_read small_world) = 1%nat).
Proof.
  intros df fml run small.
  split; [| split; [| split; [| split; [| split; [| split]]]]].
  - apply hands_phreg_run.
  - apply hands_phreg_run.
  - apply hands_phreg_run.
  - apply nhanes_months.
  - apply (phreg_entries env Survival.fresh). constructor.
  - apply nhanes_fits_of_a_run.
  - split; [apply small_world_completes |]. split; [| reflexivity].
    destruct (nhanes_fits_of_a_run small_world) as (n & Hn & H3).
    unfold small. rewrite Hn, (H3 small_world_completes). reflexivity.
Qed.

(** ** A short table stops in the prediction cell *)



Section ShortTable.

Context (env : Survival.Env) (csv : list Survival.schich_row) (r : Survival.PHRegResults).

Let fml : string := "lifespan ~ BYear + Gender + BYear*Gender".
Let df : list Survival.notable :=
  filter (Survival.Gender_isin ["Female"; "Male"]%string) (Survival.notables_frame csv).

Hypothesis read_ok : Survival.pd_read_csv env "schich.csv.gz" = Ok csv.
Hypothesis short : (0 < List.length df < 100)%nat.
Hypothesis survfunc_total :
  forall time status entry, exists sf, Survival.sm_SurvfuncRight env time status entry = Ok sf.
Hypothesis phreg_ok : Survival.sm_PHReg_notable env fml df = Ok r.





End ShortTable.


(** ** A small file stops at the subsample *)


Section SmallFile.

Context (env : Multilevel.Env) (seed : nat) (csv : list Multilevel.Csv.row).

Let fml : string := "bmi ~ age_cen*female + year_cen".

Hypothesis read_ok : Multilevel.pd_read_csv env "/nfs/kshedden/RLMS/rlms.csv.gz" = Ok csv.
Hypothesis small : (List.length csv < 2000)%nat.
Hypothesis ols_total : forall f d, exists r0, Multilevel.sm_OLS env f d = Ok r0.




End SmallFile.


(** ** The curves the survival notebook plots *)






(** ** The mixed-model fits and the library *)

Lemma hands_mixedlm_run env name fml groups vcf :
  hands_mixedlm env (Multilevel.fit_mixedlm env name fml groups vcf) name fml groups vcf.
Proof.
  intros k d Hd.
  unfold Multilevel.fit_mixedlm, bind, Multilevel.read_dx, lift, Multilevel.emit,
    Multilevel.assign, modify.
  rewrite Hd.
  destruct (Multilevel.sm_MixedLM env fml groups vcf d) as [r | e];
    cbn [fst snd Multilevel.log Multilevel.globals Multilevel.dx].
  - rewrite String.eqb_refl, <- app_assoc. repeat split. exact Hd.
  - repeat split. exact Hd.
Qed.

Lemma mixedlm_calls_app (xs ys : list Multilevel.event) :
  mixedlm_calls (xs ++ ys) = (mixedlm_calls xs ++ mixedlm_calls ys)%list.
Proof. apply filter_app. Qed.

Lemma no_mixedlm_calls (evs : list Multilevel.event) :
  Forall no_mixedlm evs -> mixedlm_calls evs = [].
Proof.
  induction 1 as [| ev rest Hev _ IH]; [reflexivity |].
  unfold mixedlm_calls in *. simpl. destruct ev; try exact IH. destruct Hev.
Qed.

Section FittedSoFar.

Context (d : list Multilevel.Dx.row) (n : nat).

Lemma fitted_emit (e : Multilevel.event) :
  no_mixedlm e -> keeps (fitted_so_far d n) (Multilevel.emit e).
Proof.
  intros He st [Hd Hl]. split; [exact Hd |]. cbn [Multilevel.emit modify snd Multilevel.log].
  rewrite mixedlm_calls_app, Hl.
  rewrite (no_mixedlm_calls [e]) by (constructor; [exact He | constructor]).
  apply app_nil_r.
Qed.

Lemma fitted_same {A} (c : M Multilevel.kernel A) :
  (forall k, Multilevel.dx (snd (c k)) = Multilevel.dx k /\
             Multilevel.log (snd (c k)) = Multilevel.log k) ->
  keeps (fitted_so_far d n) c.
Proof.
  intros Hc st [Hd Hl]. destruct (Hc st) as [H1 H2].
  split; [rewrite H1; exact Hd | rewrite H2; exact Hl].
Qed.

End FittedSoFar.

Ltac fitted_step :=
  lazymatch goal with
  | |- keeps _ (bind _ _) => apply keeps_bind; [ | intros ? ]
  | |- keeps _ (ret _) => apply keeps_ret
  | |- keeps _ (raise _) => apply keeps_raise
  | |- keeps _ (for_each _ _) => apply keeps_for_each; intros ?
  | |- keeps _ (Multilevel.emit _) => apply fitted_emit; exact I
  | |- keeps _ (Multilevel.assign _ _) => apply fitted_same; intros ?; split; reflexivity
  | |- keeps _ Multilevel.next_draw => apply fitted_same; intros ?; split; reflexivity
  | |- keeps _ (Multilevel.read_float _) =>
      apply fitted_same; intros k; unfold Multilevel.read_float;
      destruct (Multilevel.globals k _) as [[] |]; split; reflexivity
  | |- keeps _ (Multilevel.read_params _) =>
      apply fitted_same; intros k; unfold Multilevel.read_params;
      destruct (Multilevel.globals k _) as [[] |]; split; reflexivity
  | |- keeps _ (Multilevel.read_result _) =>
      apply fitted_same; intros k; unfold Multilevel.read_result;
      destruct (Multilevel.globals k _) as [[] |]; split; reflexivity
  | |- keeps _ (Multilevel.item ?pa ?key) =>
      unfold Multilevel.item; destruct (pa key)
  end.

Lemma between_fits_keep env d n :
  keeps (fitted_so_far d n) Multilevel.cell_icc /\
  keeps (fitted_so_far d n) (Multilevel.cell_simulate1 env) /\
  keeps (fitted_so_far d n) (Multilevel.cell_simulate2 env) /\
  keeps (fitted_so_far d n) Multilevel.cell_slope_density /\
  keeps (fitted_so_far d n) Multilevel.cell_psu_density.
Proof.
  unfold Multilevel.cell_icc, Multilevel.cell_simulate1, Multilevel.cell_simulate2,
    Multilevel.cell_slope_density, Multilevel.cell_psu_density.
  cbv zeta.
  split; [| split; [| split; [| split]]]; repeat fitted_step.
Qed.

Lemma firstn_snoc {A} (l : list A) (n : nat) (x : A) :
  nth_error l n = Some x -> (firstn n l ++ [x])%list = firstn (S n) l.
Proof.
  revert n. induction l as [| y rest IH]; intros [| n] H; simpl in *; try discriminate.
  - injection H as ->. reflexivity.
  - rewrite (IH n H). reflexivity.
Qed.

Lemma fit_advances env name fml groups vcf d n :
  nth_error (four_fits d) n = Some (Multilevel.call_MixedLM fml groups vcf d) ->
  hoare (fitted_so_far d n) (Multilevel.fit_mixedlm env name fml groups vcf)
        (fun _ => fitted_so_far d (S n)) (fun _ => some_first).
Proof.
  intros Hnth st [Hd Hl].
  destruct (hands_mixedlm_run env name fml groups vcf st d Hd) as (F & L & _ & D').
  destruct (Multilevel.fit_mixedlm env name fml groups vcf st) as [o st'].
  cbn [fst snd] in F, L, D'.
  assert (Hcalls : mixedlm_calls (Multilevel.log st') = firstn (S n) (four_fits d)).
  { rewrite L, mixedlm_calls_app, Hl, <- (firstn_snoc _ _ _ Hnth).
    destruct (Multilevel.sm_MixedLM env fml groups vcf d); reflexivity. }
  destruct (Multilevel.sm_MixedLM env fml groups vcf d) as [r | e]; subst o.
  - split; assumption.
  - exists d, (S n). exact Hcalls.
Qed.

Lemma between_fits d n (c : M Multilevel.kernel unit) :
  keeps (fitted_so_far d n) c ->
  hoare (fitted_so_far d n) c (fun _ => fitted_so_far d n) (fun _ => some_first).
Proof.
  intros Hc. apply hoare_conseq with (1 := hoare_keeps _ _ Hc); auto.
  intros _ st [_ Hl]. exists d, n. exact Hl.
Qed.

Lemma fits_of_the_models env d :
  hoare (fitted_so_far d 0)
    (Multilevel.cell_model1 env ;;
     Multilevel.cell_icc ;;
     Multilevel.cell_simulate1 env ;;
     Multilevel.cell_model2 env ;;
     Multilevel.cell_simulate2 env ;;
     Multilevel.cell_slope_density ;;
     Multilevel.cell_model3 env ;;
     Multilevel.cell_psu_density ;;
     Multilevel.cell_model4 env)%cell
    (fun _ => all_four) (fun _ => some_first).
Proof.
  unfold Multilevel.cell_model1, Multilevel.cell_model2, Multilevel.cell_model3,
    Multilevel.cell_model4. cbv zeta.
  apply hoare_bind with (Q := fun _ => fitted_so_far d 1);
    [apply fit_advances; reflexivity | intros _].
  apply hoare_bind with (Q := fun _ => fitted_so_far d 1);
    [apply between_fits, (between_fits_keep env) | intros _].
  apply hoare_bind with (Q := fun _ => fitted_so_far d 1);
    [apply between_fits, (between_fits_keep env) | intros _].
  apply hoare_bind with (Q := fun _ => fitted_so_far d 2);
    [apply fit_advances; reflexivity | intros _].
  apply hoare_bind with (Q := fun _ => fitted_so_far d 2);
    [apply between_fits, (between_fits_keep env) | intros _].
  apply hoare_bind with (Q := fun _ => fitted_so_far d 2);
    [apply between_fits, (between_fits_keep env) | intros _].
  apply hoare_bind with (Q := fun _ => fitted_so_far d 3);
    [apply fit_advances; reflexivity | intros _].
  apply hoare_bind with (Q := fun _ => fitted_so_far d 3);
    [apply between_fits, (between_fits_keep env) | intros _].
  apply hoare_conseq
    with (P := fitted_so_far d 3) (Q := fun _ => fitted_so_far d 4) (E := fun _ => some_first).
  - apply fit_advances. reflexivity.
  - auto.
  - intros _ st [Hd Hl]. exists d. split; assumption.
  - auto.
Qed.

Lemma before_the_fits {A} (c : M Multilevel.kernel A) :
  keeps (logged_dx no_mixedlm (fun _ => True)) c ->
  hoare (logged_dx no_mixedlm (fun _ => True)) c
        (fun _ => logged_dx no_mixedlm (fun _ => True)) (fun _ => some_first).
Proof.
  intros Hc. apply hoare_conseq with (1 := hoare_keeps _ _ Hc); auto.
  intros _ st [Hl _]. exists [], 0%nat. apply no_mixedlm_calls. exact Hl.
Qed.

Lemma fits_of_a_run env :
  hoare (logged_dx no_mixedlm (fun _ => True)) (Multilevel.notebook env)
        (fun _ => all_four) (fun _ => some_first).
Proof.
  unfold Multilevel.notebook.
  do 8 (apply hoare_bind with (Q := fun _ => logged_dx no_mixedlm (fun _ => True));
        [ apply before_the_fits; unfold_multilevel; repeat keeps_step; exact I
        | intros ? ]).
  intros st [Hl _].
  destruct (Multilevel.dx st) as [d |] eqn:Hd.
  - apply (fits_of_the_models env d). split; [exact Hd |].
    apply no_mixedlm_calls. exact Hl.
  - rewrite bind_case.
    unfold Multilevel.cell_model1 at 1, Multilevel.fit_mixedlm at 1.
    rewrite bind_case. unfold Multilevel.read_dx at 1. rewrite Hd.
    exists [], 0%nat. apply no_mixedlm_calls. exact Hl.
Qed.

(** ** A world with enough subjects *)

Lemma map_outcome_map {A B C} (f : B -> outcome C) (g : A -> B) (h : A -> C)
    (l : list A) :
  (forall x, f (g x) = Ok (h x)) -> Multilevel.map_outcome f (map g l) = Ok (map h l).
Proof.
  intros H. induction l as [| x rest IH]; [reflexivity |].
  cbn [map Multilevel.map_outcome]. rewrite H, IH. reflexivity.
Qed.

Lemma filter_all {A} (g : A -> bool) (l : list A) :
  (forall x, In x l -> g x = true) -> filter g l = l.
Proof.
  induction l as [| x rest IH]; intros H; [reflexivity |].
  cbn [filter]. rewrite (H x (or_introl eq_refl)). f_equal.
  apply IH. intros y Hy. apply H. right. exact Hy.
Qed.

Lemma mean_of_known (x : R) (rest : list Multilevel.float) :
  exists m, Multilevel.mean (Some x :: rest) = Some m.
Proof. unfold Multilevel.mean. cbn [Multilevel.present flat_map app]. eexists. reflexivity. Qed.

Lemma bmi_of_subject (i : nat) : exists b, Multilevel.bmi_of (numeric_row i) = Multilevel.xnum b.
Proof.
  unfold Multilevel.bmi_of. cbn [numeric_row Multilevel.Num.m1 Multilevel.Num.m2 Multilevel.of_float].
  unfold Multilevel.fdiv at 2.
  destruct (Req_dec_T 100 0) as [E | _]; [lra |].
  cbn [Multilevel.fsquare]. unfold Multilevel.fdiv.
  destruct (Req_dec_T (100 / 100 * (100 / 100)) 0) as [E | _]; [lra |].
  eexists. reflexivity.
Qed.

Lemma subjects_complete (n : nat) :
  complete_rows (map numeric_row (seq 0 (S n)))
  = map Multilevel.select (derived (map numeric_row (seq 0 (S n)))).
Proof.
  unfold complete_rows. apply filter_all. intros r Hr.
  apply in_map_iff in Hr as (d & <- & Hd).
  set (nums := map numeric_row (seq 0 (S n))) in *.
  assert (Hy : exists ym, Multilevel.mean (map Multilevel.Num.year nums) = Some ym)
    by (unfold nums; cbn [seq map]; apply mean_of_known).
  assert (Ha : exists am, Multilevel.mean (map Multilevel.age_of nums) = Some am)
    by (unfold nums; cbn [seq map]; apply mean_of_known).
  assert (Hh : exists hm, Multilevel.mean (map Multilevel.Num.h6 nums) = Some hm)
    by (unfold nums; cbn [seq map]; apply mean_of_known).
  assert (Hrows : forall x, In x nums -> exists i, x = numeric_row i).
  { intros x Hx. apply in_map_iff in Hx as (i & <- & _). exists i. reflexivity. }
  clearbody nums.
  destruct Hy as [ym Hy], Ha as [am Ha], Hh as [hm Hh].
  unfold derived, Multilevel.cell_derive in Hd. cbv zeta in Hd.
  cbn [bind Multilevel.assign Multilevel.assign_df modify snd Multilevel.df] in Hd.
  rewrite Hy, Ha, Hh in Hd.
  apply in_map_iff in Hd as (x & <- & Hx).
  destruct (Hrows x Hx) as [i ->].
  destruct (bmi_of_subject i) as [b Hb].
  unfold Multilevel.complete, Multilevel.select.
  cbn [Multilevel.Dx.idind Multilevel.Dx.bmi Multilevel.Dx.age_cen Multilevel.Dx.female
       Multilevel.Dx.birth_year_cen Multilevel.Dx.year_cen Multilevel.Dx.psu
       Multilevel.Df.base Multilevel.Df.bmi Multilevel.Df.age_cen Multilevel.Df.female
       Multilevel.Df.birth_year_cen Multilevel.Df.year_cen].
  rewrite Hb. reflexivity.
Qed.

Lemma subjects_idind (n : nat) :
  map Multilevel.Dx.idind (complete_rows (map numeric_row (seq 0 (S n))))
  = map (fun i => Some (INR i)) (seq 0 (S n)).
Proof.
  rewrite subjects_complete. unfold derived, Multilevel.cell_derive. cbv zeta.
  cbn [bind Multilevel.assign Multilevel.assign_df modify snd Multilevel.df].
  rewrite !map_map. apply map_ext. intros i. reflexivity.
Qed.

Lemma unique_distinct (xs : list R) : NoDup xs -> Multilevel.unique xs = xs.
Proof.
  induction 1 as [| x rest Hx _ IH]; [reflexivity |].
  cbn [Multilevel.unique]. rewrite IH. f_equal. apply filter_all.
  intros y Hy. unfold Multilevel.Reqb.
  destruct (Req_dec_T y x) as [-> | _]; [contradiction | reflexivity].
Qed.

Lemma present_known {A} (f : A -> R) (l : list A) :
  Multilevel.present (map (fun x => Some (f x)) l) = map f l.
Proof. induction l as [| x rest IH]; [reflexivity |]. cbn. rewrite <- IH. reflexivity. Qed.

Lemma NoDup_map_injective {A B} (f : A -> B) (l : list A) :
  (forall x y, f x = f y -> x = y) -> NoDup l -> NoDup (map f l).
Proof.
  intros Hf. induction 1 as [| x rest Hx _ IH]; [constructor |].
  cbn [map]. constructor; [| exact IH].
  intros Hin. apply in_map_iff in Hin as (y & Hy & Hin).
  apply Hf in Hy. subst y. contradiction.
Qed.

Lemma subjects_distinct (n : nat) :
  Multilevel.unique
    (Multilevel.present (map Multilevel.Dx.idind (complete_rows (map numeric_row (seq 0 (S n))))))
  = map INR (seq 0 (S n)).
Proof.
  rewrite subjects_idind, (present_known INR). apply unique_distinct.
  apply NoDup_map_injective; [| apply seq_NoDup].
  intros i j H. apply INR_eq. exact H.
Qed.

(** ** The cells, one after the other *)

Section Cells.

Context (env : Multilevel.Env) (k : Multilevel.kernel).

Lemma run_read_csv (csv : list Multilevel.Csv.row) :
  Multilevel.pd_read_csv env "/nfs/kshedden/RLMS/rlms.csv.gz" = Ok csv ->
  Multilevel.cell_read_csv env k
  = (Ok csv,
     {| Multilevel.df := Multilevel.df k; Multilevel.dx := Multilevel.dx k;
        Multilevel.globals := Multilevel.globals k; Multilevel.rng := Multilevel.rng k;
        Multilevel.log :=
          Multilevel.log k
          ++ [Multilevel.read_csv "/nfs/kshedden/RLMS/rlms.csv.gz" infer] |}).
Proof.
  intros H. unfold Multilevel.cell_read_csv, bind, lift, Multilevel.emit, modify.
  rewrite H. reflexivity.
Qed.

Lemma run_to_numeric (df : list Multilevel.Csv.row) (nums : list Multilevel.Num.row) :
  Multilevel.map_outcome (Multilevel.to_numeric_row env Multilevel.errors_coerce) df = Ok nums ->
  Multilevel.cell_to_numeric env df k
  = (Ok nums,
     {| Multilevel.df := Multilevel.df k; Multilevel.dx := Multilevel.dx k;
        Multilevel.globals := Multilevel.globals k; Multilevel.rng := Multilevel.rng k;
        Multilevel.log :=
          Multilevel.log k
          ++ map (fun c => Multilevel.call_to_numeric c Multilevel.errors_coerce)
                 Multilevel.qv |}).
Proof.
  intros H. unfold Multilevel.cell_to_numeric, Multilevel.qv. cbn [for_each map].
  unfold bind, lift, Multilevel.emit, modify, ret. rewrite H.
  cbn [Multilevel.df Multilevel.dx Multilevel.globals Multilevel.rng Multilevel.log].
  rewrite <- !app_assoc. reflexivity.
Qed.

Lemma run_dx (v : list Multilevel.Df.row) :
  Multilevel.df k = Some v ->
  Multilevel.cell_dx env k
  = (Ok tt,
     {| Multilevel.df := Multilevel.df k;
        Multilevel.dx := Some (filter Multilevel.complete (map Multilevel.select v));
        Multilevel.globals := Multilevel.globals k; Multilevel.rng := Multilevel.rng k;
        Multilevel.log :=
          Multilevel.log k
          ++ [Multilevel.print_counts
                (Multilevel.pd_group_sizes env
                   (map (fun r => Multilevel.raw_of_float (Multilevel.Dx.idind r))
                        (filter Multilevel.complete (map Multilevel.select v))))] |}).
Proof.
  intros H.
  unfold Multilevel.cell_dx, bind, Multilevel.read_df, Multilevel.assign_dx,
    Multilevel.read_dx, Multilevel.emit, modify.
  rewrite H.
  cbn [Multilevel.df Multilevel.dx Multilevel.globals Multilevel.rng Multilevel.log].
  rewrite H. reflexivity.
Qed.

Lemma run_ols (d : list Multilevel.Dx.row) (r : Multilevel.OLSResults) :
  Multilevel.dx k = Some d ->
  Multilevel.sm_OLS env "bmi ~ age_cen*female + year_cen" d = Ok r ->
  Multilevel.cell_ols env k
  = (Ok tt,
     {| Multilevel.df := Multilevel.df k; Multilevel.dx := Multilevel.dx k;
        Multilevel.globals := Multilevel.globals k; Multilevel.rng := Multilevel.rng k;
        Multilevel.log :=
          Multilevel.log k
          ++ [Multilevel.call_OLS "bmi ~ age_cen*female + year_cen" d;
              Multilevel.print_summary (Multilevel.ols_summary r)] |}).
Proof.
  intros Hd Hr.
  unfold Multilevel.cell_ols, bind, Multilevel.read_dx, lift, Multilevel.emit, modify.
  rewrite Hd, Hr. cbn [Multilevel.df Multilevel.dx Multilevel.globals Multilevel.rng Multilevel.log].
  rewrite ?Hd, <- app_assoc. reflexivity.
Qed.

Lemma run_subsample (d : list Multilevel.Dx.row) :
  Multilevel.dx k = Some d ->
  (2000 <= List.length (Multilevel.unique (Multilevel.present (map Multilevel.Dx.idind d))))%nat ->
  Multilevel.cell_subsample env k
  = (Ok tt,
     {| Multilevel.df := Multilevel.df k;
        Multilevel.dx :=
          Some (filter (Multilevel.idind_isin
                          (Multilevel.np_random_choice env (Multilevel.rng k)
                             (Multilevel.unique
                                (Multilevel.present (map Multilevel.Dx.idind d)))
                             2000))
                       d);
        Multilevel.globals := Multilevel.globals k;
        Multilevel.rng := S (Multilevel.rng k);
        Multilevel.log := Multilevel.log k |}).
Proof.
  intros Hd Hlen.
  unfold Multilevel.cell_subsample, bind, Multilevel.read_dx, Multilevel.next_draw,
    Multilevel.assign_dx, modify.
  rewrite Hd. cbv zeta.
  assert (E : (List.length (Multilevel.unique (Multilevel.present (map Multilevel.Dx.idind d)))
               <? 2000)%nat = false) by (apply Nat.ltb_ge; exact Hlen).
  rewrite E. reflexivity.
Qed.

Lemma run_fit (name fml groups : string) (vcf : option Multilevel.vc_formula)
    (d : list Multilevel.Dx.row) (r : Multilevel.MixedLMResults) :
  Multilevel.dx k = Some d ->
  Multilevel.sm_MixedLM env fml groups vcf d = Ok r ->
  Multilevel.fit_mixedlm env name fml groups vcf k
  = (Ok tt,
     {| Multilevel.df := Multilevel.df k; Multilevel.dx := Multilevel.dx k;
        Multilevel.globals := fun n =>
          if String.eqb n name then Some (Multilevel.py_result r)
          else Multilevel.globals k n;
        Multilevel.rng := Multilevel.rng k;
        Multilevel.log :=
          Multilevel.log k
          ++ [Multilevel.call_MixedLM fml groups vcf d;
              Multilevel.print_summary (Multilevel.summary r)] |}).
Proof.
  intros Hd Hr.
  unfold Multilevel.fit_mixedlm, bind, Multilevel.read_dx, lift, Multilevel.emit,
    Multilevel.assign, modify.
  rewrite Hd, Hr. cbn [Multilevel.df Multilevel.dx Multilevel.globals Multilevel.rng Multilevel.log].
  rewrite ?Hd, <- app_assoc. reflexivity.
Qed.

Lemma run_icc (r : Multilevel.MixedLMResults) (v : R) :
  Multilevel.globals k "result1"%string = Some (Multilevel.py_result r) ->
  Multilevel.params r "idind Var"%string = Some v ->
  Multilevel.cell_icc k
  = (Ok tt,
     {| Multilevel.df := Multilevel.df k; Multilevel.dx := Multilevel.dx k;
        Multilevel.globals := fun n =>
          if String.eqb n "pa" then Some (Multilevel.py_params (Multilevel.params r))
          else Multilevel.globals k n;
        Multilevel.rng := Multilevel.rng k;
        Multilevel.log :=
          Multilevel.log k
          ++ [Multilevel.print_float
                (Multilevel.fdiv (Multilevel.xnum v)
                   (Multilevel.xnum (v + Multilevel.scale r)))] |}).
Proof.
  intros Hr Hv.
  unfold Multilevel.cell_icc, bind, Multilevel.read_result, Multilevel.item,
    Multilevel.assign, Multilevel.emit, modify, ret.
  rewrite Hr. cbv zeta. rewrite Hv. reflexivity.
Qed.

End Cells.

Lemma simulate1_lines env (a b s : R) (am : Multilevel.float) (l : list nat) :
  forall k,
    Multilevel.globals k "age_mean"%string = Some (Multilevel.py_float am) ->
    for_each l (fun _ : nat =>
      (age_mean <- Multilevel.read_float "age_mean" ;;
       g <- Multilevel.next_draw ;;
       Multilevel.emit
         (Multilevel.lineplot [20; 60]%R
            (map (fun xi =>
                    Multilevel.fadd
                      (Multilevel.fadd (Some a)
                         (Multilevel.fmul (Some b) (Multilevel.fsub (Some xi) age_mean)))
                      (Some (s * Multilevel.np_random_normal env g)%R))
                 [20; 60]%R)
            "purple"))%cell) k
    = (Ok tt,
       {| Multilevel.df := Multilevel.df k; Multilevel.dx := Multilevel.dx k;
          Multilevel.globals := Multilevel.globals k;
          Multilevel.rng := Multilevel.rng k + List.length l;
          Multilevel.log :=
            (Multilevel.log k
             ++ map (simulated_line env a b s am)
                    (seq (Multilevel.rng k) (List.length l)))%list |}).
Proof.
  induction l as [| x rest IH]; intros k Hm.
  - destruct k; cbn. rewrite Nat.add_0_r, app_nil_r. reflexivity.
  - cbn [for_each]. rewrite bind_case.
    unfold bind at 1, Multilevel.read_float at 1. rewrite Hm.
    unfold bind at 1, Multilevel.next_draw at 1, Multilevel.emit at 1, modify at 1.
    cbn [Multilevel.df Multilevel.dx Multilevel.globals Multilevel.rng Multilevel.log].
    rewrite IH by exact Hm.
    cbn [Multilevel.df Multilevel.dx Multilevel.globals Multilevel.rng Multilevel.log
         List.length seq map].
    rewrite <- app_assoc, Nat.add_succ_r. reflexivity.
Qed.

Section CellsAfterTheFits.

Context (env : Multilevel.Env) (k : Multilevel.kernel).

Lemma run_simulate1 (pa : string -> option R) (a b v : R) (am : Multilevel.float) :
  Multilevel.globals k "pa"%string = Some (Multilevel.py_params pa) ->
  pa "Intercept"%string = Some a ->
  pa "age_cen"%string = Some b ->
  pa "idind Var"%string = Some v ->
  Multilevel.globals k "age_mean"%string = Some (Multilevel.py_float am) ->
  Multilevel.cell_simulate1 env k
  = (Ok tt,
     {| Multilevel.df := Multilevel.df k; Multilevel.dx := Multilevel.dx k;
        Multilevel.globals := Multilevel.globals k;
        Multilevel.rng := Multilevel.rng k + 10;
        Multilevel.log :=
          (Multilevel.log k
           ++ map (simulated_line env a b (sqrt v) am) (seq (Multilevel.rng k) 10))%list |}).
Proof.
  intros Hpa Ha Hb Hv Hm.
  unfold Multilevel.cell_simulate1, bind at 1, Multilevel.read_params.
  rewrite Hpa. cbv beta iota. unfold Multilevel.item.
  rewrite Ha. unfold bind at 1, ret at 1. cbv beta iota.
  rewrite Hb. unfold bind at 1, ret at 1. cbv beta iota.
  rewrite Hv. unfold bind at 1, ret at 1. cbv beta iota zeta.
  apply (simulate1_lines env a b (sqrt v) am (Multilevel.range 10) k Hm).
Qed.

Lemma simulate2_lines (a b si ss : R) (am : Multilevel.float) (l : list nat) :
  forall st,
    Multilevel.globals st "age_mean"%string = Some (Multilevel.py_float am) ->
    exists lines,
      for_each l (fun _ : nat =>
        (g1 <- Multilevel.next_draw ;;
         g2 <- Multilevel.next_draw ;;
         age_mean <- Multilevel.read_float "age_mean" ;;
         Multilevel.emit
           (Multilevel.lineplot [20; 60]%R
              (map (fun xi =>
                      Multilevel.fadd
                        (Some (a + si * Multilevel.np_random_normal env g1)%R)
                        (Multilevel.fmul
                           (Some (b + ss * Multilevel.np_random_normal env g2)%R)
                           (Multilevel.fsub (Some xi) age_mean)))
                   [20; 60]%R)
              "orange"))%cell) st
      = (Ok tt,
         {| Multilevel.df := Multilevel.df st; Multilevel.dx := Multilevel.dx st;
            Multilevel.globals := Multilevel.globals st;
            Multilevel.rng := Multilevel.rng st + 2 * List.length l;
            Multilevel.log := (Multilevel.log st ++ lines)%list |}) /\
      purple_lines lines = [].
Proof.
  induction l as [| x rest IH]; intros st Hm.
  - exists []. split; [| reflexivity].
    destruct st; cbn. rewrite Nat.add_0_r, app_nil_r. reflexivity.
  - cbn [for_each]. rewrite bind_case.
    unfold bind at 1, Multilevel.next_draw at 1.
    unfold bind at 1, Multilevel.next_draw at 1.
    unfold bind at 1, Multilevel.read_float at 1.
    cbn [Multilevel.df Multilevel.dx Multilevel.globals Multilevel.rng Multilevel.log].
    rewrite Hm.
    unfold Multilevel.emit at 1, modify at 1.
    cbn [Multilevel.df Multilevel.dx Multilevel.globals Multilevel.rng Multilevel.log].
    match goal with
    | |- context [for_each rest _ ?st1] =>
        destruct (IH st1 Hm) as (lines & E & Hp); rewrite E
    end.
    cbn [Multilevel.df Multilevel.dx Multilevel.globals Multilevel.rng Multilevel.log].
    eexists. split.
    + rewrite <- app_assoc. cbn [List.length].
      replace (S (S (Multilevel.rng st)) + 2 * List.length rest)
        with (Multilevel.rng st + 2 * S (List.length rest)) by lia.
      reflexivity.
    + unfold purple_lines in *. cbn. exact Hp.
Qed.

Lemma run_simulate2 (r : Multilevel.MixedLMResults) (a b vi vs : R) (am : Multilevel.float) :
  Multilevel.globals k "result2"%string = Some (Multilevel.py_result r) ->
  Multilevel.params r "Intercept"%string = Some a ->
  Multilevel.params r "age_cen"%string = Some b ->
  Multilevel.params r "i Var"%string = Some vi ->
  Multilevel.params r "s Var"%string = Some vs ->
  Multilevel.globals k "age_mean"%string = Some (Multilevel.py_float am) ->
  exists lines,
    Multilevel.cell_simulate2 env k
    = (Ok tt,
       {| Multilevel.df := Multilevel.df k; Multilevel.dx := Multilevel.dx k;
          Multilevel.globals := fun n =>
            if String.eqb n "pa" then Some (Multilevel.py_params (Multilevel.params r))
            else Multilevel.globals k n;
          Multilevel.rng := Multilevel.rng k + 20;
          Multilevel.log := (Multilevel.log k ++ lines)%list |}) /\
    purple_lines lines = [].
Proof.
  intros Hr Ha Hb Hvi Hvs Hm.
  unfold Multilevel.cell_simulate2, bind at 1, Multilevel.read_result.
  rewrite Hr. cbv beta iota zeta.
  unfold bind at 1, Multilevel.assign at 1, modify at 1. unfold Multilevel.item.
  rewrite Ha. unfold bind at 1, ret at 1. cbv beta iota.
  rewrite Hb. unfold bind at 1, ret at 1. cbv beta iota.
  rewrite Hvi. unfold bind at 1, ret at 1. cbv beta iota.
  rewrite Hvs. unfold bind at 1, ret at 1. cbv beta iota zeta.
  match goal with
  | |- context [for_each (Multilevel.range 10) _ ?st1] =>
      destruct (simulate2_lines a b (sqrt vi) (sqrt vs) am (Multilevel.range 10) st1)
        as (lines & E & Hp); [exact Hm |]
  end.
  exists lines. split; [| exact Hp]. rewrite E. reflexivity.
Qed.

Lemma run_slope_density (r : Multilevel.MixedLMResults) (m v : R) :
  Multilevel.globals k "result2"%string = Some (Multilevel.py_result r) ->
  Multilevel.params r "age_cen"%string = Some m ->
  Multilevel.params r "s Var"%string = Some v ->
  exists x y,
    Multilevel.cell_slope_density k
    = (Ok tt,
       {| Multilevel.df := Multilevel.df k; Multilevel.dx := Multilevel.dx k;
          Multilevel.globals := fun n =>
            if String.eqb n "pa" then Some (Multilevel.py_params (Multilevel.params r))
            else Multilevel.globals k n;
          Multilevel.rng := Multilevel.rng k;
          Multilevel.log := (Multilevel.log k ++ [Multilevel.lineplot x y ""])%list |}).
Proof.
  intros Hr Hm Hv. eexists. eexists.
  unfold Multilevel.cell_slope_density, bind at 1, Multilevel.read_result.
  rewrite Hr. cbv beta iota zeta. unfold Multilevel.item.
  rewrite Hm, Hv. reflexivity.
Qed.

Lemma run_psu_density (r : Multilevel.MixedLMResults) (v1 v2 : R) :
  Multilevel.globals k "result3"%string = Some (Multilevel.py_result r) ->
  Multilevel.params r "i Var"%string = Some v1 ->
  Multilevel.params r "ipsu Var"%string = Some v2 ->
  exists x y1 y2,
    Multilevel.cell_psu_density k
    = (Ok tt,
       {| Multilevel.df := Multilevel.df k; Multilevel.dx := Multilevel.dx k;
          Multilevel.globals := fun n =>
            if String.eqb n "pa" then Some (Multilevel.py_params (Multilevel.params r))
            else Multilevel.globals k n;
          Multilevel.rng := Multilevel.rng k;
          Multilevel.log :=
            (Multilevel.log k
             ++ [Multilevel.lineplot x y1 ""; Multilevel.lineplot x y2 ""])%list |}).
Proof.
  intros Hr H1 H2. eexists. eexists. eexists.
  unfold Multilevel.cell_psu_density, bind at 1, Multilevel.read_result.
  rewrite Hr. cbv beta iota zeta. unfold Multilevel.item.
  rewrite H1, H2. unfold bind, ret, Multilevel.assign, Multilevel.emit, modify.
  cbn [fst snd Multilevel.log Multilevel.df Multilevel.dx Multilevel.globals Multilevel.rng].
  rewrite <- app_assoc. reflexivity.
Qed.

End CellsAfterTheFits.

Lemma run_count_responses env df k :
  Multilevel.cell_count_responses env df k
  = (Ok tt,
     {| Multilevel.df := Multilevel.df k; Multilevel.dx := Multilevel.dx k;
        Multilevel.globals := Multilevel.globals k; Multilevel.rng := Multilevel.rng k;
        Multilevel.log :=
          Multilevel.log k
          ++ [Multilevel.print_counts
                (Multilevel.pd_group_sizes env
                   (map Multilevel.Csv.idind
                      (filter (fun r => (Multilevel.raw_notna (Multilevel.Csv.idind r)
                                         && Multilevel.raw_notna (Multilevel.Csv.m1 r))%bool)
                              df)))] |}).
Proof. reflexivity. Qed.

Lemma run_derive nums k :
  Multilevel.cell_derive nums k
  = (Ok tt,
     {| Multilevel.df := Some (derived nums); Multilevel.dx := Multilevel.dx k;
        Multilevel.globals := fun n =>
          if String.eqb n "age_mean"
          then Some (Multilevel.py_float (Multilevel.mean (map Multilevel.age_of nums)))
          else if String.eqb n "year_mean"
          then Some (Multilevel.py_float (Multilevel.mean (map Multilevel.Num.year nums)))
          else Multilevel.globals k n;
        Multilevel.rng := Multilevel.rng k;
        Multilevel.log := Multilevel.log k |}).
Proof. reflexivity. Qed.

Lemma purple_lines_app (xs ys : list Multilevel.event) :
  purple_lines (xs ++ ys) = (purple_lines xs ++ purple_lines ys)%list.
Proof. apply filter_app. Qed.

Lemma purple_simulated env a b s am (l : list nat) :
  purple_lines (map (simulated_line env a b s am) l) = map (simulated_line env a b s am) l.
Proof.
  induction l as [| g rest IH]; [reflexivity |].
  cbn [map]. unfold purple_lines in *. cbn [filter simulated_line].
  change (String.eqb "purple" "purple") with true. cbv iota. rewrite IH. reflexivity.
Qed.

Ltac after R tac :=
  match type of R with
  | _ = (_, ?st) => tac st
  end.

Ltac tidy R :=
  cbn [Multilevel.df Multilevel.dx Multilevel.globals Multilevel.rng Multilevel.log] in R.

Lemma enough_subjects_run (n : nat) :
  (2000 <= S n)%nat ->
  exists DF D am,
    forall seed,
    exists k,
      Multilevel.notebook (world_of (S n)) (Multilevel.fresh seed) = (Ok tt, k) /\
      Multilevel.df k = Some DF /\
      Multilevel.dx k = Some D /\
      purple_lines (Multilevel.log k)
      = map (simulated_line (world_of (S n)) 1 1 (sqrt 1) (Some am)) (seq (S seed) 10).
Proof.
  intros Hn.
  set (W := world_of (S n)).
  set (nums := map numeric_row (seq 0 (S n))).
  set (csv := map subject_row (seq 0 (S n))).
  set (idx := Multilevel.unique (Multilevel.present (map Multilevel.Dx.idind (complete_rows nums)))).
  destruct (mean_of_known (2000 - 1960)
              (map Multilevel.age_of (map numeric_row (seq 1 n)))) as [am Ham].
  assert (Hmean : Multilevel.mean (map Multilevel.age_of nums) = Some am) by exact Ham.
  exists (derived nums), (filter (Multilevel.idind_isin idx) (complete_rows nums)), am.
  intros seed.
  assert (Hnum : Multilevel.map_outcome
                   (Multilevel.to_numeric_row W Multilevel.errors_coerce) csv = Ok nums)
    by (apply map_outcome_map; reflexivity).
  assert (Hidx : (2000 <= List.length idx)%nat).
  { unfold idx, nums. rewrite subjects_distinct, length_map, length_seq. exact Hn. }
  assert (R0 : Multilevel.cell_convert_stata (Multilevel.fresh seed)
               = (Ok tt, Multilevel.fresh seed)) by reflexivity.
  pose proof (run_read_csv W (Multilevel.fresh seed) csv eq_refl) as R1. tidy R1.
  after R1 ltac:(fun st => pose proof (run_count_responses W csv st) as R2). tidy R2.
  after R2 ltac:(fun st => pose proof (run_to_numeric W st csv nums Hnum) as R3). tidy R3.
  after R3 ltac:(fun st => pose proof (run_derive nums st) as R4). tidy R4.
  after R4 ltac:(fun st => pose proof (run_dx W st (derived nums) eq_refl) as R5). tidy R5.
  fold (complete_rows nums) in R5.
  after R5 ltac:(fun st =>
    pose proof (run_ols W st (complete_rows nums) {| Multilevel.ols_summary := "coef" |}
                  eq_refl eq_refl) as R6). tidy R6.
  after R6 ltac:(fun st =>
    pose proof (run_subsample W st (complete_rows nums) eq_refl Hidx) as R7). tidy R7.
  fold idx in R7.
  change (Multilevel.np_random_choice W (Multilevel.rng (Multilevel.fresh seed)) idx 2000)
    with idx in R7.
  set (D := filter (Multilevel.idind_isin idx) (complete_rows nums)) in *.
  set (fitted1 := fitted_mixed all_ones).
  after R7 ltac:(fun st =>
    pose proof (run_fit W st "result1" "bmi ~ age_cen*female + year_cen" "idind" None
                  D fitted1 eq_refl eq_refl) as R8). tidy R8.
  after R8 ltac:(fun st => pose proof (run_icc st fitted1 1%R eq_refl eq_refl) as R9). tidy R9.
  after R9 ltac:(fun st =>
    pose proof (run_simulate1 W st all_ones 1 1 1 (Multilevel.mean (map Multilevel.age_of nums))
                  eq_refl eq_refl eq_refl eq_refl eq_refl) as R10). tidy R10.
  after R10 ltac:(fun st =>
    pose proof (run_fit W st "result2" "bmi ~ age_cen*female + year_cen" "idind"
                  (Some [("i", "1"); ("s", "0 + age_cen")]%string)
                  D fitted1 eq_refl eq_refl) as R11). tidy R11.
  after R11 ltac:(fun st =>
    destruct (run_simulate2 W st fitted1 1 1 1 1 (Multilevel.mean (map Multilevel.age_of nums))
                eq_refl eq_refl eq_refl eq_refl eq_refl eq_refl) as (lines2 & R12 & P12)).
  tidy R12.
  after R12 ltac:(fun st =>
    destruct (run_slope_density st fitted1 1 1 eq_refl eq_refl eq_refl)
      as (x13 & y13 & R13)). tidy R13.
  after R13 ltac:(fun st =>
    pose proof (run_fit W st "result3" "bmi ~ age_cen*female + year_cen" "psu"
                  (Some [("i", "0 + C(idind)"); ("s", "0 + C(idind):age_cen");
                         ("ipsu", "1")]%string)
                  D fitted1 eq_refl eq_refl) as R14). tidy R14.
  after R14 ltac:(fun st =>
    destruct (run_psu_density st fitted1 1 1 eq_refl eq_refl eq_refl)
      as (x15 & y15 & z15 & R15)). tidy R15.
  after R15 ltac:(fun st =>
    pose proof (run_fit W st "result4" "bmi ~ age_cen*female + year_cen" "psu"
                  (Some [("i", "0 + C(idind)"); ("s", "0 + C(idind):age_cen");
                         ("ipsu", "1"); ("spsu", "0 + age_cen")]%string)
                  D fitted1 eq_refl eq_refl) as R16). tidy R16.
  eexists. split.
  { unfold Multilevel.notebook.
    rewrite (bind_ok _ _ _ _ _ R0).
    rewrite (bind_ok _ _ _ _ _ R1).
    rewrite (bind_ok _ _ _ _ _ R2).
    rewrite (bind_ok _ _ _ _ _ R3).
    rewrite (bind_ok _ _ _ _ _ R4).
    rewrite (bind_ok _ _ _ _ _ R5).
    rewrite (bind_ok _ _ _ _ _ R6).
    rewrite (bind_ok _ _ _ _ _ R7).
    unfold Multilevel.cell_model1, Multilevel.cell_model2, Multilevel.cell_model3,
      Multilevel.cell_model4. cbv zeta.
    rewrite (bind_ok _ _ _ _ _ R8).
    rewrite (bind_ok _ _ _ _ _ R9).
    rewrite (bind_ok _ _ _ _ _ R10).
    rewrite (bind_ok _ _ _ _ _ R11).
    rewrite (bind_ok _ _ _ _ _ R12).
    rewrite (bind_ok _ _ _ _ _ R13).
    rewrite (bind_ok _ _ _ _ _ R14).
    rewrite (bind_ok _ _ _ _ _ R15).
    exact R16. }
  cbn [Multilevel.df Multilevel.dx Multilevel.log].
  split; [reflexivity |]. split; [reflexivity |].
  rewrite !purple_lines_app, P12, Hmean, purple_simulated.
  cbn [Multilevel.fresh Multilevel.log Multilevel.rng].
  repeat match goal with
  | |- context [purple_lines ?l] =>
      progress change (purple_lines l) with (@nil Multilevel.event)
  end.
  rewrite !app_nil_r. reflexivity.
Qed.

(** C6: each of the four mixed-model cells hands the library the
    fixed-effects formula ["bmi ~ age_cen*female + year_cen"], the
    analysis frame and one grouping column, [idind] for the two
    subject-level models and [psu] for the two PSU-level models, the
    first with no [vc_formula], the others with one that declares a
    random intercept (["1"] or ["0 + C(idind)"]) and a random slope in
    [age_cen] (["0 + age_cen"] or ["0 + C(idind):age_cen"]): each cell
    ends, logs and binds its result as the library answers that very
    request.  The fits a run makes are these four, in this order, on one
    frame, all four when the run completes; and with two thousand
    subjects and a library that answers, the run completes. *)
Theorem mixedlm_formulas (env : Multilevel.Env) (seed : nat) :
  let fml := "bmi ~ age_cen*female + year_cen"%string in
  let run := Multilevel.notebook env (Multilevel.fresh seed) in
  let big := Multilevel.notebook (world_of 2000) (Multilevel.fresh seed) in
  hands_mixedlm env (Multilevel.cell_model1 env) "result1" fml "idind" None /\
  hands_mixedlm env (Multilevel.cell_model2 env) "result2" fml "idind"
    (Some [("i", "1"); ("s", "0 + age_cen")]%string) /\
  hands_mixedlm env (Multilevel.cell_model3 env) "result3" fml "psu"
    (Some [("i", "0 + C(idind)"); ("s", "0 + C(idind):age_cen"); ("ipsu", "1")]%string) /\
  hands_mixedlm env (Multilevel.cell_model4 env) "result4" fml "psu"
    (Some [("i", "0 + C(idind)"); ("s", "0 + C(idind):age_cen");
           ("ipsu", "1"); ("spsu", "0 + age_cen")]%string) /\
  Forall mixedlm_call_ok (Multilevel.log (snd run)) /\
  (exists d n,
     mixedlm_calls (Multilevel.log (snd run)) = firstn n (four_fits d) /\
     (fst run = Ok tt -> n = 4%nat /\ Multilevel.dx (snd run) = Some d)) /\
  (exists d,
     fst big = Ok tt /\ mixedlm_calls (Multilevel.log (snd big)) = four_fits d).
Proof.
  intros fml run big.
  assert (H0 : forall s, logged_dx no_mixedlm (fun _ => True) (Multilevel.fresh s))
    by (intros s; split; [constructor | trivial]).
  split; [| split; [| split; [| split; [| split; [| split]]]]].
  - apply hands_mixedlm_run.
  - apply hands_mixedlm_run.
  - apply hands_mixedlm_run.
  - apply hands_mixedlm_run.
  - apply (mixedlm_fits env (Multilevel.fresh seed)). split; [constructor | trivial].
  - pose proof (fits_of_a_run env (Multilevel.fresh seed) (H0 seed)) as H.
    unfold run. destruct (Multilevel.notebook env (Multilevel.fresh seed)) as [[[] | e] k].
    + destruct H as (d & Hd & Hl). exists d, 4%nat. cbn [fst snd].
      split; [exact Hl |]. intros _. split; [reflexivity | exact Hd].
    + destruct H as (d & n & Hl). exists d, n. cbn [fst snd].
      split; [exact Hl | discriminate].
  - destruct (enough_subjects_run 1999 (Nat.le_refl _)) as (DF & D & am & Hrun).
    destruct (Hrun seed) as (k & E & _ & Hd & _).
    pose proof (fits_of_a_run (world_of 2000) (Multilevel.fresh seed) (H0 seed)) as H.
    unfold big. rewrite E in *. cbn [fst snd].
    destruct H as (d & _ & Hl). exists d. split; [reflexivity | exact Hl].
Qed.

(** C9 as the specification has it fails: in the world of two thousand
    subjects, two runs of the notebook that start with the generator in
    states 0 and 1 both complete, end with the same frames and have
    handed the same frame to every fit, and the first simulation cell has
    drawn other lines: its first line is made from the normal draw left
    after the draw of the subsample, the draw 1 in one run and the draw 2
    in the other. *)
Lemma simulation_depends_on_generator :
  let W := world_of 2000 in
  let run seed := Multilevel.notebook W (Multilevel.fresh seed) in
  let line am z :=
    Multilevel.lineplot [20; 60]%R
      [Some (1 + 1 * (20 - am) + sqrt 1 * z)%R; Some (1 + 1 * (60 - am) + sqrt 1 * z)%R]
      "purple" in
  fst (run 0%nat) = Ok tt /\
  fst (run 1%nat) = Ok tt /\
  same_dataset (snd (run 0%nat)) (snd (run 1%nat)) /\
  mixedlm_calls (Multilevel.log (snd (run 0%nat)))
  = mixedlm_calls (Multilevel.log (snd (run 1%nat))) /\
  (exists am,
     hd_error (purple_lines (Multilevel.log (snd (run 0%nat)))) = Some (line am 1%R) /\
     hd_error (purple_lines (Multilevel.log (snd (run 1%nat)))) = Some (line am 2%R)) /\
  Multilevel.log (snd (run 0%nat)) <> Multilevel.log (snd (run 1%nat)) /\
  ~ decided_by_dataset W.
Proof.
  intros W run line.
  destruct (enough_subjects_run 1999 (Nat.le_refl _)) as (DF & D & am & Hrun).
  destruct (Hrun 0%nat) as (k0 & E0 & Hdf0 & Hdx0 & Hp0).
  destruct (Hrun 1%nat) as (k1 & E1 & Hdf1 & Hdx1 & Hp1).
  assert (H0 : forall s, logged_dx no_mixedlm (fun _ => True) (Multilevel.fresh s))
    by (intros s; split; [constructor | trivial]).
  pose proof (fits_of_a_run W (Multilevel.fresh 0) (H0 0%nat)) as F0.
  pose proof (fits_of_a_run W (Multilevel.fresh 1) (H0 1%nat)) as F1.
  unfold run, W in *. rewrite E0 in *. rewrite E1 in *. cbn [fst snd].
  destruct F0 as (d0 & Hd0 & Hl0), F1 as (d1 & Hd1 & Hl1).
  assert (Hsame : same_dataset k0 k1) by (split; congruence).
  assert (Hdiff : Multilevel.log k0 <> Multilevel.log k1).
  { intros H. apply (f_equal purple_lines) in H. rewrite Hp0, Hp1 in H.
    cbn [seq map] in H. apply (f_equal (@hd_error _)) in H. cbn [hd_error] in H.
    unfold simulated_line in H.
    cbn [map Multilevel.fadd Multilevel.fmul Multilevel.fsub Multilevel.np_random_normal
         world_of INR] in H.
    assert (E : (1 + 1 * (20 - am) + sqrt 1 * 1 = 1 + 1 * (20 - am) + sqrt 1 * (1 + 1))%R)
      by congruence.
    rewrite sqrt_1 in E. lra. }
  split; [reflexivity |]. split; [reflexivity |]. split; [exact Hsame |].
  split; [rewrite Hl0, Hl1; congruence |].
  split; [| split].
  - exists am. rewrite Hp0, Hp1. split; reflexivity.
  - exact Hdiff.
  - intros H. apply Hdiff.
    specialize (H 0%nat 1%nat). rewrite E0, E1 in H. apply H. exact Hsame.
Qed.

(** The density is never an infinity: a zero spread makes it NaN, any
    other spread a number, so that [normal_density] loses nothing by
    writing both NaN and an infinity as missing. *)
Lemma normal_density_not_infinite (d s : R) (negative : bool) :
  Multilevel.fdiv
    (Multilevel.fexp
       (Multilevel.fdiv (Multilevel.xnum (- d ^ 2)%R) (Multilevel.xnum (2 * s ^ 2)%R)))
    (Multilevel.xnum (sqrt (2 * PI * s ^ 2)))
  <> Multilevel.xinf negative.
Proof.
  destruct (Req_dec_T s 0) as [-> | Hs].
  - replace (2 * 0 ^ 2)%R with 0%R by ring.
    replace (2 * PI * 0 ^ 2)%R with 0%R by ring.
    rewrite sqrt_0. unfold Multilevel.fdiv at 2.
    destruct (Req_dec_T 0 0) as [_ | E]; [| contradiction].
    destruct (Req_dec_T (- d ^ 2) 0) as [E | E].
    + discriminate.
    + assert (Hd : (- d ^ 2 < 0)%R) by (simpl in *; nra).
      unfold Rgtb. destruct (Rlt_dec (- d ^ 2) 0) as [_ | N]; [| contradiction].
      cbn [Multilevel.fexp]. unfold Multilevel.fdiv.
      destruct (Req_dec_T 0 0) as [_ | N]; [discriminate | contradiction].
  - destruct (normal_density_pos d s Hs) as (y & Hy & _).
    unfold Multilevel.normal_density in Hy. cbv zeta in Hy.
    intros E. rewrite E in Hy. discriminate.
Qed.
